(** * excel_generation: column codec, export and upload pipelines

    Shallow embedding of the Python services
    [services/generator_service.py], [services/upload_service.py] and
    [utils/db.py].  Python [int] is [Z], [str] is the [string] of its UTF-8
    bytes, a [dict] is an insertion-ordered association list, exceptions
    are values of an explicit result type. *)

From Equations Require Import Equations.
From stdpp Require Import base option list strings gmap pretty.
From Stdlib Require Import ZArith Lia Ascii String.

Local Open Scope string_scope.
Local Open Scope Z_scope.

(** ** Python primitives used by the services *)

(** [chr(n)] for the code points the services build (below 256). *)
Definition chr (n : Z) : ascii := ascii_of_N (Z.to_N n).

(** [ord(c)]. *)
Definition ord (c : ascii) : Z := Z.of_N (N_of_ascii c).

(** [sep.join(parts)]. *)
Definition join (sep : string) (parts : list string) : string :=
  String.concat sep parts.

(** Text is carried as its UTF-8 encoding.  The white space of Python, which
    [str.strip()] removes: the one-byte characters U+0009 to U+000D, U+001C
    to U+001F and the space; the two-byte characters U+0085 and U+00A0; the
    three-byte characters U+1680, U+2000 to U+200A, U+2028, U+2029, U+202F,
    U+205F and U+3000. *)
Definition is_space (c : ascii) : bool :=
  let n := ord c in
  ((9 <=? n) && (n <=? 13)) || ((28 <=? n) && (n <=? 32)).

Definition is_space2 (b1 b2 : ascii) : bool :=
  (ord b1 =? 194) && ((ord b2 =? 133) || (ord b2 =? 160)).

Definition is_space3 (b1 b2 b3 : ascii) : bool :=
  let x := ord b1 in
  let y := ord b2 in
  let z := ord b3 in
  ((x =? 225) && (y =? 154) && (z =? 128))
  || ((x =? 226) && (y =? 128)
      && (((128 <=? z) && (z <=? 138))
          || (z =? 168) || (z =? 169) || (z =? 175)))
  || ((x =? 226) && (y =? 129) && (z =? 159))
  || ((x =? 227) && (y =? 128) && (z =? 128)).

(** Removal of the white space at the front of a text; [two] and [three]
    recognise the characters of two and three bytes. *)
Fixpoint drop_space (two : ascii -> ascii -> bool)
    (three : ascii -> ascii -> ascii -> bool) (s : string) : string :=
  match s with
  | EmptyString => EmptyString
  | String b1 rest1 =>
      if is_space b1 then drop_space two three rest1
      else
        match rest1 with
        | EmptyString => s
        | String b2 rest2 =>
            if two b1 b2 then drop_space two three rest2
            else
              match rest2 with
              | EmptyString => s
              | String b3 rest3 =>
                  if three b1 b2 b3 then drop_space two three rest3 else s
              end
        end
  end.

(** [s.lstrip()]. *)
Definition lstrip (s : string) : string := drop_space is_space2 is_space3 s.

(** [s.rstrip()]: the same removal on the reversed text, where the bytes
    of a character come last byte first. *)
Definition rstrip (s : string) : string :=
  String.rev
    (drop_space (fun b2 b1 => is_space2 b1 b2)
       (fun b3 b2 b1 => is_space3 b1 b2 b3) (String.rev s)).

(** [s.strip()]. *)
Definition strip (s : string) : string := rstrip (lstrip s).

(** Python values that reach the services.  A [float], and an object of any
    other class, is carried with the text [str] gives for it. *)
Inductive pyvalue :=
| PyNone
| PyBool (b : bool)
| PyInt (n : Z)
| PyFloat (text : string)
| PyStr (s : string)
| PyObject (text : string).

#[global] Instance pyvalue_eq_dec : EqDecision pyvalue.
Proof. solve_decision. Defined.

(** [str(value)]. *)
Definition str (value : pyvalue) : string :=
  match value with
  | PyNone => "None"
  | PyBool true => "True"
  | PyBool false => "False"
  | PyInt n => pretty n
  | PyFloat text => text
  | PyStr s => s
  | PyObject text => text
  end.

(** [value is None]. *)
Definition is_None (value : pyvalue) : bool :=
  match value with PyNone => true | _ => false end.

(** [isinstance(value, bool)]. *)
Definition isinstance_bool (value : pyvalue) : bool :=
  match value with PyBool _ => true | _ => false end.

(** [isinstance(value, (int, float))]; [bool] is a subclass of [int]. *)
Definition isinstance_int_float (value : pyvalue) : bool :=
  match value with
  | PyBool _ | PyInt _ | PyFloat _ => true
  | _ => false
  end.

(** Truth value of a Python value, as [if value] tests it; an object of
    another class is taken to be true. *)
Definition truthy (value : pyvalue) : bool :=
  match value with
  | PyNone => false
  | PyBool b => b
  | PyInt n => negb (n =? 0)
  | PyFloat text => negb (bool_decide (text = "0.0") || bool_decide (text = "-0.0"))
  | PyStr s => negb (bool_decide (s = ""))
  | PyObject _ => true
  end.


(** [repr] of a [str] in the ASCII range: the quote is the apostrophe
    unless the text has an apostrophe and no double quote; the quote, the
    backslash and the control characters are escaped.  (Outside ASCII
    Python escapes the characters it holds for non-printable, which takes
    its character tables; the statements that depend on this text are
    about ASCII text.) *)
Fixpoint contains_char (c : ascii) (s : string) : bool :=
  match s with
  | EmptyString => false
  | String d rest => bool_decide (c = d) || contains_char c rest
  end.

Definition hex_digit (n : Z) : ascii :=
  if n <? 10 then chr (n + ord "0") else chr (n - 10 + ord "a").

Definition apostrophe : ascii := chr 39.
Definition double_quote : ascii := chr 34.
Definition backslash : ascii := chr 92.

Definition repr_char (quote c : ascii) : string :=
  let n := ord c in
  if bool_decide (c = quote) || bool_decide (c = backslash)
  then String backslash (String c "")
  else if n =? 9 then String backslash "t"
  else if n =? 10 then String backslash "n"
  else if n =? 13 then String backslash "r"
  else if (n <? 32) || (n =? 127)
  then String backslash (String "x" (String (hex_digit (n / 16))
                                       (String (hex_digit (n mod 16)) "")))
  else String c "".

Fixpoint repr_chars (quote : ascii) (s : string) : string :=
  match s with
  | EmptyString => EmptyString
  | String c rest => repr_char quote c ++ repr_chars quote rest
  end.

Definition repr_str (s : string) : string :=
  let quote : ascii :=
    if contains_char apostrophe s && negb (contains_char double_quote s)
    then double_quote else apostrophe in
  String quote (repr_chars quote s) ++ String quote "".

(** [repr] of a list of [str], as an f-string prints it. *)
Definition repr_list (l : list string) : string :=
  "[" ++ join ", " (repr_str <$> l) ++ "]".

(** ** Dictionaries

    A Python [dict] keeps its keys in insertion order; assigning to a key
    that is present replaces the value in place. *)
Definition pydict (V : Type) : Type := list (string * V).

Fixpoint dict_get {V} (d : pydict V) (key : string) : option V :=
  match d with
  | [] => None
  | (k, v) :: rest => if decide (k = key) then Some v else dict_get rest key
  end.

Fixpoint dict_set {V} (d : pydict V) (key : string) (value : V) : pydict V :=
  match d with
  | [] => [(key, value)]
  | (k, v) :: rest =>
      if decide (k = key) then (k, value) :: rest
      else (k, v) :: dict_set rest key value
  end.

(** [list(d.keys())]. *)
Definition keys {V} (d : pydict V) : list string := fst <$> d.

(** ** Exceptions

    The classes below all derive from [Exception]; the three specialised
    errors of [utils/error_handling.py] derive from [ExcelGenerationError]. *)
Inductive exn_class :=
| ExcelGenerationError
| DatabaseError
| TemplateError
| ValidationError
| AttributeError
| ValueError
| OtherException.

#[global] Instance exn_class_eq_dec : EqDecision exn_class.
Proof. solve_decision. Defined.

(** A raised exception: its class and [str(e)]. *)
Record exn := Exn { exn_cls : exn_class; exn_msg : string }.

(** [issubclass(c, base)] over the classes above. *)
Definition issubclass (c base : exn_class) : bool :=
  bool_decide (c = base) ||
  match base, c with
  | ExcelGenerationError, (DatabaseError | TemplateError | ValidationError) => true
  | _, _ => false
  end.

(** [isinstance(e, base)], the test an [except base] clause makes. *)
Definition isinstance (e : exn) (base : exn_class) : bool :=
  issubclass (exn_cls e) base.

(** Outcome of a call: it returns a value or raises. *)
Inductive outcome (A : Type) :=
| Return (a : A)
| Raise (e : exn).
Arguments Return {A} a.
Arguments Raise {A} e.

(** Computations over a mutable state [S] that may raise; the state keeps
    the changes made before the exception. *)
Definition M (S A : Type) : Type := S -> outcome A * S.

#[global] Instance M_ret {S} : MRet (M S) :=
  fun A a s => (Return a, s).

#[global] Instance M_bind {S} : MBind (M S) :=
  fun A B k m s => match m s with
                   | (Return a, s') => k a s'
                   | (Raise e, s') => (Raise e, s')
                   end.

Definition raise {S A} (e : exn) : M S A := fun s => (Raise e, s).

(** A call that does not touch the state. *)
Definition lift {S A} (o : outcome A) : M S A := fun s => (o, s).

(** [try: body  except cls as e: handler e]; [None] stands for
    [except Exception], which takes every class above. *)
Definition try_except {S A} (body : M S A) (cls : option exn_class)
    (handler : exn -> M S A) : M S A :=
  fun s => match body s with
           | (Return a, s') => (Return a, s')
           | (Raise e, s') =>
               if match cls with
                  | None => true
                  | Some c => isinstance e c
                  end
               then handler e s' else (Raise e, s')
           end.

(** A [for] loop whose body may raise. *)
Fixpoint for_each {S A} (l : list A) (body : A -> M S unit) : M S unit :=
  match l with
  | [] => mret tt
  | x :: rest => body x;; for_each rest body
  end.

(** [enumerate(l)], with Python integer positions. *)
Definition enumerate {A} (l : list A) : list (Z * A) :=
  imap (fun i x => (Z.of_nat i, x)) l.

(** [range(n)]. *)
Definition range (n : Z) : list Z := Z.of_nat <$> seq 0 (Z.to_nat n).

(** ** The relational store

    A statement sent to the store: SQL text with its bound parameters, or a
    COPY issued through the synchronous driver. *)
Inductive statement :=
| Sql (text : string) (params : pydict pyvalue)
| CopyExpert (text : string).

(** What the services can observe of the store: the tables that exist and
    the statements sent so far, oldest first. *)
Record store := Store { tables : gset string; log : list statement }.

(** The store's side of the conversation.  [answer_*] give the rows of a
    statement that runs; [failure] tells, from the statements already sent,
    whether the next one raises. *)
Record Server := {
  answer_columns : string -> list string;
  answer_select : string -> pydict pyvalue -> list (pydict pyvalue);
  answer_data_type : string -> string -> list string;
  failure : list statement -> statement -> option exn
}.

(** [session.execute(...)] / [conn.execute(...)]: the statement is sent and
    either runs or raises. *)
Definition execute (server : Server) (stmt : statement) : M store unit :=
  fun st =>
    let st' := Store (tables st) (log st ++ [stmt]) in
    match failure server (log st) stmt with
    | Some e => (Raise e, st')
    | None => (Return tt, st')
    end.

(** [f'"{name}"']. *)
Definition quoted (name : string) : string :=
  String double_quote name ++ String double_quote "".

Module DatabaseManager.
Section WithServer.
Variable server : Server.

(** The literal of [get_table_columns], layout whitespace dropped. *)
Definition columns_sql : string :=
  "SELECT column_name FROM information_schema.columns " ++
  "WHERE table_name = :table_name ORDER BY ordinal_position".

Definition get_table_columns (table_name : string) : M store (list string) :=
  try_except
    (execute server (Sql columns_sql [("table_name", PyStr table_name)]);;
     let columns := answer_columns server table_name in
     if bool_decide (columns = [])
     then raise (Exn DatabaseError ("Tabla '" ++ table_name ++ "' no encontrada"))
     else mret columns)
    None
    (fun e => raise (Exn DatabaseError ("Error accediendo a tabla: " ++ exn_msg e))).

(** The [for key, value in filters.items()] loop of [fetch_data]: it grows
    [where_conditions] and [params]. *)
Fixpoint where_loop (items : pydict pyvalue)
    (where_conditions : list string) (params : pydict pyvalue)
    : list string * pydict pyvalue :=
  match items with
  | [] => (where_conditions, params)
  | (key, value) :: rest =>
      if negb (is_None value)
      then where_loop rest
             (where_conditions ++ [quoted key ++ " = :" ++ key])
             (dict_set params key value)
      else where_loop rest where_conditions params
  end.

(** The query text and parameters [fetch_data] builds before it opens a
    session. *)
Definition build_query (table_name : string) (fields : list string)
    (filters : pydict pyvalue) : string * pydict pyvalue :=
  let fields_str := join ", " (quoted <$> fields) in
  let query_str := "SELECT " ++ fields_str ++ " FROM " ++ quoted table_name in
  let '(where_conditions, params) := where_loop filters [] [] in
  let query_str :=
    if negb (bool_decide (where_conditions = []))
    then query_str ++ " WHERE " ++ join " AND " where_conditions
    else query_str in
  let query_str := query_str ++ " LIMIT 200000" in
  (query_str, params).

Definition fetch_data (table_name : string) (fields : list string)
    (filters : pydict pyvalue) : M store (list (pydict pyvalue)) :=
  try_except
    (let '(query_str, params) := build_query table_name fields filters in
     execute server (Sql query_str params);;
     mret (answer_select server query_str params))
    None
    (fun e => raise (Exn DatabaseError ("Error en consulta: " ++ exn_msg e))).

End WithServer.
End DatabaseManager.

(** ** The workbook engine, as the export service drives it

    The worksheet being written is observed through the calls made on it:
    the values assigned to cells, the style attributes set, and the column
    sizing requests, each oldest first. *)
Inductive style_attr :=
| FontBold (b : bool)
| FontName (name : string)
| FontHeight (h : Z)
| FillBackgroundColor (color : string).

Inductive sizing :=
| AutoSizeColumn (col : Z)
| SetColumnWidth (col width : Z).

Record sheet := Sheet {
  written : list (string * string);
  styled : list (string * style_attr);
  sized : list sizing
}.

(** Which calls the engine rejects, given the sheet as it stands: each
    field answers with the exception raised, if any. *)
Record Engine := {
  cell_failure : sheet -> string -> option exn;
  value_failure : sheet -> string -> string -> option exn;
  style_failure : sheet -> string -> style_attr -> option exn;
  sizing_failure : sheet -> sizing -> option exn
}.

Definition attempt {S} (failure : S -> option exn) (update : S -> S) : M S unit :=
  fun s => match failure s with
           | Some e => (Raise e, s)
           | None => (Return tt, update s)
           end.

(** [range(0, n, step)] as list positions. *)
Definition range_step (n step : nat) : list nat :=
  (fun k => (k * step)%nat) <$> seq 0 (Nat.div (n + step - 1) step).

(** ** The export service *)

Module ExcelGeneratorService.

(** The [while col_idx > 0] loop of [_get_column_letter]; [result] is the
    suffix of the label built so far. *)
Equations? column_loop (col_idx : Z) (result : string) : string
  by wf (Z.to_nat col_idx) lt :=
  column_loop col_idx result with Z_gt_dec col_idx 0 => {
    | left _ =>
        column_loop ((col_idx - 1) / 26)
          (String (chr ((col_idx - 1) mod 26 + ord "A")) result)
    | right _ => result }.
Proof.
  assert ((col_idx - 1) / 26 < col_idx).
  { apply Z.div_lt_upper_bound; lia. }
  assert (0 <= (col_idx - 1) / 26) by (apply Z.div_pos; lia).
  lia.
Qed.

Definition _get_column_letter (col_idx : Z) : string :=
  column_loop (col_idx + 1) "".

Definition _format_cell_value (value : pyvalue) : string :=
  if is_None value then ""
  else if isinstance_int_float value then str value
  else if isinstance_bool value then (if truthy value then "Sí" else "No")
  else str value.

Section WithEngine.
Variable engine : Engine.

(** [cell = worksheet[cell_address]]. *)
Definition get_cell (cell_address : string) : M sheet unit :=
  attempt (fun sh => cell_failure engine sh cell_address) id.

(** [cell.Value = value]. *)
Definition set_value (cell_address value : string) : M sheet unit :=
  attempt (fun sh => value_failure engine sh cell_address value)
    (fun sh => Sheet (written sh ++ [(cell_address, value)]) (styled sh) (sized sh)).

(** An assignment to one attribute of [cell.Style]. *)
Definition set_style (cell_address : string) (a : style_attr) : M sheet unit :=
  attempt (fun sh => style_failure engine sh cell_address a)
    (fun sh => Sheet (written sh) (styled sh ++ [(cell_address, a)]) (sized sh)).

(** [worksheet.AutoSizeColumn(...)] and [worksheet.SetColumnWidth(...)]. *)
Definition resize (z : sizing) : M sheet unit :=
  attempt (fun sh => sizing_failure engine sh z)
    (fun sh => Sheet (written sh) (styled sh) (sized sh ++ [z])).

(** Body of the header loop. *)
Definition write_header (entry : Z * string) : M sheet unit :=
  let '(col_idx, field) := entry in
  let cell_address := _get_column_letter col_idx ++ "1" in
  get_cell cell_address;;
  set_value cell_address field;;
  try_except
    (set_style cell_address (FontBold true);;
     set_style cell_address (FontName "Arial");;
     set_style cell_address (FontHeight 11);;
     set_style cell_address (FillBackgroundColor "#D9EAD3"))
    (Some AttributeError)
    (fun _ => mret tt).

(** Body of the innermost data loop, at row [row_idx]. *)
Definition write_cell (row_data : pydict pyvalue) (row_idx : Z)
    (entry : Z * string) : M sheet unit :=
  let '(col_idx, field) := entry in
  let cell_address := _get_column_letter col_idx ++ pretty row_idx in
  get_cell cell_address;;
  let value := default (PyStr "") (dict_get row_data field) in
  let formatted_value := _format_cell_value value in
  set_value cell_address formatted_value.

(** [for row_data in chunk]; returns the advanced [row_idx]. *)
Fixpoint write_chunk (fields : list string) (chunk : list (pydict pyvalue))
    (row_idx : Z) : M sheet Z :=
  match chunk with
  | [] => mret row_idx
  | row_data :: rest =>
      for_each (enumerate fields) (write_cell row_data row_idx);;
      write_chunk fields rest (row_idx + 1)
  end.

(** [for i in range(0, len(data), chunk_size)]. *)
Fixpoint write_chunks (fields : list string) (data : list (pydict pyvalue))
    (chunk_size : nat) (starts : list nat) (row_idx : Z) : M sheet Z :=
  match starts with
  | [] => mret row_idx
  | i :: rest =>
      let chunk := take chunk_size (drop i data) in
      row_idx ← write_chunk fields chunk row_idx;
      write_chunks fields data chunk_size rest row_idx
  end.

(** Body of the final column-sizing loop. *)
Definition autosize (col_idx : Z) : M sheet unit :=
  try_except (resize (AutoSizeColumn col_idx))
    (Some AttributeError)
    (fun _ =>
       try_except (resize (SetColumnWidth col_idx 15))
         (Some AttributeError)
         (fun _ => mret tt)).

Definition _write_data_to_worksheet (data : list (pydict pyvalue))
    (fields : list string) (fast_mode : bool) : M sheet unit :=
  try_except
    (for_each (enumerate fields) write_header;;
     let chunk_size : Z := if fast_mode then 10000 else 1000 in
     let row_idx := 2 in
     write_chunks fields data (Z.to_nat chunk_size)
       (range_step (List.length data) (Z.to_nat chunk_size)) row_idx;;
     for_each (range (Z.of_nat (List.length fields))) autosize)
    None
    (fun e => raise (Exn ExcelGenerationError
                       ("Error escribiendo datos: " ++ exn_msg e))).

End WithEngine.

Section WithServer.
Variable server : Server.

(** The workbook-building step of the export, [_create_excel_file]: it
    works on the workbook engine and the file system only, never on the
    store. *)
Variable _create_excel_file :
  list (pydict pyvalue) -> list string -> string -> outcome (list Byte.byte).

Definition _validate_fields (table : string) (fields : list string)
    : M store unit :=
  try_except
    (table_columns ← DatabaseManager.get_table_columns server table;
     let invalid_fields :=
       filter (fun field => field ∉ table_columns) fields in
     if negb (bool_decide (invalid_fields = []))
     then raise (Exn ExcelGenerationError
                   ("Campos inválidos para tabla " ++ table ++ ": "
                      ++ repr_list invalid_fields))
     else mret tt)
    (Some DatabaseError)
    (fun e => raise (Exn ExcelGenerationError
                       ("Error validando campos: " ++ exn_msg e))).

Definition _fetch_data (table : string) (fields : list string)
    (filters : pydict pyvalue) : M store (list (pydict pyvalue)) :=
  try_except
    (DatabaseManager.fetch_data server table fields filters)
    (Some DatabaseError)
    (fun e => raise (Exn ExcelGenerationError
                       ("Error obteniendo datos: " ++ exn_msg e))).

Definition generate_excel (table : string) (fields : list string)
    (filters : option (pydict pyvalue)) (template : string)
    : M store (list Byte.byte) :=
  try_except
    (_validate_fields table fields;;
     data ← _fetch_data table fields (default [] filters);
     lift (_create_excel_file data fields template))
    None
    (fun e => raise (Exn ExcelGenerationError
                       ("Error generando Excel: " ++ exn_msg e))).

End WithServer.

End ExcelGeneratorService.

(** ** Whole-table export

    [generate_full_table_excel], a further method of the export service:
    the field list is the column list of the table and there is no
    filter. *)

Module FullTableExport.
Section WithServer.
Variable server : Server.

(** The workbook-building step, as in [generate_excel]. *)
Variable _create_excel_file :
  list (pydict pyvalue) -> list string -> string -> outcome (list Byte.byte).

Definition generate_full_table_excel (table template : string)
    : M store (list Byte.byte) :=
  try_except
    (fields ← DatabaseManager.get_table_columns server table;
     data ← ExcelGeneratorService._fetch_data server table fields [];
     lift (_create_excel_file data fields template))
    None
    (fun e => raise (Exn ExcelGenerationError
                       ("Error generando Excel de tabla completa: "
                          ++ exn_msg e))).

End WithServer.
End FullTableExport.

(** ** The workbook engine, as the upload service reads it

    A loaded worksheet: its used extent, the value of each cell by address
    (an address without entry has the value [None]), and the addresses at
    which the cell access itself raises. *)
Record worksheet := Worksheet {
  RowCount : Z;
  ColumnCount : Z;
  Value : gmap string pyvalue;
  broken : gset string
}.

(** What the upload depends on outside the store: the workbook the engine
    loads from the bytes written to the temporary file (or the exception
    raised on the way), and whether writing the intermediate CSV file
    fails. *)
Record Host := {
  WorkBook_Load : list Byte.byte -> outcome worksheet;
  csv_failure : option exn
}.

(** The dictionary [upload_excel_to_table] returns. *)
Record upload_result := UploadResult {
  success : bool;
  message : string;
  rows_processed : Z;
  errors : option (list string)
}.

(** ** The upload service *)

Module ExcelUploadService.

(** The loop of the upload service's own copy of [_get_column_letter]. *)
Equations? column_loop (col_idx : Z) (result : string) : string
  by wf (Z.to_nat col_idx) lt :=
  column_loop col_idx result with Z_gt_dec col_idx 0 => {
    | left _ =>
        column_loop ((col_idx - 1) / 26)
          (String (chr ((col_idx - 1) mod 26 + ord "A")) result)
    | right _ => result }.
Proof.
  assert ((col_idx - 1) / 26 < col_idx).
  { apply Z.div_lt_upper_bound; lia. }
  assert (0 <= (col_idx - 1) / 26) by (apply Z.div_pos; lia).
  lia.
Qed.

Definition _get_column_letter (col_idx : Z) : string :=
  column_loop (col_idx + 1) "".

(** [headers[col_index]] where the caller has checked the bound. *)
Definition header_at (headers : list string) (col_index : Z) : string :=
  default "" (headers !! Z.to_nat col_index).

(** Body of the [for col_index] loop at row [row_index]; the loop carries
    [headers], [row_data] and [has_data]. *)
Definition scan_cell (ws : worksheet) (first_row : bool) (row_index : Z)
    (acc : list string * pydict string * bool) (col_index : Z)
    : list string * pydict string * bool :=
  let '(headers, row_data, has_data) := acc in
  let cell_address := _get_column_letter col_index ++ pretty (row_index + 1) in
  if bool_decide (cell_address ∈ broken ws) then acc
  else
    let cell_value := default PyNone (Value ws !! cell_address) in
    if negb (is_None cell_value)
       && negb (bool_decide (strip (str cell_value) = ""))
    then
      if first_row
      then ((headers ++ [strip (str cell_value)])%list, row_data, true)
      else if (col_index <? Z.of_nat (List.length headers))
              && negb (bool_decide (header_at headers col_index = ""))
      then (headers,
            dict_set row_data (header_at headers col_index)
              (strip (str cell_value)),
            true)
      else (headers, row_data, true)
    else
      if first_row then ((headers ++ [""])%list, row_data, has_data)
      else acc.

(** The [for row_index] loop over the rows still to visit; it carries
    [data], [headers] and [first_row], and ends early on [break]. *)
Fixpoint scan_rows {S} (ws : worksheet) (rows : list Z)
    (data : list (pydict string)) (headers : list string)
    (first_row : bool) : M S (list (pydict string)) :=
  match rows with
  | [] => mret data
  | row_index :: rest =>
      let '(headers, row_data, has_data) :=
        foldl (scan_cell ws first_row row_index) (headers, [], false)
          (range (ColumnCount ws)) in
      if first_row
      then
        let headers := filter (fun h => h ≠ "") headers in
        if bool_decide (headers = [])
        then raise (Exn ValidationError
               "No se encontraron headers válidos en el archivo Excel")
        else scan_rows ws rest data headers false
      else if has_data && negb (bool_decide (row_data = []))
      then scan_rows ws rest (data ++ [row_data]) headers false
      else if negb has_data && (0 <? Z.of_nat (List.length data))
      then mret data
      else scan_rows ws rest data headers false
  end.

Section WithHost.
Variable host : Host.
Variable server : Server.

Definition _read_excel_file_ironxl {S} (excel_data : list Byte.byte)
    : M S (list (pydict string)) :=
  try_except
    (ws ← lift (WorkBook_Load host excel_data);
     data ← scan_rows ws (range (RowCount ws)) [] [] true;
     if bool_decide (data = [])
     then raise (Exn ValidationError
            "El archivo Excel está vacío o no contiene datos válidos")
     else mret data)
    None
    (fun e => raise (Exn ValidationError
                       ("Error leyendo archivo Excel: " ++ exn_msg e))).

(** The type table of [_get_column_db_type]. *)
Definition pg_types : pydict string :=
  [ ("integer", "integer");
    ("bigint", "bigint");
    ("smallint", "smallint");
    ("numeric", "numeric");
    ("double precision", "double precision");
    ("real", "real");
    ("boolean", "boolean");
    ("date", "date");
    ("timestamp without time zone", "timestamp");
    ("timestamp with time zone", "timestamptz");
    ("character varying", "varchar");
    ("character", "char");
    ("text", "text") ].

(** The literal of [_get_column_db_type], layout whitespace dropped. *)
Definition data_type_sql : string :=
  "SELECT data_type FROM information_schema.columns " ++
  "WHERE table_name = :table_name AND column_name = :column".

Definition _get_column_db_type (table_name column : string) : M store string :=
  execute server
    (Sql data_type_sql
       [("table_name", PyStr table_name); ("column", PyStr column)]);;
  match answer_data_type server table_name column with
  | [] => mret "text"
  | data_type :: _ => mret (default "text" (dict_get pg_types data_type))
  end.

(** [async with engine.begin()]: the changes of a block that raises are
    rolled back; the statements were sent all the same. *)
Definition transaction {A} (block : M store A) : M store A :=
  fun st => match block st with
            | (Return a, st') => (Return a, st')
            | (Raise e, st') => (Raise e, Store (tables st) (log st'))
            end.

(** Effect of a [DROP TABLE IF EXISTS] / [CREATE TABLE] that ran. *)
Definition dropped (name : string) : M store unit :=
  fun st => (Return tt, Store (tables st ∖ {[name]}) (log st)).

Definition created (name : string) : M store unit :=
  fun st => (Return tt, Store (tables st ∪ {[name]}) (log st)).

(** Step 2: [csv.DictWriter] refuses a row with a key that is not among
    [fieldnames]; the file itself may fail to be written.  The message
    names the refused keys: with one such key, in ASCII, it is the text
    below; with more, Python lists them in the iteration order of a set,
    where they are listed here in row order, so the statements below fix
    the class of the exception and where it stops the upload, not the
    order of the keys in its text. *)
Definition write_csv (fieldnames : list string) (rows : list (pydict string))
    : M store unit :=
  match csv_failure host with
  | Some e => raise e
  | None =>
      for_each rows (fun row =>
        let wrong_fields := filter (fun k => k ∉ fieldnames) (keys row) in
        if negb (bool_decide (wrong_fields = []))
        then raise (Exn ValueError
               ("dict contains fields not in fieldnames: "
                  ++ join ", " (repr_str <$> wrong_fields)))
        else mret tt)
  end.

(** The list comprehension that resolves the cast of every field. *)
Fixpoint cast_columns (table_name : string) (fieldnames : list string)
    : M store (list string) :=
  match fieldnames with
  | [] => mret []
  | col :: rest =>
      db_type ← _get_column_db_type table_name col;
      casts ← cast_columns table_name rest;
      mret ((quoted col ++ "::" ++ db_type) :: casts)
  end.

(** Step 3 of [upload_excel_to_table]: the staging table is dropped if it
    is there and created again, in one transaction. *)
Definition create_staging (fieldnames : list string) (staging_table : string)
    : M store unit :=
  transaction
    (let create_cols :=
       join ", " ((fun col => quoted col ++ " text") <$> fieldnames) in
     execute server (Sql ("DROP TABLE IF EXISTS " ++ quoted staging_table) []);;
     dropped staging_table;;
     execute server
       (Sql ("CREATE TABLE " ++ quoted staging_table
               ++ " (" ++ create_cols ++ ")") []);;
     created staging_table).

(** Step 4: COPY of the CSV file into the staging table, through the
    synchronous engine. *)
Definition copy_to_staging (fieldnames : list string) (staging_table : string)
    : M store unit :=
  transaction
    (execute server
       (CopyExpert
          ("COPY " ++ quoted staging_table ++ " ("
             ++ join ", " fieldnames
             ++ ") FROM STDIN WITH (FORMAT CSV, HEADER TRUE, DELIMITER "
             ++ quoted "," ++ ")"))).

(** Step 5: the cast of every field is resolved and the INSERT ... ON
    CONFLICT statement is sent (its literal with layout whitespace
    dropped). *)
Definition upsert (table_name : string) (fieldnames conflict_columns : list string)
    (staging_table : string) : M store unit :=
  transaction
    (let update_cols :=
       filter (fun col => col ∉ conflict_columns) fieldnames in
     let set_clause :=
       join ", " ((fun col => quoted col ++ " = EXCLUDED." ++ quoted col)
                    <$> update_cols) in
     casts ← cast_columns table_name fieldnames;
     let cast_cols := join ", " casts in
     let insert_sql :=
       "INSERT INTO " ++ quoted table_name
         ++ " (" ++ join ", " (quoted <$> fieldnames) ++ ")"
         ++ " SELECT " ++ cast_cols ++ " FROM " ++ quoted staging_table
         ++ " ON CONFLICT (" ++ join ", " (quoted <$> conflict_columns)
         ++ ") DO UPDATE SET " ++ set_clause in
     execute server (Sql insert_sql [])).

(** Step 6: the staging table is dropped. *)
Definition drop_staging (staging_table : string) : M store unit :=
  transaction
    (execute server (Sql ("DROP TABLE IF EXISTS " ++ quoted staging_table) []);;
     dropped staging_table).

(** The try block of [upload_excel_to_table].  Step 7 removes the CSV file
    and ignores a failure to do so; it leaves the store as it is. *)
Definition upload_steps (excel_data : list Byte.byte) (table_name : string)
    (conflict_columns : list string) : M store upload_result :=
  rows ← _read_excel_file_ironxl excel_data;
  match rows with
  | [] => raise (Exn ValidationError "El archivo Excel está vacío")
  | first :: _ =>
      let fieldnames := keys first in
      let staging_table := "staging_" ++ table_name ++ "_upsert" in
      write_csv fieldnames rows;;
      create_staging fieldnames staging_table;;
      copy_to_staging fieldnames staging_table;;
      upsert table_name fieldnames conflict_columns staging_table;;
      drop_staging staging_table;;
      mret (UploadResult true
              ("Archivo cargado y upsert masivo realizado con COPY ("
                 ++ pretty (Z.of_nat (List.length rows)) ++ " filas)")
              (Z.of_nat (List.length rows))
              None)
  end.

Definition upload_excel_to_table (excel_data : list Byte.byte)
    (table_name : string) (conflict_columns : list string)
    : M store upload_result :=
  try_except
    (upload_steps excel_data table_name conflict_columns)
    None
    (fun e => mret (UploadResult false
                      ("Error en carga COPY+upsert: " ++ exn_msg e)
                      0
                      (Some [exn_msg e]))).

End WithHost.

End ExcelUploadService.

(** ** Clearing a template

    [_clear_data_preserve_format], a further method of the export service,
    on a loaded worksheet. *)

Module TemplateClearing.

(** [range(a, b)]. *)
Definition range_from (a b : Z) : list Z :=
  (fun k => a + Z.of_nat k) <$> seq 0 (Z.to_nat (b - a)).

(** [cell.Value = ""] on the sheet. *)
Definition blank_out (ws : worksheet) (cell_address : string) : worksheet :=
  Worksheet (RowCount ws) (ColumnCount ws)
    (<[cell_address := PyStr ""]> (Value ws)) (broken ws).

(** Body of the [for col_index] loop at row [row_index]; the loop carries
    the sheet and [all_empty].  A cell whose access raises is passed
    over. *)
Definition clear_cell (row_index : Z) (acc : worksheet * bool) (col_index : Z)
    : worksheet * bool :=
  let '(ws, all_empty) := acc in
  let cell_address :=
    ExcelGeneratorService._get_column_letter col_index
      ++ pretty (row_index + 1) in
  if bool_decide (cell_address ∈ broken ws) then acc
  else if truthy (default PyNone (Value ws !! cell_address))
  then (blank_out ws cell_address, false)
  else acc.

(** The [for row_index] loop over the rows still to visit, with its
    [break]. *)
Fixpoint clear_rows (rows : list Z) (num_columns : Z) (ws : worksheet)
    : worksheet :=
  match rows with
  | [] => ws
  | row_index :: rest =>
      let '(ws, all_empty) :=
        foldl (clear_cell row_index) (ws, true) (range num_columns) in
      if all_empty && (15 <? row_index) then ws
      else clear_rows rest num_columns ws
  end.

(** Nothing in the loops raises outside the inner handler, so the outer
    handler, which only logs, is never entered. *)
Definition _clear_data_preserve_format (ws : worksheet) (num_columns : Z)
    : worksheet :=
  clear_rows (range_from 1 2000) num_columns ws.

End TemplateClearing.

(** ** The HTTP endpoints

    Two endpoints of [controllers/excel_controller.py].  An endpoint either
    responds with a body or raises an [HTTPException] with a status code
    and a detail text. *)
Inductive http_outcome (A : Type) :=
| Responded (body : A)
| HTTPException (status_code : Z) (detail : string).
Arguments Responded {A} body.
Arguments HTTPException {A} status_code detail.

(** An uploaded file: its name, which a client may leave out, and what
    reading it gives. *)
Record UploadFile := {
  filename : option string;
  read : outcome (list Byte.byte)
}.

(** A streamed workbook. *)
Record StreamingResponse := {
  content : list Byte.byte;
  media_type : string;
  headers : pydict string
}.

(** Whether building a service object raises (the constructors open the
    database engines). *)
Record Runtime := {
  upload_service_failure : option exn;
  generator_service_failure : option exn
}.

(** [s.endswith(suffix)]. *)
Definition endswith (s suffix : string) : bool :=
  String.prefix (String.rev suffix) (String.rev s).

Module excel_controller.
Section WithServices.
Variable runtime : Runtime.
Variable host : Host.
Variable server : Server.
Variable _create_excel_file :
  list (pydict pyvalue) -> list string -> string -> outcome (list Byte.byte).

Definition xlsx_type : string :=
  "application/vnd.openxmlformats-officedocument.spreadsheetml.sheet".

(** The try block of [upload_excel].  The response model has the fields of
    the result dictionary and takes them one by one. *)
Definition upload_excel_steps (file : UploadFile) (table : string)
    : M store upload_result :=
  match filename file with
  | None =>
      raise (Exn AttributeError
               "'NoneType' object has no attribute 'endswith'")
  | Some name =>
      if negb (endswith name ".xlsx" || endswith name ".xls")
      then raise (Exn ValidationError "El archivo debe ser .xlsx o .xls")
      else
        content ← lift (read file);
        match upload_service_failure runtime with
        | Some e => raise e
        | None =>
            result ← ExcelUploadService.upload_excel_to_table host server
                       content table ["id"];
            mret (UploadResult (success result) (message result)
                    (rows_processed result) (errors result))
        end
  end.

Definition upload_excel (file : UploadFile) (table : string)
    : store -> http_outcome upload_result * store :=
  fun st =>
    match upload_excel_steps file table st with
    | (Return response, st') => (Responded response, st')
    | (Raise e, st') =>
        if isinstance e ValidationError
        then (HTTPException 400 (exn_msg e), st')
        else (HTTPException 500 "Error interno del servidor", st')
    end.

(** The try block of [download_whole_table]. *)
Definition download_whole_table_steps (table_name template : string)
    : M store StreamingResponse :=
  match generator_service_failure runtime with
  | Some e => raise e
  | None =>
      excel_buffer ← FullTableExport.generate_full_table_excel server
                       _create_excel_file table_name template;
      let headers :=
        [("Content-Disposition",
          "attachment; filename=" ++ quoted (table_name ++ "_completa.xlsx"));
         ("Content-Type", xlsx_type)] in
      mret {| content := excel_buffer;
              media_type := default "" (dict_get headers "Content-Type");
              headers := headers |}
  end.

Definition download_whole_table (table_name template : string)
    : store -> http_outcome StreamingResponse * store :=
  fun st =>
    match download_whole_table_steps table_name template st with
    | (Return response, st') => (Responded response, st')
    | (Raise e, st') => (HTTPException 500 ("Error: " ++ exn_msg e), st')
    end.

End WithServices.
End excel_controller.

(** ** The decoder *)

(** Value of a letter as a bijective base-26 digit: A is 1, ..., Z is 26. *)
Definition letter_value (c : ascii) : Z := ord c - ord "A" + 1.

(** Value of a label read most significant letter first, from [acc]. *)
Fixpoint letters_acc (acc : Z) (s : string) : Z :=
  match s with
  | EmptyString => acc
  | String c rest => letters_acc (acc * 26 + letter_value c) rest
  end.

(** Modelled from the spec: [letters_to_index], the letters-to-index inverse
    of the column codec, is named by the specification but has no
    implementation in the repository.  It reads a label as a bijective
    base-26 numeral (A = 1, ..., Z = 26, most significant letter first) and
    returns the zero-based index. *)
Definition letters_to_index (s : string) : Z := letters_acc 0 s - 1.

(** A character is one of the 26 capital letters. *)
Definition is_capital (c : ascii) : Prop := ord "A" <= ord c <= ord "Z".

Fixpoint all_capital (s : string) : Prop :=
  match s with
  | EmptyString => True
  | String c rest => is_capital c /\ all_capital rest
  end.

(** ** Readings of the query used in the statements

    The filter entries that take part in the predicate, and the equality
    predicate of one entry. *)
Definition compared (filters : pydict pyvalue) : pydict pyvalue :=
  filter (fun kv => kv.2 <> PyNone) filters.

Definition equality (kv : string * pyvalue) : string :=
  quoted kv.1 ++ " = :" ++ kv.1.

(** The statements a block adds to the log. *)
Definition sends {A} (m : M store A) (st : store) (sent : list statement) : Prop :=
  log (m st).2 = (log st ++ sent)%list.

(** No COPY among a list of statements. *)
Definition no_copy (sent : list statement) : Prop :=
  forall text, CopyExpert text ∉ sent.

(** The name of the staging table of a destination table. *)
Definition staging_of (table_name : string) : string :=
  "staging_" ++ table_name ++ "_upsert".

(** Every key of a row is a non-empty header. *)
Definition keys_named (row : pydict string) : Prop :=
  Forall (fun key => key <> "") (keys row).

(** The cells of the header row and of the data rows from row [row_idx]
    on, as (address, text) pairs in writing order. *)
Definition header_cells (fields : list string) : list (string * string) :=
  (fun entry : Z * string =>
     (ExcelGeneratorService._get_column_letter entry.1 ++ "1", entry.2))
    <$> enumerate fields.

Definition row_cells (fields : list string) (row_data : pydict pyvalue)
    (row_idx : Z) : list (string * string) :=
  (fun entry : Z * string =>
     (ExcelGeneratorService._get_column_letter entry.1 ++ pretty row_idx,
      ExcelGeneratorService._format_cell_value
        (default (PyStr "") (dict_get row_data entry.2))))
    <$> enumerate fields.

Fixpoint data_cells (fields : list string) (data : list (pydict pyvalue))
    (row_idx : Z) : list (string * string) :=
  match data with
  | [] => []
  | row_data :: rest =>
      (row_cells fields row_data row_idx
         ++ data_cells fields rest (row_idx + 1))%list
  end.

(** An engine that can be styled only in part: it accepts every cell access
    and value, and whatever it rejects of styling or sizing it rejects with
    an [AttributeError]. *)
Record lacks_attributes_only (engine : Engine) : Prop := {
  cells_ok : forall sh addr, cell_failure engine sh addr = None;
  values_ok : forall sh addr v, value_failure engine sh addr v = None;
  styles_attr : forall sh addr a e,
    style_failure engine sh addr a = Some e -> exn_cls e = AttributeError;
  sizing_attr : forall sh z e,
    sizing_failure engine sh z = Some e -> exn_cls e = AttributeError
}.

(** The decorations of a header cell, in the order the header loop assigns
    them, and the decorations of a whole header row as (address, attribute)
    pairs in assignment order. *)
Definition header_styles : list style_attr :=
  [FontBold true; FontName "Arial"; FontHeight 11;
   FillBackgroundColor "#D9EAD3"].

Definition header_decorations (fields : list string)
    : list (string * style_attr) :=
  List.concat
    ((fun entry : Z * string =>
        (fun a => (ExcelGeneratorService._get_column_letter entry.1 ++ "1", a))
          <$> header_styles)
       <$> enumerate fields).

(** An engine that accepts every style assignment. *)
Definition accepts_styles (engine : Engine) : Prop :=
  forall sh addr a, style_failure engine sh addr a = None.

(** An engine that accepts every cell access and value, and whose style
    assignments, when they fail, raise something that is not an
    [AttributeError]. *)
Record rejects_styles_otherwise (engine : Engine) : Prop := {
  strict_cells_ok : forall sh addr, cell_failure engine sh addr = None;
  strict_values_ok : forall sh addr v, value_failure engine sh addr v = None;
  styles_other : forall sh addr a e,
    style_failure engine sh addr a = Some e ->
    isinstance e AttributeError = false
}.

(** No character of the text is a capital letter. *)
Fixpoint no_capital (s : string) : Prop :=
  match s with
  | EmptyString => True
  | String c rest => ~ is_capital c /\ no_capital rest
  end.

(** A dictionary with distinct keys and no empty key or value. *)
Definition row_clean (row : pydict string) : Prop :=
  NoDup (keys row) /\ Forall (fun kv => kv.1 <> "" /\ kv.2 <> "") row.

(** A parsed row: a clean dictionary with at least one entry. *)
Definition row_well_formed (row : pydict string) : Prop :=
  row <> [] /\ row_clean row.

(** [h] is the stripped text of a cell of row [row_index] of the sheet. *)
Definition header_cell (ws : worksheet) (row_index : Z) (h : string) : Prop :=
  exists col v,
    0 <= col < ColumnCount ws
    /\ Value ws !! (ExcelUploadService._get_column_letter col
                      ++ pretty (row_index + 1)) = Some v
    /\ h = strip (str v).

(** The cell at an address reads as blank: the access raises, the value is
    [None], or its text is empty once stripped. *)
Definition cell_blank (ws : worksheet) (cell_address : string) : Prop :=
  cell_address ∈ broken ws
  \/ is_None (default PyNone (Value ws !! cell_address)) = true
  \/ strip (str (default PyNone (Value ws !! cell_address))) = "".

(** The declared type of a destination column as the cast resolution
    reads it off the first row the store answers. *)
Definition resolved_type (server : Server) (table_name column : string) : string :=
  match answer_data_type server table_name column with
  | [] => "text"
  | data_type :: _ =>
      default "text" (dict_get ExcelUploadService.pg_types data_type)
  end.

(** The lookup statement of the cast resolution for one column. *)
Definition type_lookup (table_name column : string) : statement :=
  Sql ExcelUploadService.data_type_sql
    [("table_name", PyStr table_name); ("column", PyStr column)].

(** The store, having received [sent], runs each statement of [sequence]
    when they are sent one after the other. *)
Fixpoint runs_in_order (server : Server) (sent sequence : list statement)
    : Prop :=
  match sequence with
  | [] => True
  | stmt :: rest =>
      failure server sent stmt = None
      /\ runs_in_order server (sent ++ [stmt]) rest
  end.

(** The cell at an address holds nothing that counts as data. *)
Definition cell_empty (ws : worksheet) (cell_address : string) : Prop :=
  truthy (default PyNone (Value ws !! cell_address)) = false.

(** A sheet and a later state of it in which nothing changed except that
    some accessible cells that held data now hold the empty text. *)
Definition cleared_from (ws ws' : worksheet) : Prop :=
  broken ws' = broken ws
  /\ RowCount ws' = RowCount ws /\ ColumnCount ws' = ColumnCount ws
  /\ forall addr,
       Value ws' !! addr = Value ws !! addr
       \/ ((addr ∉ broken ws) /\ ~ cell_empty ws addr
           /\ Value ws' !! addr = Some (PyStr "")).

(** ** Sample stores and requests *)

Module Examples.

(** A store that runs every statement. *)
Definition always_runs : list statement -> statement -> option exn :=
  fun _ _ => None.

(** The table [orders (id integer, name varchar, paid boolean)]. *)
Definition orders_server : Server := {|
  answer_columns t :=
    if bool_decide (t = "orders") then ["id"; "name"; "paid"] else [];
  answer_select _ _ := [];
  answer_data_type t c :=
    if bool_decide (t = "orders") then
      if bool_decide (c = "id") then ["integer"]
      else if bool_decide (c = "name") then ["character varying"]
      else if bool_decide (c = "paid") then ["boolean"]
      else []
    else [];
  failure := always_runs
|}.

Definition empty_store : store := Store ∅ [].

Definition paid_filter : pydict pyvalue :=
  [("paid", PyBool true); ("name", PyNone)].

(** The workbook-building step is not reached in the samples. *)
Definition no_workbook (data : list (pydict pyvalue)) (fields : list string)
    (template : string) : outcome (list Byte.byte) :=
  Return [].

(** A sheet with the header [id] and one data row. *)
Definition one_row_sheet : worksheet :=
  Worksheet 2 1 (list_to_map [("A1", PyStr "id"); ("A2", PyInt 1)]) ∅.

Definition one_row_host : Host := {|
  WorkBook_Load _ := Return one_row_sheet;
  csv_failure := None
|}.

(** A store in which the COPY of the bulk load is refused. *)
Definition copy_fails_server : Server := {|
  answer_columns _ := [];
  answer_select _ _ := [];
  answer_data_type _ _ := [];
  failure _ stmt :=
    match stmt with
    | CopyExpert _ => Some (Exn OtherException "COPY failed")
    | Sql _ _ => None
    end
|}.

(** A sheet whose header row has a blank cell between two names:
    [id | (blank) | name] over the data row [1 | x | Bob]. *)
Definition gap_sheet : worksheet :=
  Worksheet 2 3
    (list_to_map [("A1", PyStr "id"); ("C1", PyStr "name");
                  ("A2", PyInt 1); ("B2", PyStr "x"); ("C2", PyStr "Bob")])
    ∅.

Definition gap_host : Host := {|
  WorkBook_Load _ := Return gap_sheet;
  csv_failure := None
|}.

(** An engine without font support that reports it with [AttributeError]. *)
Definition plain_engine : Engine := {|
  cell_failure _ _ := None;
  value_failure _ _ _ := None;
  style_failure _ _ a :=
    match a with
    | FontName _ | FontHeight _ =>
        Some (Exn AttributeError "'Font' object has no such attribute")
    | _ => None
    end;
  sizing_failure _ _ := None
|}.

(** An engine that supports every call made on it. *)
Definition styled_engine : Engine := {|
  cell_failure _ _ := None;
  value_failure _ _ _ := None;
  style_failure _ _ _ := None;
  sizing_failure _ _ := None
|}.

(** An engine that rejects the bold flag with an error of another class. *)
Definition strict_engine : Engine := {|
  cell_failure _ _ := None;
  value_failure _ _ _ := None;
  style_failure _ _ a :=
    match a with
    | FontBold _ => Some (Exn ValueError "bold is read-only")
    | _ => None
    end;
  sizing_failure _ _ := None
|}.

Definition blank_sheet : sheet := Sheet [] [] [].

Definition one_order : list (pydict pyvalue) :=
  [[("id", PyInt 7); ("name", PyStr "Ana")]].

(** A store with a table [sessions (id integer, token uuid)]. *)
Definition sessions_server : Server := {|
  answer_columns t :=
    if bool_decide (t = "sessions") then ["id"; "token"] else [];
  answer_select _ _ := [];
  answer_data_type t c :=
    if bool_decide (t = "sessions") then
      if bool_decide (c = "id") then ["integer"]
      else if bool_decide (c = "token") then ["uuid"]
      else []
    else [];
  failure := always_runs
|}.

(** The store of [orders] losing its connection after the first
    statement. *)
Definition connection_lost_server : Server := {|
  answer_columns := answer_columns orders_server;
  answer_select := answer_select orders_server;
  answer_data_type := answer_data_type orders_server;
  failure sent _ :=
    match sent with
    | [] => None
    | _ => Some (Exn OtherException "connection lost")
    end
|}.

(** A sheet whose first row holds only blanks, over one data row. *)
Definition headless_sheet : worksheet :=
  Worksheet 2 2 (list_to_map [("A1", PyStr "  "); ("A2", PyInt 1)]) ∅.

Definition headless_host : Host := {|
  WorkBook_Load _ := Return headless_sheet;
  csv_failure := None
|}.

(** A sheet whose second data row fills a column the first leaves blank:
    [id | name] over [1 | (blank)] and [2 | x]. *)
Definition ragged_sheet : worksheet :=
  Worksheet 3 2
    (list_to_map [("A1", PyStr "id"); ("B1", PyStr "name");
                  ("A2", PyInt 1);
                  ("A3", PyInt 2); ("B3", PyStr "x")])
    ∅.

Definition ragged_host : Host := {|
  WorkBook_Load _ := Return ragged_sheet;
  csv_failure := None
|}.

(** A sheet whose second data row leaves a column blank: [id | name] over
    [1 | Ana] and [2 | (blank)]. *)
Definition two_rows_sheet : worksheet :=
  Worksheet 3 2
    (list_to_map [("A1", PyStr "id"); ("B1", PyStr "name");
                  ("A2", PyInt 1); ("B2", PyStr "Ana");
                  ("A3", PyInt 2)])
    ∅.

Definition two_rows_host : Host := {|
  WorkBook_Load _ := Return two_rows_sheet;
  csv_failure := None
|}.

(** The store of [orders_server], which refuses, as PostgreSQL does, an
    INSERT whose [DO UPDATE SET] has no assignment. *)
Definition picky_server : Server := {|
  answer_columns := answer_columns orders_server;
  answer_select := answer_select orders_server;
  answer_data_type := answer_data_type orders_server;
  failure _ stmt :=
    match stmt with
    | Sql text _ =>
        if String.prefix (String.rev "DO UPDATE SET ") (String.rev text)
        then Some (Exn OtherException "syntax error at end of input")
        else None
    | CopyExpert _ => None
    end
|}.

(** A template with a title row, two data rows and a note far below. *)
Definition template_sheet : worksheet :=
  Worksheet 40 2
    (list_to_map [("A1", PyStr "Id"); ("B1", PyStr "Name");
                  ("A2", PyInt 1); ("B2", PyStr "old");
                  ("A3", PyInt 2); ("C3", PyStr "note");
                  ("A40", PyStr "footer")])
    ∅.

(** A process in which both services can be built. *)
Definition services_up : Runtime := {|
  upload_service_failure := None;
  generator_service_failure := None
|}.

Definition report_xlsx : UploadFile := {|
  filename := Some "report.xlsx";
  read := Return []
|}.

Definition report_csv : UploadFile := {|
  filename := Some "report.csv";
  read := Return []
|}.

(** A few texts with white space outside ASCII: a no-break space after
    [id], and a text of an ideographic space and a no-break space only. *)
Definition id_nbsp : string :=
  "id" ++ String (chr 194) (String (chr 160) "").

Definition wide_blank : string :=
  String (chr 227) (String (chr 128) (String (chr 128)
    (String (chr 194) (String (chr 160) "")))).

(** A sheet whose texts carry such white space: [id<nbsp> | name] over
    [1 | <wide blank>Ana]. *)
Definition nbsp_sheet : worksheet :=
  Worksheet 2 2
    (list_to_map [("A1", PyStr id_nbsp); ("B1", PyStr "name");
                  ("A2", PyInt 1); ("B2", PyStr (wide_blank ++ "Ana"))])
    ∅.

Definition nbsp_host : Host := {|
  WorkBook_Load _ := Return nbsp_sheet;
  csv_failure := None
|}.

(** A sheet whose first row holds white space only, none of it ASCII. *)
Definition wide_blank_sheet : worksheet :=
  Worksheet 2 2
    (list_to_map [("A1", PyStr wide_blank); ("A2", PyInt 1);
                  ("B2", PyStr "Ana")])
    ∅.

Definition wide_blank_host : Host := {|
  WorkBook_Load _ := Return wide_blank_sheet;
  csv_failure := None
|}.

End Examples.

(** * Proofs *)

(** ** Column codec *)

Lemma ord_chr (n : Z) : 0 <= n < 256 -> ord (chr n) = n.
Proof.
  intros Hn. unfold ord, chr.
  rewrite N_ascii_embedding by lia. lia.
Qed.

Lemma ord_A : ord "A" = 65.
Proof. reflexivity. Qed.

Lemma ord_Z : ord "Z" = 90.
Proof. reflexivity. Qed.

Lemma letter_digit (n : Z) :
  0 < n ->
  let c := chr ((n - 1) mod 26 + ord "A") in
  letter_value c = (n - 1) mod 26 + 1 /\ is_capital c.
Proof.
  intros Hn c. subst c.
  pose proof (Z.mod_pos_bound (n - 1) 26 ltac:(lia)) as Hm.
  unfold letter_value, is_capital.
  rewrite ord_chr by (rewrite ord_A; lia).
  rewrite ord_A, ord_Z. lia.
Qed.

Section Codec.
Import ExcelGeneratorService.

Lemma column_loop_value (n : Z) (r : string) :
  0 <= n -> letters_acc 0 (column_loop n r) = letters_acc n r.
Proof.
  funelim (column_loop n r); intros Hn.
  - match goal with IH : _ -> letters_acc 0 _ = _ |- _ => rewrite IH end.
    + cbn [letters_acc]. f_equal.
      destruct (letter_digit col_idx ltac:(lia)) as [-> _].
      pose proof (Z.div_mod (col_idx - 1) 26 ltac:(lia)). lia.
    + apply Z.div_pos; lia.
  - f_equal. lia.
Qed.

Lemma column_loop_capital (n : Z) (r : string) :
  all_capital r -> all_capital (column_loop n r).
Proof.
  funelim (column_loop n r); intros Hr; [|done].
  match goal with IH : _ -> all_capital _ |- _ => apply IH end.
  split; [|done]. apply (letter_digit col_idx). lia.
Qed.

Lemma column_loop_same (n : Z) (r : string) :
  ExcelUploadService.column_loop n r = column_loop n r.
Proof.
  funelim (column_loop n r);
    rewrite ExcelUploadService.column_loop_equation_1, Heq; cbn; [|done].
  match goal with
  | IH : ExcelUploadService.column_loop _ _ = _ |- _ => exact IH
  end.
Qed.

Lemma get_column_letter_same (i : Z) :
  ExcelUploadService._get_column_letter i = _get_column_letter i.
Proof. apply column_loop_same. Qed.

Lemma get_column_letter_decode (i : Z) :
  0 <= i -> letters_to_index (_get_column_letter i) = i.
Proof.
  intros Hi. unfold letters_to_index, _get_column_letter.
  rewrite column_loop_value by lia. cbn. lia.
Qed.

Lemma get_column_letter_capital (i : Z) : all_capital (_get_column_letter i).
Proof. apply column_loop_capital. exact I. Qed.

(** One turn of the loop undoes one step of the decoder. *)
Lemma column_loop_step (a : Z) (c : ascii) (r : string) :
  0 <= a -> is_capital c ->
  column_loop (a * 26 + letter_value c) r = column_loop a (String c r).
Proof.
  intros Ha Hc. unfold is_capital in Hc. rewrite ord_A, ord_Z in Hc.
  rewrite (column_loop_equation_1 (a * 26 + letter_value c) r).
  destruct (Z_gt_dec (a * 26 + letter_value c) 0) as [Hgt|Hle]; cbn.
  - unfold letter_value. rewrite ord_A.
    replace (a * 26 + (ord c - 65 + 1) - 1) with ((ord c - 65) + a * 26) by lia.
    rewrite Z.div_add, Z.mod_add by lia.
    rewrite Z.div_small, Z.mod_small by lia.
    replace (ord c - 65 + 65) with (ord c) by lia.
    unfold chr, ord. rewrite N2Z.id, ascii_N_embedding. done.
  - unfold letter_value in Hle. rewrite ord_A in Hle. lia.
Qed.

Lemma letters_acc_pos (s : string) (a : Z) :
  1 <= a -> all_capital s -> 1 <= letters_acc a s.
Proof.
  revert a. induction s as [|c s IH]; intros a Ha Hs; cbn; [done|].
  destruct Hs as [Hc Hs]. apply IH; [|done].
  unfold is_capital, letter_value in *. rewrite ord_A in *. lia.
Qed.

Lemma column_loop_encode (s : string) (a : Z) (r : string) :
  0 <= a -> all_capital s ->
  column_loop (letters_acc a s) r = column_loop a (s ++ r).
Proof.
  revert a r. induction s as [|c s IH]; intros a r Ha Hs; [done|].
  destruct Hs as [Hc Hs]. cbn [letters_acc String.append].
  pose proof Hc as Hc'. unfold is_capital in Hc'. rewrite ord_A in Hc'.
  rewrite IH; [|unfold letter_value; rewrite ord_A; lia|done].
  change (String c s ++ r) with (String c (s ++ r)).
  by apply column_loop_step.
Qed.

(** The encoder is onto the non-empty words over the capital letters:
    encoding the index of such a word gives the word back. *)
Lemma get_column_letter_encode (s : string) :
  all_capital s -> s <> "" ->
  0 <= letters_to_index s /\ _get_column_letter (letters_to_index s) = s.
Proof.
  intros Hs Hne. unfold _get_column_letter, letters_to_index.
  replace (letters_acc 0 s - 1 + 1) with (letters_acc 0 s) by lia.
  split.
  - destruct s as [|c s]; [done|]. destruct Hs as [Hc Hs].
    cbn [letters_acc].
    assert (1 <= letters_acc (0 * 26 + letter_value c) s); [|lia].
    apply letters_acc_pos; [|done].
    unfold is_capital, letter_value in *. rewrite ord_A in *. lia.
  - rewrite column_loop_encode by done.
    rewrite column_loop_equation_1. cbn.
    clear. induction s as [|c s IH]; [done|].
    change (String c s ++ "") with (String c (s ++ "")). by rewrite IH.
Qed.

End Codec.

(** C1.  For every non-negative index the column codec of either service
    yields a word over the capital letters that the letters-to-index
    decoder maps back to the index, so the encoding is injective; the first
    labels are A, ..., Z, AA. *)
Theorem column_letter_roundtrip (i : Z) :
  0 <= i ->
  letters_to_index (ExcelGeneratorService._get_column_letter i) = i
  /\ letters_to_index (ExcelUploadService._get_column_letter i) = i
  /\ all_capital (ExcelGeneratorService._get_column_letter i)
  /\ (forall j, 0 <= j ->
        ExcelGeneratorService._get_column_letter j
        = ExcelGeneratorService._get_column_letter i -> j = i)
  /\ ExcelGeneratorService._get_column_letter 0 = "A"
  /\ ExcelGeneratorService._get_column_letter 25 = "Z"
  /\ ExcelGeneratorService._get_column_letter 26 = "AA".
Proof.
  intros Hi. repeat split.
  - by apply get_column_letter_decode.
  - rewrite get_column_letter_same. by apply get_column_letter_decode.
  - apply get_column_letter_capital.
  - intros j Hj Heq.
    rewrite <- (get_column_letter_decode j Hj), Heq.
    by apply get_column_letter_decode.
Qed.

Lemma column_letter_roundtrip_witness :
  letters_to_index (ExcelGeneratorService._get_column_letter 701) = 701.
Proof. exact (proj1 (column_letter_roundtrip 701 ltac:(lia))). Defined.

(** C10.  The export service and the upload service compute the same label
    for every non-negative column index. *)
Theorem column_letter_services_agree (i : Z) :
  0 <= i ->
  ExcelGeneratorService._get_column_letter i
  = ExcelUploadService._get_column_letter i.
Proof. intros _. symmetry. apply get_column_letter_same. Qed.

Lemma column_letter_services_agree_witness :
  ExcelGeneratorService._get_column_letter 27
  = ExcelUploadService._get_column_letter 27.
Proof. apply (column_letter_services_agree 27). lia. Defined.

(** ** Cell formatting *)

Section Format.
Import ExcelGeneratorService.

Lemma format_cell_value_None : _format_cell_value PyNone = "".
Proof. reflexivity. Qed.

Lemma format_cell_value_number (n : Z) (text : string) :
  _format_cell_value (PyInt n) = pretty n
  /\ _format_cell_value (PyFloat text) = text.
Proof. split; reflexivity. Qed.

Lemma format_cell_value_other (s text : string) :
  _format_cell_value (PyStr s) = s
  /\ _format_cell_value (PyObject text) = text.
Proof. split; reflexivity. Qed.

End Format.

(** C4.  On a boolean the formatter takes the numeric branch, which is
    tested first and accepts [bool] as a subclass of [int]: the result is
    the text of [str], never the localized pair. *)
Theorem format_cell_value_bool (b : bool) :
  ExcelGeneratorService._format_cell_value (PyBool b)
  = (if b then "True" else "False")
  /\ ExcelGeneratorService._format_cell_value (PyBool b)
     <> (if b then "Sí" else "No").
Proof. destruct b; split; (reflexivity || discriminate). Qed.

(** ** Strings and dictionaries *)

Lemma string_app_assoc (a b c : string) : (a ++ b) ++ c = a ++ (b ++ c).
Proof.
  induction a as [|x a IH]; [done|].
  change (String x (a ++ b) ++ c = String x (a ++ (b ++ c))).
  change (String x ((a ++ b) ++ c) = String x (a ++ (b ++ c))).
  by rewrite IH.
Qed.

Lemma dict_set_fresh {V} (d : pydict V) (key : string) (value : V) :
  key ∉ keys d -> dict_set d key value = (d ++ [(key, value)])%list.
Proof.
  induction d as [|[k v] d IH]; intros Hk; [done|].
  cbn in *. rewrite not_elem_of_cons in Hk. destruct Hk as [Hne Hk].
  rewrite decide_False by done. by rewrite IH.
Qed.

(** ** The relational gateway *)

Section Gateway.
Import DatabaseManager.
Variable server : Server.

Lemma where_loop_spec (items : pydict pyvalue) (conds : list string)
    (params : pydict pyvalue) :
  NoDup (keys params ++ keys items) ->
  where_loop items conds params
  = ((conds ++ (equality <$> compared items))%list,
     (params ++ compared items)%list).
Proof.
  revert conds params.
  induction items as [|[k v] items IH]; intros conds params Hnd.
  - cbn. by rewrite !app_nil_r.
  - cbn [where_loop]. unfold compared.
    assert (Hk : k ∉ keys params).
    { apply NoDup_app in Hnd as (_ & Hdis & _). intros Hin.
      apply (Hdis k Hin). cbn. left. }
    destruct v; cbn [is_None negb];
      rewrite ?filter_cons_True by done;
      rewrite ?filter_cons_False by (cbn; intros Hc; by apply Hc).
    2-6: rewrite IH;
      [ rewrite dict_set_fresh by done;
        cbn; by rewrite <- !app_assoc
      | rewrite dict_set_fresh by done; unfold keys in *;
        rewrite fmap_app, <- app_assoc; exact Hnd ].
    rewrite IH; [done|].
    unfold keys in *. cbn in Hnd.
    apply NoDup_app in Hnd as (Hp & Hdis & Hi).
    apply NoDup_app. split_and!; [done| |by inversion Hi].
    intros x Hx Hx'. apply (Hdis x Hx). by right.
Qed.

Lemma compared_excludes_None (filters : pydict pyvalue) (key : string) :
  NoDup (keys filters) -> (key, PyNone) ∈ filters ->
  key ∉ keys (compared filters).
Proof.
  intros Hnd Hin Hk. unfold keys, compared in *.
  apply list_elem_of_fmap in Hk as ([k v] & -> & Hkv).
  apply list_elem_of_filter in Hkv as [Hv Hkv]. cbn in *.
  assert (v = PyNone); [|done].
  clear Hv. induction filters as [|[k' v'] filters IH]; [by inversion Hin|].
  cbn in Hnd. apply NoDup_cons in Hnd as [Hk' Hnd].
  apply elem_of_cons in Hin as [Hin|Hin], Hkv as [Hkv|Hkv];
    simplify_eq; try done.
  - exfalso. apply Hk'. apply list_elem_of_fmap. by exists (k', v).
  - exfalso. apply Hk'. apply list_elem_of_fmap. by exists (k', PyNone).
  - by apply IH.
Qed.

Lemma build_query_spec (table_name : string) (fields : list string)
    (filters : pydict pyvalue) :
  NoDup (keys filters) ->
  build_query table_name fields filters
  = ("SELECT " ++ join ", " (quoted <$> fields) ++ " FROM " ++ quoted table_name
       ++ match compared filters with
          | [] => ""
          | _ => " WHERE " ++ join " AND " (equality <$> compared filters)
          end
       ++ " LIMIT 200000",
     compared filters).
Proof.
  intros Hnd. unfold build_query.
  rewrite where_loop_spec by done. cbn [app].
  destruct (compared filters) as [|kv active] eqn:Hactive.
  - cbn. by rewrite !string_app_assoc.
  - rewrite bool_decide_eq_false_2 by done. cbn [negb].
    by rewrite !string_app_assoc.
Qed.

End Gateway.

(** C7.  [fetch_data] sends one statement: a SELECT over the requested
    fields, in order, from the table, whose WHERE clause joins with AND one
    bound equality per filter entry with a value other than [None] (and is
    absent when there is none), followed by LIMIT 200000; the bound
    parameters are those entries, and a key given as [None] is not among
    them. *)
Theorem fetch_data_query (server : Server) (table_name : string)
    (fields : list string) (filters : pydict pyvalue) (st : store) :
  NoDup (keys filters) ->
  let where_clause :=
    match compared filters with
    | [] => ""
    | _ => " WHERE " ++ join " AND " (equality <$> compared filters)
    end in
  let query_str :=
    "SELECT " ++ join ", " (quoted <$> fields) ++ " FROM " ++ quoted table_name
      ++ where_clause ++ " LIMIT 200000" in
  log (DatabaseManager.fetch_data server table_name fields filters st).2
  = (log st ++ [Sql query_str (compared filters)])%list
  /\ (forall key, (key, PyNone) ∈ filters -> key ∉ keys (compared filters))
  /\ (forall key value, (key, value) ∈ compared filters <->
        (key, value) ∈ filters /\ value <> PyNone).
Proof.
  intros Hnd where_clause query_str. split_and!.
  - unfold DatabaseManager.fetch_data.
    rewrite build_query_spec by done. fold where_clause. fold query_str.
    unfold try_except, mbind, M_bind, execute.
    destruct (failure server (log st) _); done.
  - intros key. by apply compared_excludes_None.
  - intros key value. unfold compared.
    rewrite list_elem_of_filter. cbn. tauto.
Qed.

Lemma fetch_data_query_witness :
  log (DatabaseManager.fetch_data Examples.orders_server "orders"
         ["id"; "name"] Examples.paid_filter Examples.empty_store).2
  = [Sql ("SELECT " ++ quoted "id" ++ ", " ++ quoted "name" ++ " FROM "
            ++ quoted "orders" ++ " WHERE " ++ quoted "paid" ++ " = :paid"
            ++ " LIMIT 200000")
         [("paid", PyBool true)]].
Proof.
  assert (Hnd : NoDup (keys Examples.paid_filter)).
  { apply (bool_decide_unpack _). vm_compute. exact I. }
  exact (proj1 (fetch_data_query Examples.orders_server "orders"
                  ["id"; "name"] Examples.paid_filter Examples.empty_store Hnd)).
Defined.

(** ** Field validation *)

Section Validation.
Import ExcelGeneratorService.
Variable server : Server.
Variable _create_excel_file :
  list (pydict pyvalue) -> list string -> string -> outcome (list Byte.byte).

(** The introspection statement of [get_table_columns]. *)
Lemma get_table_columns_found (table : string) (st : store) :
  failure server (log st)
    (Sql DatabaseManager.columns_sql [("table_name", PyStr table)]) = None ->
  answer_columns server table <> [] ->
  DatabaseManager.get_table_columns server table st
  = (Return (answer_columns server table),
     Store (tables st)
       (log st ++ [Sql DatabaseManager.columns_sql [("table_name", PyStr table)]])).
Proof.
  intros Hrun Hcols. unfold DatabaseManager.get_table_columns.
  unfold try_except, mbind, M_bind, execute. rewrite Hrun.
  by rewrite bool_decide_eq_false_2.
Qed.


End Validation.




(** For a table without columns the lookup itself fails, and the message
    names the table rather than the requested fields. *)
Example generate_excel_unknown_table :
  ExcelGeneratorService.generate_excel Examples.orders_server
    Examples.no_workbook "missing" ["price"] None
    "default_template.xlsx" Examples.empty_store
  = (Raise (Exn ExcelGenerationError
       "Error generando Excel: Error validando campos: Error accediendo a tabla: Tabla 'missing' no encontrada"),
     Store ∅ [Sql DatabaseManager.columns_sql [("table_name", PyStr "missing")]]).
Proof. vm_compute. reflexivity. Qed.

(** ** Cast resolution *)

Lemma pg_types_missing (data_type : string) :
  data_type ∉ keys ExcelUploadService.pg_types ->
  dict_get ExcelUploadService.pg_types data_type = None.
Proof.
  generalize ExcelUploadService.pg_types as d.
  induction d as [|[k v] d IH]; intros Hk; [done|].
  cbn in *. apply not_elem_of_cons in Hk as [Hne Hk].
  rewrite decide_False by done. by apply IH.
Qed.

(** C9 (amended).  When the lookup statement runs, no exception is raised:
    with no row for the column the result is [text]; with a row whose
    declared type is one of the thirteen listed, the result is the type
    listed for it; with a row of any other declared type the result is
    [text] as well.  When the lookup statement fails, its exception
    leaves the function. *)
Theorem column_db_type_resolution (server : Server)
    (table_name column : string) (st : store) :
  let lookup :=
    Sql ExcelUploadService.data_type_sql
      [("table_name", PyStr table_name); ("column", PyStr column)] in
  let result :=
    (ExcelUploadService._get_column_db_type server table_name column st).1 in
  (failure server (log st) lookup = None ->
   (answer_data_type server table_name column = [] -> result = Return "text")
   /\ (forall data_type more db_type,
         answer_data_type server table_name column = data_type :: more ->
         (data_type, db_type)
           ∈ [ ("integer", "integer"); ("bigint", "bigint");
               ("smallint", "smallint"); ("numeric", "numeric");
               ("double precision", "double precision"); ("real", "real");
               ("boolean", "boolean"); ("date", "date");
               ("timestamp without time zone", "timestamp");
               ("timestamp with time zone", "timestamptz");
               ("character varying", "varchar"); ("character", "char");
               ("text", "text") ] ->
         result = Return db_type)
   /\ (forall data_type more,
         answer_data_type server table_name column = data_type :: more ->
         data_type
           ∉ [ "integer"; "bigint"; "smallint"; "numeric";
               "double precision"; "real"; "boolean"; "date";
               "timestamp without time zone"; "timestamp with time zone";
               "character varying"; "character"; "text" ] ->
         result = Return "text"))
  /\ (forall e, failure server (log st) lookup = Some e -> result = Raise e).
Proof.
  intros lookup result. unfold result.
  unfold ExcelUploadService._get_column_db_type, mbind, M_bind, execute.
  fold lookup. split; [intros Hrun; rewrite Hrun|intros e Hrun; by rewrite Hrun].
  split_and!.
  - by intros ->.
  - intros data_type more db_type -> Hin.
    repeat (apply elem_of_cons in Hin as [Hin|Hin];
            [injection Hin as -> ->; reflexivity|]).
    by inversion Hin.
  - intros data_type more -> Hk.
    by rewrite (pg_types_missing _ Hk).
Qed.

Lemma column_db_type_resolution_witness :
  (ExcelUploadService._get_column_db_type Examples.orders_server
     "orders" "amount" Examples.empty_store).1 = Return "text"
  /\ (ExcelUploadService._get_column_db_type Examples.orders_server
        "orders" "name" Examples.empty_store).1 = Return "varchar"
  /\ (ExcelUploadService._get_column_db_type Examples.sessions_server
        "sessions" "token" Examples.empty_store).1 = Return "text"
  /\ (ExcelUploadService._get_column_db_type Examples.connection_lost_server
        "orders" "id" (Store ∅ [CopyExpert "COPY"])).1
     = Raise (Exn OtherException "connection lost").
Proof.
  split_and!.
  - apply (proj1 (column_db_type_resolution Examples.orders_server "orders"
                    "amount" Examples.empty_store) eq_refl).
    reflexivity.
  - pose proof (proj1 (column_db_type_resolution Examples.orders_server
                         "orders" "name" Examples.empty_store) eq_refl)
      as (_ & Hfound & _).
    apply (Hfound "character varying" []); [reflexivity|].
    apply (bool_decide_unpack _). vm_compute. exact I.
  - pose proof (proj1 (column_db_type_resolution Examples.sessions_server
                         "sessions" "token" Examples.empty_store) eq_refl)
      as (_ & _ & Hother).
    apply (Hother "uuid" []); [reflexivity|].
    apply (bool_decide_unpack _). vm_compute. exact I.
  - apply (proj2 (column_db_type_resolution Examples.connection_lost_server
                    "orders" "id" (Store ∅ [CopyExpert "COPY"]))).
    reflexivity.
Defined.

(** C9, as stated, fails: a column that is found, with the declared type
    [uuid], does not resolve to a type of its own but to [text], the answer
    given for a column that is not found. *)
Lemma column_db_type_found_unlisted :
  answer_data_type Examples.sessions_server "sessions" "token" = ["uuid"]
  /\ (ExcelUploadService._get_column_db_type Examples.sessions_server
        "sessions" "token" Examples.empty_store).1 = Return "text"
  /\ answer_data_type Examples.sessions_server "sessions" "missing" = []
  /\ (ExcelUploadService._get_column_db_type Examples.sessions_server
        "sessions" "missing" Examples.empty_store).1 = Return "text".
Proof. split_and!; vm_compute; reflexivity. Qed.

(** ** The upload pipeline *)

Section Upload.
Import ExcelUploadService.
Variable host : Host.
Variable server : Server.

Lemma for_each_pure {S A} (l : list A) (body : A -> M S unit) (s : S) :
  (forall x s', (body x s').2 = s') -> (for_each l body s).2 = s.
Proof.
  intros Hbody. induction l as [|x l IH]; [done|].
  cbn. unfold mbind, M_bind.
  specialize (Hbody x s). destruct (body x s) as [[[]|e] s1]; cbn in *; by subst.
Qed.

(** Parsing does not touch the store. *)
Lemma scan_rows_state {S} (ws : worksheet) (rows : list Z)
    (data : list (pydict string)) (headers : list string) (first_row : bool)
    (s : S) :
  (scan_rows ws rows data headers first_row s).2 = s.
Proof.
  revert data headers first_row.
  induction rows as [|row_index rows IH]; intros data headers first_row; [done|].
  cbn [scan_rows].
  destruct (foldl _ _ _) as [[headers' row_data] has_data].
  repeat case_match; try done; apply IH.
Qed.

Lemma read_excel_state (excel_data : list Byte.byte) (st : store) :
  (_read_excel_file_ironxl host excel_data st).2 = st.
Proof.
  unfold _read_excel_file_ironxl, try_except, mbind, M_bind, lift.
  destruct (WorkBook_Load host excel_data) as [ws|e]; [|done].
  pose proof (scan_rows_state ws (range (RowCount ws)) [] [] true st) as Hscan.
  destruct (scan_rows _ _ _ _ _ _) as [[data|e] st1]; cbn in *; subst; [|done].
  by case_bool_decide.
Qed.

Lemma write_csv_state (fieldnames : list string) (rows : list (pydict string))
    (st : store) :
  (write_csv host fieldnames rows st).2 = st.
Proof.
  unfold write_csv. destruct (csv_failure host); [done|].
  apply for_each_pure. intros row s'. by case_bool_decide.
Qed.

Lemma execute_spec (stmt : statement) (st : store) :
  tables (execute server stmt st).2 = tables st
  /\ sends (execute server stmt) st [stmt].
Proof. unfold sends, execute. by destruct (failure server (log st) stmt). Qed.

Lemma get_column_db_type_spec (table_name column : string) (st : store) :
  tables (_get_column_db_type server table_name column st).2 = tables st
  /\ exists stmt params,
       sends (_get_column_db_type server table_name column) st [Sql stmt params].
Proof.
  unfold sends, _get_column_db_type, mbind, M_bind, execute.
  split; [|eexists _, _];
    destruct (failure server (log st) _); try done;
    by destruct (answer_data_type server table_name column).
Qed.

Lemma no_copy_nil : no_copy [].
Proof. intros text Hin. by inversion Hin. Qed.

Lemma no_copy_sql (text : string) (params : pydict pyvalue)
    (sent : list statement) :
  no_copy sent -> no_copy (Sql text params :: sent).
Proof.
  intros Hsent t Hin. apply elem_of_cons in Hin as [Hin|Hin]; [done|].
  by apply (Hsent t).
Qed.

Lemma no_copy_app (sent1 sent2 : list statement) :
  no_copy sent1 -> no_copy sent2 -> no_copy (sent1 ++ sent2).
Proof.
  intros H1 H2 t Hin. apply elem_of_app in Hin as [Hin|Hin];
    [by apply (H1 t)|by apply (H2 t)].
Qed.

Lemma create_staging_spec (fieldnames : list string) (staging : string)
    (st : store) :
  exists sent,
    sends (create_staging server fieldnames staging) st sent
    /\ no_copy sent
    /\ tables (create_staging server fieldnames staging st).2
       = if (create_staging server fieldnames staging st).1 is Return _
         then tables st ∖ {[staging]} ∪ {[staging]}
         else tables st.
Proof.
  unfold sends, create_staging, transaction, mbind, M_bind, execute,
    dropped, created.
  destruct (failure server (log st) _); cbn.
  { eexists [_]. split_and!; [done| |done]. apply no_copy_sql, no_copy_nil. }
  destruct (failure server _ _); cbn.
  all: eexists [_; _]; split_and!; [by rewrite <- app_assoc| |done].
  all: apply no_copy_sql, no_copy_sql, no_copy_nil.
Qed.

Lemma copy_to_staging_spec (fieldnames : list string) (staging : string)
    (st : store) :
  tables (copy_to_staging server fieldnames staging st).2 = tables st
  /\ exists sent, sends (copy_to_staging server fieldnames staging) st sent.
Proof.
  unfold sends, copy_to_staging, transaction, execute.
  destruct (failure server (log st) _); cbn; (split; [done|by eexists [_]]).
Qed.

Lemma cast_columns_spec (table_name : string) (fieldnames : list string)
    (st : store) :
  tables (cast_columns server table_name fieldnames st).2 = tables st
  /\ exists sent, sends (cast_columns server table_name fieldnames) st sent.
Proof.
  revert st. induction fieldnames as [|col rest IH]; intros st.
  { split; [done|]. exists []. unfold sends. cbn. by rewrite app_nil_r. }
  cbn [cast_columns]. unfold sends, mbind, M_bind.
  destruct (get_column_db_type_spec table_name col st)
    as (Htables & stmt & params & Hsent). unfold sends in Hsent.
  destruct (_get_column_db_type server table_name col st) as [[db_type|e] st1];
    cbn in *; [|split; [done|by eexists]].
  destruct (IH st1) as (Htables' & sent & Hsent'). unfold sends in Hsent'.
  destruct (cast_columns server table_name rest st1) as [[casts|e] st2];
    cbn in *.
  all: split; [congruence|].
  all: eexists; rewrite Hsent', Hsent, <- app_assoc; reflexivity.
Qed.

Lemma upsert_spec (table_name : string) (fieldnames conflict_columns : list string)
    (staging : string) (st : store) :
  tables (upsert server table_name fieldnames conflict_columns staging st).2
  = tables st
  /\ exists sent,
       sends (upsert server table_name fieldnames conflict_columns staging) st sent.
Proof.
  unfold sends, upsert, transaction, mbind, M_bind.
  destruct (cast_columns_spec table_name fieldnames st)
    as (Htables & sent & Hsent). unfold sends in Hsent.
  destruct (cast_columns server table_name fieldnames st) as [[casts|e] st1];
    cbn in *; [|split; [done|by eexists]].
  unfold execute. destruct (failure server (log st1) _); cbn.
  all: split; [done|].
  all: eexists; rewrite Hsent, <- app_assoc; reflexivity.
Qed.

Lemma drop_staging_spec (staging : string) (st : store) :
  (exists sent, sends (drop_staging server staging) st sent)
  /\ tables (drop_staging server staging st).2
     = if (drop_staging server staging st).1 is Return _
       then tables st ∖ {[staging]}
       else tables st.
Proof.
  unfold sends, drop_staging, transaction, mbind, M_bind, execute, dropped.
  destruct (failure server (log st) _); cbn; (split; [by eexists [_]|done]).
Qed.

Lemma bind_run {S A B} (m : M S A) (k : A -> M S B) (s : S) :
  (m ≫= k) s
  = match m s with
    | (Return a, s') => k a s'
    | (Raise e, s') => (Raise e, s')
    end.
Proof. reflexivity. Qed.

(** The block raised before it sent any statement. *)
Ltac stops_before_staging :=
  exists []; rewrite app_nil_r; cbn [fst snd];
  split; [done|left; split; [done|apply no_copy_nil]].

(** Every way the try block can end. *)
Lemma upload_steps_spec (excel_data : list Byte.byte) (table_name : string)
    (conflict_columns : list string) (st : store) :
  let run := upload_steps host server excel_data table_name conflict_columns st in
  exists sent,
    log run.2 = (log st ++ sent)%list
    /\ match run.1 with
       | Return r =>
           success r = true /\ errors r = None /\ 0 < rows_processed r
           /\ staging_of table_name ∉ tables run.2
       | Raise e =>
           (tables run.2 = tables st /\ no_copy sent)
           \/ staging_of table_name ∈ tables run.2
       end.
Proof.
  cbv zeta. unfold upload_steps. rewrite bind_run.
  pose proof (read_excel_state excel_data st) as Hparse.
  destruct (_read_excel_file_ironxl host excel_data st) as [[rows|e] st0];
    cbn in Hparse; subst st0; cbv beta iota; cbn [fst snd]; [|stops_before_staging].
  destruct rows as [|first rows]; [stops_before_staging|].
  fold (staging_of table_name).
  set (fieldnames := keys first). set (staging := staging_of table_name).
  rewrite bind_run.
  pose proof (write_csv_state fieldnames (first :: rows) st) as Hcsv.
  destruct (write_csv host fieldnames (first :: rows) st) as [[[]|e] st0];
    cbn in Hcsv; subst st0; cbv beta iota; cbn [fst snd]; [|stops_before_staging].
  rewrite bind_run.
  destruct (create_staging_spec fieldnames staging st)
    as (sent1 & Hsent1 & Hnc1 & Htables1). unfold sends in Hsent1.
  destruct (create_staging server fieldnames staging st) as [[[]|e] st1];
    cbn [fst snd] in Hsent1, Htables1; cbv beta iota; cbn [fst snd];
    [|exists sent1; split; [done|left; by split]].
  assert (Hin1 : staging ∈ tables st1).
  { rewrite Htables1. apply elem_of_union_r. by apply elem_of_singleton. }
  rewrite bind_run.
  destruct (copy_to_staging_spec fieldnames staging st1)
    as (Htables2 & sent2 & Hsent2). unfold sends in Hsent2.
  destruct (copy_to_staging server fieldnames staging st1) as [[[]|e] st2];
    cbn [fst snd] in Hsent2, Htables2; cbv beta iota; cbn [fst snd];
    [|eexists; split;
      [by rewrite Hsent2, Hsent1, <- app_assoc|right; cbn [fst snd]; congruence]].
  rewrite bind_run.
  destruct (upsert_spec table_name fieldnames conflict_columns staging st2)
    as (Htables3 & sent3 & Hsent3). unfold sends in Hsent3.
  destruct (upsert server table_name fieldnames conflict_columns staging st2)
    as [[[]|e] st3]; cbn [fst snd] in Hsent3, Htables3; cbv beta iota; cbn [fst snd];
    [|eexists; split;
      [by rewrite Hsent3, Hsent2, Hsent1, <- !app_assoc
      |right; cbn [fst snd]; congruence]].
  rewrite bind_run.
  destruct (drop_staging_spec staging st3)
    as ((sent4 & Hsent4) & Htables4). unfold sends in Hsent4.
  destruct (drop_staging server staging st3) as [[[]|e] st4];
    cbn [fst snd] in Hsent4, Htables4; cbv beta iota;
    unfold mret, M_ret; cbn [fst snd success errors rows_processed];
    (eexists; split;
      [by rewrite Hsent4, Hsent3, Hsent2, Hsent1, <- !app_assoc|]).
  - split_and!; [done|done|cbn; lia|]. rewrite Htables4.
    apply not_elem_of_difference. right. by apply elem_of_singleton.
  - right. congruence.
Qed.

End Upload.

(** C3.  [upload_excel_to_table] returns on every input and with every
    behaviour of the engine and of the store.  When a stage raises, the
    result has [success = False], no rows processed, and the text of the
    exception both in the message and as the only entry of the error list;
    otherwise it is the successful result, without error list. *)
Theorem upload_never_raises (host : Host) (server : Server)
    (excel_data : list Byte.byte) (table_name : string)
    (conflict_columns : list string) (st : store) :
  exists r,
    (ExcelUploadService.upload_excel_to_table host server excel_data
       table_name conflict_columns st).1 = Return r
    /\ match (ExcelUploadService.upload_steps host server excel_data
                table_name conflict_columns st).1 with
       | Return r' => r = r' /\ success r = true /\ errors r = None
       | Raise e =>
           success r = false
           /\ message r = "Error en carga COPY+upsert: " ++ exn_msg e
           /\ rows_processed r = 0
           /\ errors r = Some [exn_msg e]
       end.
Proof.
  unfold ExcelUploadService.upload_excel_to_table, try_except.
  destruct (upload_steps_spec host server excel_data table_name
              conflict_columns st) as (sent & _ & Hrun). cbn zeta in Hrun.
  destruct (ExcelUploadService.upload_steps host server excel_data table_name
              conflict_columns st) as [[r|e] st']; cbn in *.
  - exists r. by destruct Hrun as (? & ? & _).
  - by eexists.
Qed.

(** C2 (amended).  The upload always returns.  When it reports success the
    staging table of the destination is not in the store.  When it reports
    failure after the COPY into the staging table was sent, which follows
    the creation of that table, the staging table is still in the store. *)
Theorem staging_table_lifecycle (host : Host) (server : Server)
    (excel_data : list Byte.byte) (table_name : string)
    (conflict_columns : list string) (st : store) :
  exists r st' sent,
    ExcelUploadService.upload_excel_to_table host server excel_data
      table_name conflict_columns st = (Return r, st')
    /\ log st' = (log st ++ sent)%list
    /\ (success r = true -> staging_of table_name ∉ tables st')
    /\ (success r = false -> (exists text, CopyExpert text ∈ sent) ->
        staging_of table_name ∈ tables st').
Proof.
  unfold ExcelUploadService.upload_excel_to_table, try_except.
  destruct (upload_steps_spec host server excel_data table_name
              conflict_columns st) as (sent & Hlog & Hrun). cbn zeta in *.
  destruct (ExcelUploadService.upload_steps host server excel_data table_name
              conflict_columns st) as [[r|e] st']; cbn in *.
  - exists r, st', sent. destruct Hrun as (Hs & _ & _ & Hout).
    split_and!; [done|done|done|]. intros Hf. congruence.
  - eexists _, st', sent. split_and!; [done|done|done|].
    intros _ (text & Hin). destruct Hrun as [[_ Hnc]|Hin']; [|done].
    by destruct (Hnc text).
Qed.

(** C2, as stated, fails: when the COPY is refused the upload returns a
    failure and the staging table it created stays in the store. *)
Lemma staging_table_left_behind :
  exists r st',
    ExcelUploadService.upload_excel_to_table Examples.one_row_host
      Examples.copy_fails_server [] "orders" ["id"] Examples.empty_store
    = (Return r, st')
    /\ success r = false
    /\ errors r = Some ["COPY failed"]
    /\ "staging_orders_upsert" ∈ tables st'.
Proof.
  eexists _, _. split; [vm_compute; reflexivity|].
  split; [reflexivity|]. split; [reflexivity|].
  apply (bool_decide_unpack _). vm_compute. exact I.
Qed.

(** A run in which every stage succeeds. *)
Example upload_succeeds :
  exists r st',
    ExcelUploadService.upload_excel_to_table Examples.one_row_host
      Examples.orders_server [] "orders" ["id"] Examples.empty_store
    = (Return r, st')
    /\ success r = true
    /\ rows_processed r = 1
    /\ tables st' = ∅
    /\ List.length (log st') = 6%nat.
Proof.
  eexists _, _. split; [vm_compute; reflexivity|].
  repeat split; reflexivity.
Qed.

(** ** The spreadsheet parser *)

Section Parser.
Import ExcelUploadService.

Lemma dict_set_keys_named (row : pydict string) (key value : string) :
  key <> "" -> keys_named row -> keys_named (dict_set row key value).
Proof.
  intros Hkey. unfold keys_named, keys.
  induction row as [|[k v] row IH]; intros Hrow; cbn.
  - by repeat constructor.
  - cbn in Hrow. apply Forall_cons in Hrow as [Hk Hrow].
    case_decide; cbn; constructor; auto.
Qed.

Lemma scan_cell_keys_named (ws : worksheet) (first_row : bool)
    (row_index col_index : Z) (acc : list string * pydict string * bool) :
  keys_named acc.1.2 ->
  keys_named (scan_cell ws first_row row_index acc col_index).1.2.
Proof.
  destruct acc as [[headers row_data] has_data]. cbn [fst snd].
  intros Hrow. unfold scan_cell.
  repeat case_match; cbn [fst snd]; try done.
  apply dict_set_keys_named; [|done].
  match goal with
  | H : _ && negb (bool_decide _) = true |- _ =>
      apply andb_true_iff in H as [_ H];
      apply negb_true_iff, bool_decide_eq_false in H
  end.
  done.
Qed.

Lemma scan_columns_keys_named (ws : worksheet) (first_row : bool)
    (row_index : Z) (cols : list Z) (acc : list string * pydict string * bool) :
  keys_named acc.1.2 ->
  keys_named (foldl (scan_cell ws first_row row_index) acc cols).1.2.
Proof.
  revert acc. induction cols as [|col cols IH]; intros acc Hacc; [done|].
  cbn [foldl]. apply IH. by apply scan_cell_keys_named.
Qed.

Lemma scan_rows_keys_named {S} (ws : worksheet) (rows : list Z)
    (data : list (pydict string)) (headers : list string) (first_row : bool)
    (s : S) (result : list (pydict string)) :
  Forall keys_named data ->
  (scan_rows ws rows data headers first_row s).1 = Return result ->
  Forall keys_named result.
Proof.
  revert data headers first_row.
  induction rows as [|row_index rows IH]; intros data headers first_row Hdata.
  - cbn. by intros [= <-].
  - cbn [scan_rows].
    pose proof (scan_columns_keys_named ws first_row row_index
                  (range (ColumnCount ws)) (headers, [], false)) as Hrow.
    destruct (foldl _ _ _) as [[headers' row_data] has_data].
    cbn [fst snd] in Hrow.
    specialize (Hrow ltac:(by constructor)).
    repeat case_match; try done; try (by apply IH).
    + apply IH. apply Forall_app. split; [done|by constructor].
    + cbn. by intros [= <-].
Qed.

End Parser.

(** The part of C6 that holds: no key of a parsed row is blank. *)
Lemma parsed_keys_named (host : Host) (excel_data : list Byte.byte)
    (st : store) (data : list (pydict string)) :
  (ExcelUploadService._read_excel_file_ironxl host excel_data st).1 = Return data ->
  Forall keys_named data.
Proof.
  unfold ExcelUploadService._read_excel_file_ironxl, try_except.
  rewrite bind_run. unfold lift.
  destruct (WorkBook_Load host excel_data) as [ws|e]; [|done].
  rewrite bind_run.
  pose proof (scan_rows_keys_named (S:=store) ws (range (RowCount ws)) [] [] true st)
    as Hscan.
  destruct (ExcelUploadService.scan_rows _ _ _ _ _ _) as [[rows|e] st1]; [|done].
  cbn [fst] in Hscan. specialize (Hscan rows ltac:(constructor) eq_refl).
  case_bool_decide; [done|]. cbn. by intros [= <-].
Qed.

(** C6.  With a blank header cell between two names, the filtering of the
    header list moves the later name one place to the left: the cell under
    the blank header is filed under that name and the cell under the name
    itself is left out. *)
Theorem parser_shifts_headers_after_blank :
  (ExcelUploadService._read_excel_file_ironxl Examples.gap_host []
     Examples.empty_store).1
  = Return [[("id", "1"); ("name", "x")]]
  /\ Value Examples.gap_sheet !! "B1" = None
  /\ Value Examples.gap_sheet !! "C1" = Some (PyStr "name")
  /\ Value Examples.gap_sheet !! "B2" = Some (PyStr "x")
  /\ Value Examples.gap_sheet !! "C2" = Some (PyStr "Bob").
Proof. split_and!; vm_compute; reflexivity. Qed.

(** ** Writing the worksheet *)

Section Writer.
Import ExcelGeneratorService.
Variable engine : Engine.
Hypothesis Hengine : lacks_attributes_only engine.

Lemma get_cell_ok (addr : string) (sh : sheet) :
  get_cell engine addr sh = (Return tt, sh).
Proof. unfold get_cell, attempt. by rewrite (cells_ok _ Hengine). Qed.

Lemma set_value_ok (addr value : string) (sh : sheet) :
  set_value engine addr value sh
  = (Return tt, Sheet (written sh ++ [(addr, value)]) (styled sh) (sized sh)).
Proof. unfold set_value, attempt. by rewrite (values_ok _ Hengine). Qed.

(** A style assignment returns or raises [AttributeError]; the written
    values stay as they are. *)
Lemma set_style_spec (addr : string) (a : style_attr) (sh : sheet) :
  written (set_style engine addr a sh).2 = written sh
  /\ match (set_style engine addr a sh).1 with
     | Return _ => True
     | Raise e => isinstance e AttributeError = true
     end.
Proof.
  unfold set_style, attempt.
  destruct (style_failure engine sh addr a) as [e|] eqn:Hfail; cbn; [|done].
  split; [done|]. unfold isinstance.
  by rewrite (styles_attr _ Hengine _ _ _ _ Hfail).
Qed.

Lemma resize_spec (z : sizing) (sh : sheet) :
  written (resize engine z sh).2 = written sh
  /\ match (resize engine z sh).1 with
     | Return _ => True
     | Raise e => isinstance e AttributeError = true
     end.
Proof.
  unfold resize, attempt.
  destruct (sizing_failure engine sh z) as [e|] eqn:Hfail; cbn; [|done].
  split; [done|]. unfold isinstance.
  by rewrite (sizing_attr _ Hengine _ _ _ Hfail).
Qed.

Lemma write_header_spec (entry : Z * string) (sh : sheet) :
  (write_header engine entry sh).1 = Return tt
  /\ written (write_header engine entry sh).2
     = (written sh ++ [((_get_column_letter entry.1 ++ "1")%string, entry.2)])%list.
Proof.
  destruct entry as [col_idx field]. unfold write_header.
  rewrite bind_run, get_cell_ok. rewrite bind_run, set_value_ok.
  set (sh1 := Sheet _ _ _). set (addr := _get_column_letter col_idx ++ "1").
  unfold try_except.
  rewrite bind_run.
  destruct (set_style_spec addr (FontBold true) sh1) as [Hw1 He1].
  destruct (set_style engine addr (FontBold true) sh1) as [[[]|e] sh2];
    cbn [fst snd] in *; [|by rewrite He1].
  rewrite bind_run.
  destruct (set_style_spec addr (FontName "Arial") sh2) as [Hw2 He2].
  destruct (set_style engine addr (FontName "Arial") sh2) as [[[]|e] sh3];
    cbn [fst snd] in *; [|rewrite He2; cbn; by rewrite Hw2, Hw1].
  rewrite bind_run.
  destruct (set_style_spec addr (FontHeight 11) sh3) as [Hw3 He3].
  destruct (set_style engine addr (FontHeight 11) sh3) as [[[]|e] sh4];
    cbn [fst snd] in *; [|rewrite He3; cbn; by rewrite Hw3, Hw2, Hw1].
  destruct (set_style_spec addr (FillBackgroundColor "#D9EAD3") sh4) as [Hw4 He4].
  destruct (set_style engine addr (FillBackgroundColor "#D9EAD3") sh4)
    as [[[]|e] sh5]; cbn [fst snd] in *;
    [|rewrite He4; cbn]; by rewrite Hw4, Hw3, Hw2, Hw1.
Qed.

(** A loop whose body always returns and appends its cell. *)
Lemma for_each_written {A} (body : A -> M sheet unit)
    (cell : A -> list (string * string)) (l : list A) (sh : sheet) :
  (forall x sh', (body x sh').1 = Return tt
                 /\ written (body x sh').2 = (written sh' ++ cell x)%list) ->
  (for_each l body sh).1 = Return tt
  /\ written (for_each l body sh).2 = (written sh ++ List.concat (cell <$> l))%list.
Proof.
  intros Hbody. revert sh. induction l as [|x l IH]; intros sh.
  - cbn. by rewrite app_nil_r.
  - cbn [for_each]. rewrite bind_run.
    destruct (Hbody x sh) as [Hret Hw].
    destruct (body x sh) as [[[]|e] sh1]; cbn [fst snd] in *; [|done].
    destruct (IH sh1) as [-> ->]. split; [done|].
    rewrite Hw. cbn. by rewrite <- app_assoc.
Qed.

Lemma concat_singletons {A B} (f : A -> B) (l : list A) :
  List.concat ((fun x => [f x]) <$> l) = f <$> l.
Proof. induction l as [|x l IH]; [done|]. cbn. by rewrite IH. Qed.

Lemma write_headers_spec (fields : list string) (sh : sheet) :
  (for_each (enumerate fields) (write_header engine) sh).1 = Return tt
  /\ written (for_each (enumerate fields) (write_header engine) sh).2
     = (written sh ++ header_cells fields)%list.
Proof.
  unfold header_cells. rewrite <- concat_singletons.
  apply for_each_written. intros entry sh'. apply write_header_spec.
Qed.

Lemma write_cell_spec (row_data : pydict pyvalue) (row_idx : Z)
    (entry : Z * string) (sh : sheet) :
  (write_cell engine row_data row_idx entry sh).1 = Return tt
  /\ written (write_cell engine row_data row_idx entry sh).2
     = (written sh
          ++ [((_get_column_letter entry.1 ++ pretty row_idx)%string,
               _format_cell_value
                 (default (PyStr "") (dict_get row_data entry.2)))])%list.
Proof.
  destruct entry as [col_idx field]. unfold write_cell.
  by rewrite bind_run, get_cell_ok, set_value_ok.
Qed.

Lemma write_chunk_spec (fields : list string) (chunk : list (pydict pyvalue))
    (row_idx : Z) (sh : sheet) :
  (write_chunk engine fields chunk row_idx sh).1
  = Return (row_idx + Z.of_nat (List.length chunk))
  /\ written (write_chunk engine fields chunk row_idx sh).2
     = (written sh ++ data_cells fields chunk row_idx)%list.
Proof.
  revert row_idx sh. induction chunk as [|row_data chunk IH]; intros row_idx sh.
  - cbn. rewrite app_nil_r. split; [f_equal; lia|done].
  - cbn [write_chunk data_cells]. rewrite bind_run.
    destruct (for_each_written (write_cell engine row_data row_idx)
                (fun entry : Z * string =>
                   [((_get_column_letter entry.1 ++ pretty row_idx)%string,
                     _format_cell_value
                       (default (PyStr "") (dict_get row_data entry.2)))])
                (enumerate fields) sh) as [Hret Hw].
    { intros entry sh'. apply write_cell_spec. }
    rewrite (concat_singletons
               (fun entry : Z * string =>
                  ((_get_column_letter entry.1 ++ pretty row_idx)%string,
                   _format_cell_value
                     (default (PyStr "") (dict_get row_data entry.2)))))
      in Hw.
    fold (row_cells fields row_data row_idx) in Hw.
    destruct (for_each _ _ sh) as [[[]|e] sh1]; cbn [fst snd] in *; [|done].
    destruct (IH (row_idx + 1) sh1) as [-> ->]. split.
    + f_equal. cbn [List.length]. lia.
    + rewrite Hw. by rewrite <- app_assoc.
Qed.

Lemma data_cells_app (fields : list string) (a b : list (pydict pyvalue))
    (row_idx : Z) :
  data_cells fields (a ++ b) row_idx
  = (data_cells fields a row_idx
       ++ data_cells fields b (row_idx + Z.of_nat (List.length a)))%list.
Proof.
  revert row_idx. induction a as [|row a IH]; intros row_idx.
  - cbn. f_equal. lia.
  - cbn [app data_cells List.length]. rewrite IH, <- app_assoc.
    do 3 f_equal. lia.
Qed.

(** The chunks visited from the [j]-th on cover the rows they start at. *)
Lemma write_chunks_spec (fields : list string) (data : list (pydict pyvalue))
    (chunk_size n j : nat) (row_idx : Z) (sh : sheet) :
  let starts := (fun k => (k * chunk_size)%nat) <$> seq j n in
  let rows := take (n * chunk_size) (drop (j * chunk_size) data) in
  (write_chunks engine fields data chunk_size starts row_idx sh).1
  = Return (row_idx + Z.of_nat (List.length rows))
  /\ written (write_chunks engine fields data chunk_size starts row_idx sh).2
     = (written sh ++ data_cells fields rows row_idx)%list.
Proof.
  cbv zeta. revert j row_idx sh. induction n as [|n IH]; intros j row_idx sh.
  - cbn. rewrite take_0. cbn. rewrite app_nil_r. split; [f_equal; lia|done].
  - cbn [seq fmap list_fmap write_chunks]. rewrite bind_run.
    destruct (write_chunk_spec fields
                (take chunk_size (drop (j * chunk_size) data)) row_idx sh)
      as [Hret Hw].
    destruct (write_chunk _ _ _ _ _) as [[row_idx'|e] sh1];
      cbn [fst snd] in *; [|done].
    injection Hret as ->.
    destruct (IH (S j) (row_idx + Z.of_nat
                (List.length (take chunk_size (drop (j * chunk_size) data))))
                sh1) as [Hret' Hw'].
    change (list_fmap nat nat (fun k => (k * chunk_size)%nat) (seq (S j) n))
      with ((fun k => (k * chunk_size)%nat) <$> seq (S j) n).
    rewrite Hret', Hw', Hw.
    assert (Hsplit :
      take (S n * chunk_size) (drop (j * chunk_size) data)
      = (take chunk_size (drop (j * chunk_size) data)
           ++ take (n * chunk_size) (drop (S j * chunk_size) data))%list).
    { replace (S n * chunk_size)%nat with (chunk_size + n * chunk_size)%nat by lia.
      rewrite <- take_take_drop. f_equal. rewrite drop_drop.
      f_equal. f_equal. lia. }
    rewrite Hsplit, data_cells_app, length_app, <- app_assoc.
    split; [f_equal; lia|done].
Qed.

Lemma range_step_covers (n step : nat) :
  (0 < step)%nat -> (n <= Nat.div (n + step - 1) step * step)%nat.
Proof.
  intros Hstep.
  pose proof (Nat.div_mod (n + step - 1) step ltac:(lia)) as Hdiv.
  pose proof (Nat.mod_upper_bound (n + step - 1) step ltac:(lia)) as Hmod.
  nia.
Qed.

Lemma autosize_spec (col_idx : Z) (sh : sheet) :
  (autosize engine col_idx sh).1 = Return tt
  /\ written (autosize engine col_idx sh).2 = (written sh ++ [])%list.
Proof.
  rewrite app_nil_r. unfold autosize, try_except.
  destruct (resize_spec (AutoSizeColumn col_idx) sh) as [Hw1 He1].
  destruct (resize engine (AutoSizeColumn col_idx) sh) as [[[]|e] sh1];
    cbn [fst snd] in *; [done|]. rewrite He1.
  destruct (resize_spec (SetColumnWidth col_idx 15) sh1) as [Hw2 He2].
  destruct (resize engine (SetColumnWidth col_idx 15) sh1) as [[[]|e'] sh2];
    cbn [fst snd] in *; [|rewrite He2; cbn]; by rewrite Hw2, Hw1.
Qed.

(** A loop whose body always returns and appends to one of the three
    records of the sheet. *)
Lemma for_each_appends {A B} (proj : sheet -> list B) (body : A -> M sheet unit)
    (added : A -> list B) (l : list A) (sh : sheet) :
  (forall x sh', (body x sh').1 = Return tt
                 /\ proj (body x sh').2 = (proj sh' ++ added x)%list) ->
  (for_each l body sh).1 = Return tt
  /\ proj (for_each l body sh).2 = (proj sh ++ List.concat (added <$> l))%list.
Proof.
  intros Hbody. revert sh. induction l as [|x l IH]; intros sh.
  - cbn. by rewrite app_nil_r.
  - cbn [for_each]. rewrite bind_run.
    destruct (Hbody x sh) as [Hret Hw].
    destruct (body x sh) as [[[]|e] sh1]; cbn [fst snd] in *; [|done].
    destruct (IH sh1) as [-> ->]. split; [done|].
    rewrite Hw. cbn. by rewrite <- app_assoc.
Qed.

Lemma concat_nils {A B} (l : list A) :
  List.concat ((fun _ : A => @nil B) <$> l) = [].
Proof. induction l; [done|]. cbn. done. Qed.

(** With an engine that accepts every style, the header loop sets the four
    decorations of each header cell. *)
Lemma write_header_styled (entry : Z * string) (sh : sheet) :
  accepts_styles engine ->
  (write_header engine entry sh).1 = Return tt
  /\ styled (write_header engine entry sh).2
     = (styled sh
          ++ ((fun a => ((_get_column_letter entry.1 ++ "1")%string, a))
                <$> header_styles))%list.
Proof.
  intros Hstyles. destruct entry as [col_idx field]. unfold write_header.
  rewrite bind_run, get_cell_ok. rewrite bind_run, set_value_ok.
  assert (Hset : forall addr a sh',
            set_style engine addr a sh'
            = (Return tt,
               Sheet (written sh') (styled sh' ++ [(addr, a)]) (sized sh'))).
  { intros addr a sh'. unfold set_style, attempt. by rewrite Hstyles. }
  unfold try_except.
  rewrite bind_run, Hset, bind_run, Hset, bind_run, Hset, Hset.
  cbn [fst snd styled written sized].
  by rewrite <- !app_assoc.
Qed.

Lemma write_headers_styled (fields : list string) (sh : sheet) :
  accepts_styles engine ->
  styled (for_each (enumerate fields) (write_header engine) sh).2
  = (styled sh ++ header_decorations fields)%list.
Proof.
  intros Hstyles. unfold header_decorations.
  apply (for_each_appends styled). intros entry sh'.
  by apply write_header_styled.
Qed.

(** The data loops and the sizing loop set no style. *)
Lemma write_cell_styled (row_data : pydict pyvalue) (row_idx : Z)
    (entry : Z * string) (sh : sheet) :
  (write_cell engine row_data row_idx entry sh).1 = Return tt
  /\ styled (write_cell engine row_data row_idx entry sh).2
     = (styled sh ++ [])%list.
Proof.
  destruct entry as [col_idx field]. unfold write_cell.
  rewrite bind_run, get_cell_ok, set_value_ok. cbn. by rewrite app_nil_r.
Qed.

Lemma write_chunk_styled (fields : list string) (chunk : list (pydict pyvalue))
    (row_idx : Z) (sh : sheet) :
  styled (write_chunk engine fields chunk row_idx sh).2 = styled sh.
Proof.
  revert row_idx sh. induction chunk as [|row_data chunk IH]; intros row_idx sh.
  - done.
  - cbn [write_chunk]. rewrite bind_run.
    destruct (for_each_appends styled (write_cell engine row_data row_idx)
                (fun _ => []) (enumerate fields) sh) as [Hret Hs].
    { intros entry sh'. apply write_cell_styled. }
    rewrite concat_nils, app_nil_r in Hs.
    destruct (for_each _ _ sh) as [[[]|e] sh1]; cbn [fst snd] in *; [|done].
    by rewrite IH.
Qed.

Lemma write_chunks_styled (fields : list string) (data : list (pydict pyvalue))
    (chunk_size : nat) (starts : list nat) (row_idx : Z) (sh : sheet) :
  styled (write_chunks engine fields data chunk_size starts row_idx sh).2
  = styled sh.
Proof.
  revert row_idx sh. induction starts as [|i starts IH]; intros row_idx sh.
  - done.
  - cbn [write_chunks]. rewrite bind_run.
    pose proof (write_chunk_styled fields (take chunk_size (drop i data))
                  row_idx sh) as Hs.
    destruct (write_chunk _ _ _ _ _) as [[row_idx'|e] sh1];
      cbn [fst snd] in *; [|done].
    by rewrite IH.
Qed.

Lemma autosize_styled (col_idx : Z) (sh : sheet) :
  (autosize engine col_idx sh).1 = Return tt
  /\ styled (autosize engine col_idx sh).2 = (styled sh ++ [])%list.
Proof.
  split; [apply autosize_spec|].
  rewrite app_nil_r. unfold autosize, try_except, resize, attempt.
  destruct (sizing_failure engine sh (AutoSizeColumn col_idx)) as [e|];
    [|done].
  destruct (isinstance e AttributeError); [|done].
  destruct (sizing_failure engine sh (SetColumnWidth col_idx 15)) as [e'|];
    [|done].
  by destruct (isinstance e' AttributeError).
Qed.

End Writer.

(** The header loop when styling fails with something else than
    [AttributeError]. *)
Section StrictWriter.
Import ExcelGeneratorService.
Variable engine : Engine.
Hypothesis Hengine : rejects_styles_otherwise engine.

(** One header cell: its value is written; then either the four
    decorations are set, or the first one the engine rejects ends the
    body with the engine's exception. *)
Lemma write_header_strict (entry : Z * string) (sh : sheet) :
  let addr := (_get_column_letter entry.1 ++ "1")%string in
  (exists sh',
     write_header engine entry sh = (Return tt, sh')
     /\ written sh' = (written sh ++ [(addr, entry.2)])%list
     /\ forall a, a ∈ header_styles ->
          exists sh0, style_failure engine sh0 addr a = None)
  \/ (exists e sh',
        write_header engine entry sh = (Raise e, sh')
        /\ written sh' = (written sh ++ [(addr, entry.2)])%list
        /\ exists sh0 a, style_failure engine sh0 addr a = Some e).
Proof.
  destruct entry as [col_idx field]. cbv zeta. cbn [fst snd].
  set (addr := (_get_column_letter col_idx ++ "1")%string).
  unfold write_header. fold addr.
  unfold get_cell, set_value, attempt.
  rewrite bind_run, (strict_cells_ok _ Hengine).
  rewrite bind_run, (strict_values_ok _ Hengine).
  cbn [id]. set (sh1 := Sheet _ _ _).
  unfold try_except, set_style, attempt.
  rewrite bind_run.
  destruct (style_failure engine sh1 addr (FontBold true)) as [e|] eqn:H1.
  { right. exists e, sh1. rewrite (styles_other _ Hengine _ _ _ _ H1).
    split_and!; [done|done|by exists sh1, (FontBold true)]. }
  set (sh2 := Sheet _ _ _). rewrite bind_run.
  destruct (style_failure engine sh2 addr (FontName "Arial")) as [e|] eqn:H2.
  { right. exists e, sh2. rewrite (styles_other _ Hengine _ _ _ _ H2).
    split_and!; [done|done|by exists sh2, (FontName "Arial")]. }
  set (sh3 := Sheet _ _ _). rewrite bind_run.
  destruct (style_failure engine sh3 addr (FontHeight 11)) as [e|] eqn:H3.
  { right. exists e, sh3. rewrite (styles_other _ Hengine _ _ _ _ H3).
    split_and!; [done|done|by exists sh3, (FontHeight 11)]. }
  set (sh4 := Sheet _ _ _).
  destruct (style_failure engine sh4 addr (FillBackgroundColor "#D9EAD3"))
    as [e|] eqn:H4.
  { right. exists e, sh4. rewrite (styles_other _ Hengine _ _ _ _ H4).
    split_and!; [done|done|by exists sh4, (FillBackgroundColor "#D9EAD3")]. }
  left. eexists. split_and!; [done|done|].
  intros a Ha. unfold header_styles in Ha.
  repeat (apply elem_of_cons in Ha as [-> | Ha]; [eauto|]).
  by apply elem_of_nil in Ha.
Qed.

(** The header loop stops at the first cell one of whose decorations is
    rejected: the values of the cells up to it are written, nothing
    else. *)
Lemma write_headers_strict (entries : list (Z * string)) (i : nat)
    (entry : Z * string) (a : style_attr) (sh : sheet) :
  entries !! i = Some entry ->
  a ∈ header_styles ->
  (forall sh0,
     style_failure engine sh0 (_get_column_letter entry.1 ++ "1") a <> None) ->
  exists e sh' j,
    (j <= i)%nat
    /\ for_each entries (write_header engine) sh = (Raise e, sh')
    /\ written sh'
       = (written sh
            ++ take (S j)
                 ((fun entry : Z * string =>
                     ((_get_column_letter entry.1 ++ "1")%string, entry.2))
                    <$> entries))%list
    /\ exists sh0 addr a0, style_failure engine sh0 addr a0 = Some e.
Proof.
  intros Hentry Ha Hfails. revert i sh Hentry.
  induction entries as [|first rest IH]; intros i sh Hentry; [done|].
  cbn [for_each]. rewrite bind_run.
  destruct (write_header_strict first sh)
    as [(sh1 & Hrun & Hw & Hok)|(e & sh1 & Hrun & Hw & sh0 & a0 & He)].
  - rewrite Hrun. destruct i as [|i].
    { injection Hentry as ->. destruct (Hok a Ha) as (sh0 & Hnone).
      by destruct (Hfails sh0). }
    destruct (IH i sh1 Hentry) as (e & sh' & j & Hj & Hloop & Hw' & Hsrc).
    exists e, sh', (S j). split_and!; [lia|done| |done].
    rewrite Hw', Hw. cbn [fmap list_fmap take]. by rewrite <- app_assoc.
  - rewrite Hrun. exists e, sh1, 0%nat. split_and!; [lia|done| |by eauto].
    rewrite Hw. cbn [fmap list_fmap take]. by rewrite take_0.
Qed.

End StrictWriter.

(** C8 (amended).  Styling is best-effort with respect to [AttributeError]
    only.  (1) With an engine that accepts every cell access and value and
    rejects styling or sizing only with [AttributeError], the write
    returns, whichever style assignments fail, and the sheet has received
    the header cells followed by the cells of every data row; if the engine
    accepts every style assignment, the four decorations have been set on
    each header cell, in order, and on no other cell.  (2) With an engine
    whose style assignments fail with something else than
    [AttributeError], if some decoration of some header cell is always
    rejected, the write raises [ExcelGenerationError] with the message of
    the styling failure after the prefix of the writer, after the values of
    the header cells up to the first rejected one: no later header value and
    no data value is written. *)
Theorem header_styling_best_effort (engine : Engine)
    (data : list (pydict pyvalue)) (fields : list string) (fast_mode : bool)
    (sh : sheet) :
  (lacks_attributes_only engine ->
   exists sh',
     ExcelGeneratorService._write_data_to_worksheet engine data fields
       fast_mode sh = (Return tt, sh')
     /\ written sh'
        = (written sh ++ header_cells fields ++ data_cells fields data 2)%list
     /\ (accepts_styles engine ->
         styled sh' = (styled sh ++ header_decorations fields)%list))
  /\ (forall (i : nat) (field : string) (a : style_attr),
        rejects_styles_otherwise engine ->
        fields !! i = Some field ->
        a ∈ header_styles ->
        (forall sh0,
           style_failure engine sh0
             (ExcelGeneratorService._get_column_letter (Z.of_nat i) ++ "1") a
           <> None) ->
        exists e sh' j,
          (j <= i)%nat
          /\ ExcelGeneratorService._write_data_to_worksheet engine data fields
               fast_mode sh
             = (Raise (Exn ExcelGenerationError
                         ("Error escribiendo datos: " ++ exn_msg e)), sh')
          /\ isinstance e AttributeError = false
          /\ (exists sh0 addr a0, style_failure engine sh0 addr a0 = Some e)
          /\ written sh' = (written sh ++ take (S j) (header_cells fields))%list).
Proof.
  split.
  - intros Hengine.
    unfold ExcelGeneratorService._write_data_to_worksheet, try_except.
    rewrite bind_run.
    destruct (write_headers_spec engine Hengine fields sh) as [Hret1 Hw1].
    pose proof (write_headers_styled engine Hengine fields sh) as Hs1.
    destruct (for_each (enumerate fields) _ sh) as [[[]|e] sh1];
      cbn [fst snd] in *; [|done].
    rewrite bind_run. unfold range_step.
    set (chunk_size := Z.to_nat (if fast_mode then 10000 else 1000)).
    assert (Hsize : (0 < chunk_size)%nat) by (destruct fast_mode; cbv; lia).
    destruct (write_chunks_spec engine Hengine fields data chunk_size
                (Nat.div (List.length data + chunk_size - 1) chunk_size) 0 2 sh1)
      as [Hret2 Hw2].
    pose proof (write_chunks_styled engine Hengine fields data chunk_size
                  ((fun k => (k * chunk_size)%nat)
                     <$> seq 0 (Nat.div (List.length data + chunk_size - 1)
                                  chunk_size)) 2 sh1) as Hs2.
    cbn [Nat.mul drop] in Hret2, Hw2.
    rewrite take_ge in Hret2, Hw2 by (by apply range_step_covers).
    destruct (ExcelGeneratorService.write_chunks _ _ _ _ _ _ _)
      as [[row_idx|e] sh2];
      cbn [fst snd] in *; [|done].
    destruct (for_each_written (ExcelGeneratorService.autosize engine)
                (fun _ => []) (range (Z.of_nat (List.length fields))) sh2)
      as [Hret3 Hw3].
    { intros col_idx sh'. by apply autosize_spec. }
    destruct (for_each_appends styled (ExcelGeneratorService.autosize engine)
                (fun _ => []) (range (Z.of_nat (List.length fields))) sh2)
      as [_ Hs3].
    { intros col_idx sh'. by apply autosize_styled. }
    destruct (for_each (range _) _ sh2) as [[[]|e] sh3];
      cbn [fst snd] in *; [|done].
    exists sh3. split_and!; [done| |].
    + rewrite Hw3, Hw2, Hw1.
      by rewrite concat_nils, app_nil_r, <- app_assoc.
    + intros Hstyles.
      by rewrite Hs3, concat_nils, app_nil_r, Hs2, Hs1.
  - intros i field a Hengine Hfield Ha Hfails.
    assert (Hentry : enumerate fields !! i = Some (Z.of_nat i, field)).
    { unfold enumerate. by rewrite list_lookup_imap, Hfield. }
    destruct (write_headers_strict engine Hengine (enumerate fields) i
                (Z.of_nat i, field) a sh Hentry Ha Hfails)
      as (e & sh' & j & Hj & Hloop & Hw & sh0 & addr & a0 & He).
    exists e, sh', j. split_and!; [done| | |by eauto|done].
    + unfold ExcelGeneratorService._write_data_to_worksheet, try_except.
      rewrite bind_run, Hloop. done.
    + by apply (styles_other _ Hengine _ _ _ _ He).
Qed.

Lemma plain_engine_lacks_attributes_only :
  lacks_attributes_only Examples.plain_engine.
Proof.
  constructor; try done.
  intros sh addr a e. by destruct a; intros [= <-].
Qed.

Lemma styled_engine_lacks_attributes_only :
  lacks_attributes_only Examples.styled_engine.
Proof. constructor; done. Qed.

Lemma strict_engine_rejects_styles_otherwise :
  rejects_styles_otherwise Examples.strict_engine.
Proof.
  constructor; try done.
  intros sh addr a e. by destruct a; intros [= <-].
Qed.

Lemma header_styling_best_effort_witness :
  (exists sh',
     ExcelGeneratorService._write_data_to_worksheet Examples.plain_engine
       Examples.one_order ["id"; "name"] true Examples.blank_sheet
     = (Return tt, sh')
     /\ written sh'
        = [("A1", "id"); ("B1", "name"); ("A2", "7"); ("B2", "Ana")])
  /\ (exists sh',
        ExcelGeneratorService._write_data_to_worksheet Examples.styled_engine
          Examples.one_order ["id"; "name"] true Examples.blank_sheet
        = (Return tt, sh')
        /\ styled sh'
           = [("A1", FontBold true); ("A1", FontName "Arial");
              ("A1", FontHeight 11); ("A1", FillBackgroundColor "#D9EAD3");
              ("B1", FontBold true); ("B1", FontName "Arial");
              ("B1", FontHeight 11); ("B1", FillBackgroundColor "#D9EAD3")])
  /\ (exists e sh',
        ExcelGeneratorService._write_data_to_worksheet Examples.strict_engine
          Examples.one_order ["id"; "name"] true Examples.blank_sheet
        = (Raise (Exn ExcelGenerationError
                    ("Error escribiendo datos: " ++ exn_msg e)), sh')
        /\ isinstance e AttributeError = false
        /\ written sh' = [("A1", "id")]).
Proof.
  split_and!.
  - destruct (proj1 (header_styling_best_effort Examples.plain_engine
                       Examples.one_order ["id"; "name"] true
                       Examples.blank_sheet)
                plain_engine_lacks_attributes_only)
      as (sh' & Hrun & Hw & _).
    exists sh'. split; [exact Hrun|]. rewrite Hw. reflexivity.
  - destruct (proj1 (header_styling_best_effort Examples.styled_engine
                       Examples.one_order ["id"; "name"] true
                       Examples.blank_sheet)
                styled_engine_lacks_attributes_only)
      as (sh' & Hrun & _ & Hs).
    exists sh'. split; [exact Hrun|].
    rewrite Hs by (intros sh addr a; reflexivity). reflexivity.
  - destruct (proj2 (header_styling_best_effort Examples.strict_engine
                       Examples.one_order ["id"; "name"] true
                       Examples.blank_sheet)
                0%nat "id" (FontBold true)
                strict_engine_rejects_styles_otherwise)
      as (e & sh' & j & Hj & Hrun & Hcls & _ & Hw).
    + reflexivity.
    + apply list_elem_of_here.
    + intros sh0. discriminate.
    + exists e, sh'. split_and!; [exact Hrun|exact Hcls|].
      assert (j = 0%nat) as -> by lia. rewrite Hw. reflexivity.
Defined.

(** The cells the sample export writes, and the one style that was set
    before the engine reported the missing attribute. *)
Example plain_engine_write :
  ExcelGeneratorService._write_data_to_worksheet Examples.plain_engine
    Examples.one_order ["id"; "name"] true Examples.blank_sheet
  = (Return tt,
     Sheet [("A1", "id"); ("B1", "name"); ("A2", "7"); ("B2", "Ana")]
           [("A1", FontBold true); ("B1", FontBold true)]
           [AutoSizeColumn 0; AutoSizeColumn 1]).
Proof. vm_compute. reflexivity. Qed.

(** C8, as stated, fails: a styling failure of a class other than
    [AttributeError] leaves the inner handler, is wrapped by the outer one,
    and the write stops after the first header value. *)
Lemma styling_failure_aborts_write :
  ExcelGeneratorService._write_data_to_worksheet Examples.strict_engine
    Examples.one_order ["id"; "name"] true Examples.blank_sheet
  = (Raise (Exn ExcelGenerationError
              "Error escribiendo datos: bold is read-only"),
     Sheet [("A1", "id")] [] []).
Proof. vm_compute. reflexivity. Qed.

(** ** More on the column codec *)

Section CodecLaws.
Import ExcelGeneratorService.

(** The loop only ever extends its accumulator to the left. *)
Lemma column_loop_app (n : Z) (r t : string) :
  column_loop n (r ++ t) = column_loop n r ++ t.
Proof.
  revert t. funelim (column_loop n r); intros t.
  - rewrite (column_loop_equation_1 col_idx (result ++ t)), Heq. cbn.
    change (String ?c (result ++ t)) with (String c result ++ t).
    match goal with IH : forall t, column_loop _ (_ ++ t) = _ |- _ => apply IH end.
  - by rewrite (column_loop_equation_1 col_idx (result ++ t)), Heq.
Qed.

Lemma column_loop_nonpos (n : Z) (r : string) : n <= 0 -> column_loop n r = r.
Proof.
  intros Hn. rewrite column_loop_equation_1.
  destruct (Z_gt_dec n 0); [lia|done].
Qed.

Lemma column_loop_pos (n : Z) (r : string) :
  0 < n ->
  column_loop n r
  = column_loop ((n - 1) / 26) "" ++ String (chr ((n - 1) mod 26 + ord "A")) r.
Proof.
  intros Hn. rewrite column_loop_equation_1.
  destruct (Z_gt_dec n 0); [|lia]. cbn.
  by rewrite <- column_loop_app.
Qed.

End CodecLaws.

(** X1.  The label of an index from 26 on is the label of [i // 26 - 1]
    followed by the letter of [i % 26]; below 26 it is that letter alone. *)
Theorem column_letter_recurrence (i : Z) :
  0 <= i ->
  ExcelGeneratorService._get_column_letter i
  = ExcelGeneratorService._get_column_letter (i / 26 - 1)
      ++ String (chr (i mod 26 + ord "A")) ""
  /\ (i < 26 ->
      ExcelGeneratorService._get_column_letter i
      = String (chr (i + ord "A")) "").
Proof.
  intros Hi. unfold ExcelGeneratorService._get_column_letter.
  rewrite column_loop_pos by lia.
  replace (i + 1 - 1) with i by lia.
  replace (i / 26 - 1 + 1) with (i / 26) by lia.
  split; [done|]. intros Hlt.
  rewrite Z.div_small, Z.mod_small by lia.
  by rewrite column_loop_nonpos.
Qed.

Lemma column_letter_recurrence_witness :
  ExcelGeneratorService._get_column_letter 730
  = ExcelGeneratorService._get_column_letter 27 ++ "C".
Proof. exact (proj1 (column_letter_recurrence 730 ltac:(lia))). Defined.

(** X2.  The label is the empty text exactly for a negative index. *)
Theorem column_letter_empty_iff (i : Z) :
  ExcelGeneratorService._get_column_letter i = "" <-> i < 0.
Proof.
  unfold ExcelGeneratorService._get_column_letter. split.
  - intros Hempty. destruct (Z_lt_dec i 0) as [|Hge]; [done|].
    rewrite column_loop_pos in Hempty by lia.
    destruct (ExcelGeneratorService.column_loop _ ""); discriminate.
  - intros Hneg. by rewrite column_loop_nonpos by lia.
Qed.

(** X3.  Every non-empty word over the capital letters is the label of a
    column: the encoder is onto. *)
Theorem column_letter_onto (s : string) :
  all_capital s -> s <> "" ->
  exists i, 0 <= i /\ ExcelGeneratorService._get_column_letter i = s.
Proof.
  intros Hs Hne. exists (letters_to_index s).
  by apply get_column_letter_encode.
Qed.

Lemma column_letter_onto_witness :
  exists i, 0 <= i /\ ExcelGeneratorService._get_column_letter i = "XFD".
Proof.
  apply (column_letter_onto "XFD"); [|discriminate].
  cbn. unfold is_capital. vm_compute. intuition discriminate.
Defined.

(** ** Cell addresses *)

Lemma pretty_N_char_no_capital (x : N) : ~ is_capital (pretty_N_char x).
Proof.
  unfold is_capital, pretty_N_char. rewrite ord_A, ord_Z.
  repeat case_match; vm_compute; intros [Hlo Hhi]; by apply Hlo.
Qed.

Lemma pretty_N_go_no_capital (x : N) (s : string) :
  no_capital s -> no_capital (pretty_N_go x s).
Proof.
  revert s. induction (N.lt_wf_0 x) as [x _ IH]; intros s Hs.
  assert (x = 0 \/ 0 < x)%N as [->|Hpos] by lia.
  - by rewrite pretty_N_go_0.
  - rewrite pretty_N_go_step by done. apply IH.
    + by apply N.div_lt.
    + split; [apply pretty_N_char_no_capital|done].
Qed.

Lemma pretty_Z_no_capital (r : Z) : no_capital (pretty r).
Proof.
  assert (HN : forall x : N, no_capital (pretty x)).
  { intros x. unfold pretty, pretty_N. case_decide.
    - split; [|done]. vm_compute. intros [Hlo Hhi]. by apply Hlo.
    - by apply pretty_N_go_no_capital. }
  destruct r as [|p|p]; unfold pretty, pretty_Z.
  - apply (HN 0%N).
  - apply (HN (N.pos p)).
  - split; [|apply (HN (N.pos p))].
    vm_compute. intros [Hlo Hhi]. by apply Hlo.
Qed.

(** A word of capitals followed by a text without capitals splits in one
    way only. *)
Lemma capital_prefix_unique (s1 s2 t1 t2 : string) :
  all_capital s1 -> all_capital s2 -> no_capital t1 -> no_capital t2 ->
  s1 ++ t1 = s2 ++ t2 -> s1 = s2 /\ t1 = t2.
Proof.
  revert s2. induction s1 as [|c1 s1 IH]; intros [|c2 s2] Hs1 Hs2 Ht1 Ht2 Heq.
  - done.
  - change (t1 = String c2 (s2 ++ t2)) in Heq. subst t1.
    destruct Ht1 as [Hc _]. by destruct Hs2.
  - change (String c1 (s1 ++ t1) = t2) in Heq. subst t2.
    destruct Ht2 as [Hc _]. by destruct Hs1.
  - change (String c1 (s1 ++ t1) = String c2 (s2 ++ t2)) in Heq.
    injection Heq as -> Heq. destruct Hs1 as [_ Hs1], Hs2 as [_ Hs2].
    destruct (IH s2 Hs1 Hs2 Ht1 Ht2 Heq) as [-> ->]. done.
Qed.

Lemma address_determines_cell (col1 col2 row1 row2 : Z) :
  0 <= col1 -> 0 <= col2 ->
  ExcelGeneratorService._get_column_letter col1 ++ pretty row1
  = ExcelGeneratorService._get_column_letter col2 ++ pretty row2 ->
  col1 = col2 /\ row1 = row2.
Proof.
  intros Hc1 Hc2 Heq.
  apply capital_prefix_unique in Heq as [Hcol Hrow];
    auto using get_column_letter_capital, pretty_Z_no_capital.
  split; [|by apply (inj pretty)].
  rewrite <- (get_column_letter_decode col1 Hc1), Hcol.
  by apply get_column_letter_decode.
Qed.

(** X4.  Two cells with the same address are the same cell: the address
    built from a column index and a row number determines both. *)
Theorem cell_address_injective (col1 col2 row1 row2 : Z) :
  0 <= col1 -> 0 <= col2 ->
  ExcelGeneratorService._get_column_letter col1 ++ pretty row1
  = ExcelGeneratorService._get_column_letter col2 ++ pretty row2 ->
  col1 = col2 /\ row1 = row2.
Proof. apply address_determines_cell. Qed.

Lemma cell_address_injective_witness : 27 = 27 /\ 11 = 11.
Proof.
  apply (cell_address_injective 27 27 11 11); [lia|lia|reflexivity].
Defined.

(** ** Chunking of the data rows *)

Section Chunks.
Import ExcelGeneratorService.
Variable engine : Engine.

Lemma write_chunk_app (fields : list string) (a b : list (pydict pyvalue))
    (row_idx : Z) (sh : sheet) :
  write_chunk engine fields (a ++ b) row_idx sh
  = (write_chunk engine fields a row_idx
       ≫= fun row_idx' => write_chunk engine fields b row_idx') sh.
Proof.
  revert row_idx sh. induction a as [|row_data a IH]; intros row_idx sh; [done|].
  cbn [app write_chunk]. rewrite !bind_run.
  destruct (for_each _ _ sh) as [[[]|e] sh1]; [|done].
  by rewrite IH, bind_run.
Qed.

(** Visiting the chunks one after the other is visiting the rows they
    cover, whatever the engine does. *)
Lemma write_chunks_flat (fields : list string) (data : list (pydict pyvalue))
    (chunk_size n j : nat) (row_idx : Z) (sh : sheet) :
  write_chunks engine fields data chunk_size
    ((fun k => (k * chunk_size)%nat) <$> seq j n) row_idx sh
  = write_chunk engine fields
      (take (n * chunk_size) (drop (j * chunk_size) data)) row_idx sh.
Proof.
  revert j row_idx sh. induction n as [|n IH]; intros j row_idx sh.
  - cbn. by rewrite take_0.
  - cbn [seq fmap list_fmap write_chunks].
    change (list_fmap nat nat (fun k => (k * chunk_size)%nat) (seq (S j) n))
      with ((fun k => (k * chunk_size)%nat) <$> seq (S j) n).
    replace (take (S n * chunk_size) (drop (j * chunk_size) data))
      with (take chunk_size (drop (j * chunk_size) data)
              ++ take (n * chunk_size) (drop (S j * chunk_size) data))%list.
    + rewrite write_chunk_app, !bind_run.
      destruct (write_chunk _ _ _ _ _) as [[row_idx'|e] sh1]; [|done].
      apply IH.
    + replace (S n * chunk_size)%nat with (chunk_size + n * chunk_size)%nat by lia.
      rewrite <- take_take_drop. f_equal. rewrite drop_drop.
      f_equal. f_equal. lia.
Qed.

Lemma write_chunks_all (fields : list string) (data : list (pydict pyvalue))
    (chunk_size : nat) (row_idx : Z) (sh : sheet) :
  (0 < chunk_size)%nat ->
  write_chunks engine fields data chunk_size
    (range_step (List.length data) chunk_size) row_idx sh
  = write_chunk engine fields data row_idx sh.
Proof.
  intros Hsize. unfold range_step. rewrite write_chunks_flat.
  cbn [Nat.mul drop]. by rewrite take_ge by (by apply range_step_covers).
Qed.

End Chunks.

(** X5.  The chunk size has no effect on what is written: with any engine,
    failing or not, the fast mode and the slow mode end with the same
    outcome and the same sheet. *)
Theorem fast_mode_irrelevant (engine : Engine) (data : list (pydict pyvalue))
    (fields : list string) (sh : sheet) :
  ExcelGeneratorService._write_data_to_worksheet engine data fields true sh
  = ExcelGeneratorService._write_data_to_worksheet engine data fields false sh.
Proof.
  unfold ExcelGeneratorService._write_data_to_worksheet, try_except.
  rewrite !bind_run.
  destruct (for_each (enumerate fields) _ sh) as [[[]|e] sh1]; [|done].
  rewrite !bind_run.
  rewrite !write_chunks_all by (cbv; lia). done.
Qed.

(** ** Schema lookup and export, end to end *)

(** X6.  [get_table_columns] sends one statement and never returns an
    empty column list: it returns the columns the store answered, at least
    one, or raises a [DatabaseError] whose message starts with the access
    prefix. *)
Theorem get_table_columns_never_empty (server : Server) (table_name : string)
    (st : store) :
  let run := DatabaseManager.get_table_columns server table_name st in
  run.2 = Store (tables st)
            (log st ++ [Sql DatabaseManager.columns_sql
                          [("table_name", PyStr table_name)]])
  /\ match run.1 with
     | Return columns =>
         columns = answer_columns server table_name /\ columns <> []
     | Raise e =>
         exn_cls e = DatabaseError
         /\ exists detail, exn_msg e = "Error accediendo a tabla: " ++ detail
     end.
Proof.
  cbv zeta. unfold DatabaseManager.get_table_columns, try_except.
  rewrite bind_run. unfold execute.
  destruct (failure server (log st) _) as [e|]; cbn.
  - split; [done|]. split; [done|]. by eexists.
  - case_bool_decide; cbn.
    + split; [done|]. split; [done|]. by eexists.
    + done.
Qed.

Lemma get_table_columns_missing (server : Server) (table_name : string)
    (st : store) :
  failure server (log st)
    (Sql DatabaseManager.columns_sql [("table_name", PyStr table_name)]) = None ->
  answer_columns server table_name = [] ->
  DatabaseManager.get_table_columns server table_name st
  = (Raise (Exn DatabaseError
              ("Error accediendo a tabla: Tabla '" ++ table_name
                 ++ "' no encontrada")),
     Store (tables st)
       (log st ++ [Sql DatabaseManager.columns_sql
                     [("table_name", PyStr table_name)]])).
Proof.
  intros Hrun Hnone. unfold DatabaseManager.get_table_columns, try_except.
  rewrite bind_run. unfold execute. rewrite Hrun, Hnone. reflexivity.
Qed.

(** X7.  For a table the store knows no column of, the lookup raises a
    [DatabaseError] that names the table. *)
Theorem get_table_columns_unknown_table (server : Server) (table_name : string)
    (st : store) :
  failure server (log st)
    (Sql DatabaseManager.columns_sql [("table_name", PyStr table_name)]) = None ->
  answer_columns server table_name = [] ->
  (DatabaseManager.get_table_columns server table_name st).1
  = Raise (Exn DatabaseError
             ("Error accediendo a tabla: Tabla '" ++ table_name
                ++ "' no encontrada")).
Proof.
  intros Hrun Hnone. by rewrite get_table_columns_missing.
Qed.

Lemma get_table_columns_unknown_table_witness :
  (DatabaseManager.get_table_columns Examples.orders_server "invoices"
     Examples.empty_store).1
  = Raise (Exn DatabaseError
             "Error accediendo a tabla: Tabla 'invoices' no encontrada").
Proof.
  apply (get_table_columns_unknown_table Examples.orders_server "invoices"
           Examples.empty_store); reflexivity.
Defined.

(** X8.  When the lookup returns the columns of the table, the field check
    passes exactly when every requested field is a column; the empty field
    list passes. *)
Theorem validate_fields_accepts_subsets (server : Server) (table : string)
    (fields : list string) (st : store) :
  failure server (log st)
    (Sql DatabaseManager.columns_sql [("table_name", PyStr table)]) = None ->
  answer_columns server table <> [] ->
  (ExcelGeneratorService._validate_fields server table fields st).1 = Return tt
  <-> (forall field, field ∈ fields -> field ∈ answer_columns server table).
Proof.
  intros Hrun Hcols. unfold ExcelGeneratorService._validate_fields.
  unfold try_except at 1. rewrite bind_run.
  rewrite get_table_columns_found by done.
  destruct (filter _ fields) as [|bad rest] eqn:Hfilter; cbn.
  - split; [|done]. intros _ field Hin.
    destruct (decide (field ∈ answer_columns server table)) as [|Hnot]; [done|].
    assert (Hbad : field ∈ filter (fun field => field ∉ answer_columns server table)
                     fields) by (by apply list_elem_of_filter).
    rewrite Hfilter in Hbad. by inversion Hbad.
  - split; [done|]. intros Hall.
    assert (Hbad : bad ∈ filter (fun field => field ∉ answer_columns server table)
                     fields) by (rewrite Hfilter; left).
    apply list_elem_of_filter in Hbad as [Hnot Hin]. by destruct (Hnot (Hall _ Hin)).
Qed.

Lemma validate_fields_accepts_subsets_witness :
  (ExcelGeneratorService._validate_fields Examples.orders_server "orders" []
     Examples.empty_store).1 = Return tt.
Proof.
  apply (validate_fields_accepts_subsets Examples.orders_server "orders" []
           Examples.empty_store); [reflexivity|vm_compute; discriminate|].
  intros field Hin. by inversion Hin.
Defined.

(** X9.  Whatever goes wrong in [generate_excel], the exception that leaves
    it is an [ExcelGenerationError] (the class itself) whose message starts
    with the export prefix. *)
Theorem generate_excel_raises_generation_error (server : Server)
    (_create_excel_file :
       list (pydict pyvalue) -> list string -> string -> outcome (list Byte.byte))
    (table : string) (fields : list string)
    (filters : option (pydict pyvalue)) (template : string) (st : store)
    (e : exn) :
  (ExcelGeneratorService.generate_excel server _create_excel_file
     table fields filters template st).1 = Raise e ->
  exn_cls e = ExcelGenerationError
  /\ exists detail, exn_msg e = "Error generando Excel: " ++ detail.
Proof.
  unfold ExcelGeneratorService.generate_excel, try_except.
  match goal with
  | |- context [match ?body st with _ => _ end] =>
      destruct (body st) as [[bytes|e'] st']
  end; cbn; [done|].
  intros [= <-]. split; [done|]. by eexists.
Qed.

Lemma generate_excel_raises_generation_error_witness :
  exists detail,
    "Error generando Excel: Error validando campos: Error accediendo a tabla: Tabla 'missing' no encontrada"
    = "Error generando Excel: " ++ detail.
Proof.
  exact (proj2 (generate_excel_raises_generation_error Examples.orders_server
                  Examples.no_workbook "missing" ["price"] None
                  "default_template.xlsx" Examples.empty_store
                  (Exn ExcelGenerationError
                     "Error generando Excel: Error validando campos: Error accediendo a tabla: Tabla 'missing' no encontrada")
                  eq_refl)).
Defined.

Section ExportRuns.
Import ExcelGeneratorService.
Variable server : Server.
Variable _create_excel_file :
  list (pydict pyvalue) -> list string -> string -> outcome (list Byte.byte).

Lemma validate_fields_valid (table : string) (fields : list string) (st : store) :
  failure server (log st)
    (Sql DatabaseManager.columns_sql [("table_name", PyStr table)]) = None ->
  answer_columns server table <> [] ->
  (forall field, field ∈ fields -> field ∈ answer_columns server table) ->
  _validate_fields server table fields st
  = (Return tt,
     Store (tables st)
       (log st ++ [Sql DatabaseManager.columns_sql [("table_name", PyStr table)]])).
Proof.
  intros Hrun Hcols Hall. unfold _validate_fields.
  unfold try_except at 1. rewrite bind_run.
  rewrite get_table_columns_found by done.
  rewrite bool_decide_eq_true_2; [done|].
  destruct (filter _ fields) as [|bad rest] eqn:Hfilter; [done|].
  assert (Hbad : bad ∈ filter (fun field => field ∉ answer_columns server table)
                   fields) by (rewrite Hfilter; left).
  apply list_elem_of_filter in Hbad as [Hnot Hin]. by destruct (Hnot (Hall _ Hin)).
Qed.

(** What [_fetch_data] does with the one statement it sends. *)
Lemma fetch_data_run (table : string) (fields : list string)
    (filters : pydict pyvalue) (st : store) :
  let query := DatabaseManager.build_query table fields filters in
  _fetch_data server table fields filters st
  = (match failure server (log st) (Sql query.1 query.2) with
     | None => Return (answer_select server query.1 query.2)
     | Some e =>
         Raise (Exn ExcelGenerationError
                  ("Error obteniendo datos: Error en consulta: " ++ exn_msg e))
     end,
     Store (tables st) (log st ++ [Sql query.1 query.2])).
Proof.
  cbv zeta. unfold _fetch_data, DatabaseManager.fetch_data, try_except.
  destruct (DatabaseManager.build_query table fields filters) as [query_str params].
  rewrite bind_run. unfold execute. cbn [fst snd].
  by destruct (failure server (log st) _).
Qed.

End ExportRuns.

(** X10.  An export whose fields are all columns sends two statements, the
    column lookup and then the SELECT built from the request, and hands the
    rows of the SELECT, the fields and the template to the workbook step;
    its result is the workbook, or the failure of that step under the
    export prefix. *)
Theorem generate_excel_valid_request (server : Server)
    (_create_excel_file :
       list (pydict pyvalue) -> list string -> string -> outcome (list Byte.byte))
    (table : string) (fields : list string)
    (filters : option (pydict pyvalue)) (template : string) (st : store) :
  let lookup := Sql DatabaseManager.columns_sql [("table_name", PyStr table)] in
  let query := DatabaseManager.build_query table fields (default [] filters) in
  let select := Sql query.1 query.2 in
  failure server (log st) lookup = None ->
  answer_columns server table <> [] ->
  (forall field, field ∈ fields -> field ∈ answer_columns server table) ->
  failure server (log st ++ [lookup]) select = None ->
  ExcelGeneratorService.generate_excel server _create_excel_file
    table fields filters template st
  = (match _create_excel_file (answer_select server query.1 query.2)
             fields template with
     | Return excel_buffer => Return excel_buffer
     | Raise e =>
         Raise (Exn ExcelGenerationError ("Error generando Excel: " ++ exn_msg e))
     end,
     Store (tables st) (log st ++ [lookup; select])).
Proof.
  intros lookup query select Hlookup Hcols Hall Hselect.
  unfold ExcelGeneratorService.generate_excel, try_except.
  rewrite bind_run, validate_fields_valid by done.
  rewrite bind_run, fetch_data_run. cbn [log tables].
  fold lookup query select. rewrite Hselect. unfold lift.
  rewrite <- app_assoc. cbn [app].
  by destruct (_create_excel_file _ _ _).
Qed.

Lemma generate_excel_valid_request_witness :
  ExcelGeneratorService.generate_excel Examples.orders_server
    Examples.no_workbook "orders" ["id"; "name"] (Some Examples.paid_filter)
    "default_template.xlsx" Examples.empty_store
  = (Return [],
     Store ∅
       [Sql DatabaseManager.columns_sql [("table_name", PyStr "orders")];
        Sql ("SELECT " ++ quoted "id" ++ ", " ++ quoted "name" ++ " FROM "
               ++ quoted "orders" ++ " WHERE " ++ quoted "paid" ++ " = :paid"
               ++ " LIMIT 200000")
            [("paid", PyBool true)]]).
Proof.
  apply (generate_excel_valid_request Examples.orders_server
           Examples.no_workbook "orders" ["id"; "name"]
           (Some Examples.paid_filter) "default_template.xlsx"
           Examples.empty_store); try reflexivity.
  - vm_compute. discriminate.
  - intros field Hin. apply (bool_decide_unpack _).
    repeat (apply elem_of_cons in Hin as [->|Hin]; [by vm_compute|]).
    by inversion Hin.
Defined.

(** X11.  When the store refuses the SELECT of a valid request, the export
    raises an [ExcelGenerationError] that carries the store's message under
    the three prefixes of the layers it crossed. *)
Theorem generate_excel_store_failure (server : Server)
    (_create_excel_file :
       list (pydict pyvalue) -> list string -> string -> outcome (list Byte.byte))
    (table : string) (fields : list string)
    (filters : option (pydict pyvalue)) (template : string) (st : store)
    (e : exn) :
  let lookup := Sql DatabaseManager.columns_sql [("table_name", PyStr table)] in
  let query := DatabaseManager.build_query table fields (default [] filters) in
  failure server (log st) lookup = None ->
  answer_columns server table <> [] ->
  (forall field, field ∈ fields -> field ∈ answer_columns server table) ->
  failure server (log st ++ [lookup]) (Sql query.1 query.2) = Some e ->
  (ExcelGeneratorService.generate_excel server _create_excel_file
     table fields filters template st).1
  = Raise (Exn ExcelGenerationError
             ("Error generando Excel: Error obteniendo datos: Error en consulta: "
                ++ exn_msg e)).
Proof.
  intros lookup query Hlookup Hcols Hall Hselect.
  unfold ExcelGeneratorService.generate_excel, try_except.
  rewrite bind_run, validate_fields_valid by done.
  rewrite bind_run, fetch_data_run. cbn [log tables].
  fold lookup query. rewrite Hselect. reflexivity.
Qed.

Lemma generate_excel_store_failure_witness :
  (ExcelGeneratorService.generate_excel Examples.connection_lost_server
     Examples.no_workbook "orders" ["id"] None "default_template.xlsx"
     Examples.empty_store).1
  = Raise (Exn ExcelGenerationError
       "Error generando Excel: Error obteniendo datos: Error en consulta: connection lost").
Proof.
  apply (generate_excel_store_failure Examples.connection_lost_server
           Examples.no_workbook "orders" ["id"] None "default_template.xlsx"
           Examples.empty_store (Exn OtherException "connection lost"));
    try reflexivity.
  - vm_compute. discriminate.
  - intros field Hin. apply (bool_decide_unpack _).
    repeat (apply elem_of_cons in Hin as [->|Hin]; [by vm_compute|]).
    by inversion Hin.
Defined.

(** X12.  The whole-table export of a table with columns sends the column
    lookup and then a SELECT of all its columns, in schema order, without
    WHERE clause or parameters, and builds the workbook from the rows with
    the columns as fields. *)
Theorem generate_full_table_excel_run (server : Server)
    (_create_excel_file :
       list (pydict pyvalue) -> list string -> string -> outcome (list Byte.byte))
    (table template : string) (st : store) :
  let lookup := Sql DatabaseManager.columns_sql [("table_name", PyStr table)] in
  let columns := answer_columns server table in
  let query_str :=
    "SELECT " ++ join ", " (quoted <$> columns) ++ " FROM " ++ quoted table
      ++ " LIMIT 200000" in
  failure server (log st) lookup = None ->
  columns <> [] ->
  failure server (log st ++ [lookup]) (Sql query_str []) = None ->
  FullTableExport.generate_full_table_excel server _create_excel_file
    table template st
  = (match _create_excel_file (answer_select server query_str []) columns
             template with
     | Return excel_buffer => Return excel_buffer
     | Raise e =>
         Raise (Exn ExcelGenerationError
                  ("Error generando Excel de tabla completa: " ++ exn_msg e))
     end,
     Store (tables st) (log st ++ [lookup; Sql query_str []])).
Proof.
  cbv zeta. intros Hlookup Hcols Hselect.
  unfold FullTableExport.generate_full_table_excel, try_except.
  rewrite bind_run, get_table_columns_found by done.
  rewrite bind_run, fetch_data_run. cbn [log tables].
  assert (Hquery : DatabaseManager.build_query table
                     (answer_columns server table) []
                   = ("SELECT " ++ join ", " (quoted <$> answer_columns server table)
                        ++ " FROM " ++ quoted table ++ " LIMIT 200000", [])).
  { unfold DatabaseManager.build_query. cbn.
    by rewrite !string_app_assoc. }
  rewrite Hquery. cbn [fst snd]. rewrite Hselect. unfold lift.
  rewrite <- app_assoc. cbn [app].
  by destruct (_create_excel_file _ _ _).
Qed.

Lemma generate_full_table_excel_run_witness :
  FullTableExport.generate_full_table_excel Examples.orders_server
    Examples.no_workbook "orders" "default_template.xlsx" Examples.empty_store
  = (Return [],
     Store ∅
       [Sql DatabaseManager.columns_sql [("table_name", PyStr "orders")];
        Sql ("SELECT " ++ quoted "id" ++ ", " ++ quoted "name" ++ ", "
               ++ quoted "paid" ++ " FROM " ++ quoted "orders"
               ++ " LIMIT 200000") []]).
Proof.
  apply (generate_full_table_excel_run Examples.orders_server
           Examples.no_workbook "orders" "default_template.xlsx"
           Examples.empty_store); try reflexivity.
  vm_compute. discriminate.
Defined.

Lemma full_table_export_missing (server : Server)
    (_create_excel_file :
       list (pydict pyvalue) -> list string -> string -> outcome (list Byte.byte))
    (table template : string) (st : store) :
  failure server (log st)
    (Sql DatabaseManager.columns_sql [("table_name", PyStr table)]) = None ->
  answer_columns server table = [] ->
  FullTableExport.generate_full_table_excel server _create_excel_file
    table template st
  = (Raise (Exn ExcelGenerationError
       ("Error generando Excel de tabla completa: Error accediendo a tabla: Tabla '"
          ++ table ++ "' no encontrada")),
     Store (tables st)
       (log st ++ [Sql DatabaseManager.columns_sql
                     [("table_name", PyStr table)]])).
Proof.
  intros Hlookup Hnone.
  unfold FullTableExport.generate_full_table_excel, try_except.
  by rewrite bind_run, get_table_columns_missing.
Qed.

(** X13.  The whole-table export of a table without columns raises an
    [ExcelGenerationError] that names the table, after the lookup alone:
    no SELECT is sent. *)
Theorem generate_full_table_excel_unknown_table (server : Server)
    (_create_excel_file :
       list (pydict pyvalue) -> list string -> string -> outcome (list Byte.byte))
    (table template : string) (st : store) :
  let lookup := Sql DatabaseManager.columns_sql [("table_name", PyStr table)] in
  failure server (log st) lookup = None ->
  answer_columns server table = [] ->
  FullTableExport.generate_full_table_excel server _create_excel_file
    table template st
  = (Raise (Exn ExcelGenerationError
       ("Error generando Excel de tabla completa: Error accediendo a tabla: Tabla '"
          ++ table ++ "' no encontrada")),
     Store (tables st) (log st ++ [lookup])).
Proof. cbv zeta. apply full_table_export_missing. Qed.

Lemma generate_full_table_excel_unknown_table_witness :
  FullTableExport.generate_full_table_excel Examples.orders_server
    Examples.no_workbook "invoices" "default_template.xlsx"
    Examples.empty_store
  = (Raise (Exn ExcelGenerationError
       "Error generando Excel de tabla completa: Error accediendo a tabla: Tabla 'invoices' no encontrada"),
     Store ∅ [Sql DatabaseManager.columns_sql [("table_name", PyStr "invoices")]]).
Proof.
  apply (generate_full_table_excel_unknown_table Examples.orders_server
           Examples.no_workbook "invoices" "default_template.xlsx"
           Examples.empty_store); reflexivity.
Defined.

(** ** Shape of the parsed rows *)

Section ParsedRows.
Import ExcelUploadService.

Lemma dict_set_keys {V} (d : pydict V) (key : string) (value : V) :
  keys (dict_set d key value)
  = if bool_decide (key ∈ keys d) then keys d else (keys d ++ [key])%list.
Proof.
  induction d as [|[k v] d IH].
  { cbn. by rewrite bool_decide_eq_false_2 by apply not_elem_of_nil. }
  unfold keys in *. cbn [dict_set].
  destruct (decide (k = key)) as [->|Hne]; cbn.
  - rewrite bool_decide_eq_true_2; [done|]. left.
  - rewrite IH. destruct (decide (key ∈ d.*1)) as [Hin|Hnot].
    + rewrite !bool_decide_eq_true_2; [done| |done]. by right.
    + rewrite !bool_decide_eq_false_2; [done| |done].
      intros Hin. apply elem_of_cons in Hin as [->|Hin]; done.
Qed.

Lemma dict_set_clean (row : pydict string) (key value : string) :
  key <> "" -> value <> "" -> row_clean row ->
  row_clean (dict_set row key value).
Proof.
  intros Hkey Hvalue [Hnd Hall]. split.
  - rewrite dict_set_keys. case_bool_decide; [done|].
    apply NoDup_app. split_and!; [done| |apply NoDup_singleton].
    intros x Hx Hx'. apply list_elem_of_singleton in Hx'. by subst.
  - clear Hnd. induction row as [|[k v] row IH]; cbn.
    + by repeat constructor.
    + apply Forall_cons in Hall as [[Hk Hv] Hall]. cbn in Hk, Hv.
      destruct (decide (k = key)) as [->|Hne]; constructor; auto.
Qed.

Lemma scan_cell_clean (ws : worksheet) (first_row : bool)
    (row_index col_index : Z) (acc : list string * pydict string * bool) :
  row_clean acc.1.2 ->
  row_clean (scan_cell ws first_row row_index acc col_index).1.2.
Proof.
  destruct acc as [[headers row_data] has_data]. cbn [fst snd].
  intros Hrow. unfold scan_cell.
  repeat case_match; cbn [fst snd]; try done.
  repeat match goal with
  | H : _ && _ = true |- _ => apply andb_true_iff in H as [? ?]
  | H : negb (bool_decide _) = true |- _ =>
      apply negb_true_iff, bool_decide_eq_false in H
  end.
  by apply dict_set_clean.
Qed.

Lemma scan_columns_clean (ws : worksheet) (first_row : bool)
    (row_index : Z) (cols : list Z) (acc : list string * pydict string * bool) :
  row_clean acc.1.2 ->
  row_clean (foldl (scan_cell ws first_row row_index) acc cols).1.2.
Proof.
  revert acc. induction cols as [|col cols IH]; intros acc Hacc; [done|].
  cbn [foldl]. apply IH. by apply scan_cell_clean.
Qed.

Lemma scan_rows_well_formed {S} (ws : worksheet) (rows : list Z)
    (data : list (pydict string)) (headers : list string) (first_row : bool)
    (s : S) (result : list (pydict string)) :
  Forall row_well_formed data ->
  (scan_rows ws rows data headers first_row s).1 = Return result ->
  Forall row_well_formed result.
Proof.
  revert data headers first_row.
  induction rows as [|row_index rows IH]; intros data headers first_row Hdata.
  - cbn. by intros [= <-].
  - cbn [scan_rows].
    pose proof (scan_columns_clean ws first_row row_index
                  (range (ColumnCount ws)) (headers, [], false)) as Hrow.
    destruct (foldl _ _ _) as [[headers' row_data] has_data].
    cbn [fst snd] in Hrow.
    specialize (Hrow ltac:(split; constructor)).
    repeat case_match; try done; try (by apply IH).
    + apply IH. apply Forall_app. split; [done|].
      constructor; [|done]. split; [|done].
      match goal with
      | H : _ && negb (bool_decide _) = true |- _ =>
          apply andb_true_iff in H as [_ H];
          by apply negb_true_iff, bool_decide_eq_false in H
      end.
    + cbn. by intros [= <-].
Qed.

End ParsedRows.

(** X14.  What the parser returns is never empty, and each of its rows has
    at least one entry, distinct keys, and neither an empty key nor an empty
    value. *)
Theorem parsed_rows_well_formed (host : Host) (excel_data : list Byte.byte)
    (st : store) (data : list (pydict string)) :
  (ExcelUploadService._read_excel_file_ironxl host excel_data st).1 = Return data ->
  data <> [] /\ Forall row_well_formed data.
Proof.
  unfold ExcelUploadService._read_excel_file_ironxl, try_except.
  rewrite bind_run. unfold lift.
  destruct (WorkBook_Load host excel_data) as [ws|e]; [|done].
  rewrite bind_run.
  pose proof (scan_rows_well_formed (S:=store) ws (range (RowCount ws)) [] []
                true st) as Hscan.
  destruct (ExcelUploadService.scan_rows _ _ _ _ _ _) as [[rows|e] st1]; [|done].
  cbn [fst] in Hscan. specialize (Hscan rows ltac:(constructor) eq_refl).
  case_bool_decide; [done|]. cbn. by intros [= <-].
Qed.

Lemma parsed_rows_well_formed_witness :
  [[("id", "1"); ("name", "x")]] <> []
  /\ Forall row_well_formed [[("id", "1"); ("name", "x")]].
Proof.
  apply (parsed_rows_well_formed Examples.gap_host [] Examples.empty_store).
  vm_compute. reflexivity.
Defined.

(** ** Where the keys of the parsed rows come from *)

Section Headers.
Import ExcelUploadService.
Variable ws : worksheet.

Lemma elem_of_range (n col : Z) : col ∈ range n -> 0 <= col < n.
Proof.
  unfold range. intros Hin.
  apply list_elem_of_fmap in Hin as (k & -> & Hk).
  apply elem_of_seq in Hk. lia.
Qed.

Lemma range_pos (n : Z) : 0 < n -> exists rest, range n = 0 :: rest.
Proof.
  intros Hn. unfold range.
  destruct (Z.to_nat n) as [|k] eqn:Hk; [lia|]. by eexists.
Qed.

(** The header row: every collected header is empty or the text of a cell
    of that row. *)
Lemma scan_header_cell (row_index col_index : Z)
    (acc : list string * pydict string * bool) :
  0 <= col_index < ColumnCount ws ->
  Forall (fun h => h = "" \/ header_cell ws row_index h) acc.1.1 ->
  Forall (fun h => h = "" \/ header_cell ws row_index h)
    (scan_cell ws true row_index acc col_index).1.1.
Proof.
  destruct acc as [[headers row_data] has_data]. cbn [fst snd].
  intros Hcol Hheaders. unfold scan_cell.
  case_bool_decide; [done|].
  destruct (Value ws !! _) as [v|] eqn:Hv; cbn [default is_None negb andb].
  - case_match; cbn [fst]; apply Forall_app; (split; [done|]);
      constructor; try done; [|by left].
    right. by exists col_index, v.
  - cbn [fst]. apply Forall_app. split; [done|]. constructor; [by left|done].
Qed.

Lemma scan_header_row (row_index : Z) (cols : list Z)
    (acc : list string * pydict string * bool) :
  Forall (fun col => 0 <= col < ColumnCount ws) cols ->
  Forall (fun h => h = "" \/ header_cell ws row_index h) acc.1.1 ->
  Forall (fun h => h = "" \/ header_cell ws row_index h)
    (foldl (scan_cell ws true row_index) acc cols).1.1.
Proof.
  revert acc. induction cols as [|col cols IH]; intros acc Hcols Hacc; [done|].
  apply Forall_cons in Hcols as [Hcol Hcols].
  cbn [foldl]. apply IH; [done|]. by apply scan_header_cell.
Qed.

(** A data row: the headers stay as they are and every key is one of
    them. *)
Lemma scan_data_cell (headers : list string) (row_index col_index : Z)
    (acc : list string * pydict string * bool) :
  acc.1.1 = headers ->
  Forall (fun key => key ∈ headers) (keys acc.1.2) ->
  (scan_cell ws false row_index acc col_index).1.1 = headers
  /\ Forall (fun key => key ∈ headers)
       (keys (scan_cell ws false row_index acc col_index).1.2).
Proof.
  destruct acc as [[headers' row_data] has_data]. cbn [fst snd].
  intros -> Hkeys. unfold scan_cell.
  repeat case_match; cbn [fst snd]; try done.
  split; [done|]. rewrite dict_set_keys.
  destruct (bool_decide (_ ∈ keys row_data)); [done|].
  apply Forall_app. split; [done|]. constructor; [|done].
  match goal with
  | H : _ && negb (bool_decide _) = true |- _ =>
      apply andb_true_iff in H as [_ H];
      apply negb_true_iff, bool_decide_eq_false in H; rename H into Hne
  end.
  unfold header_at in *.
  destruct (_ !! Z.to_nat col_index) as [h|] eqn:Hh; [|done].
  cbn in *. by apply list_elem_of_lookup_2 in Hh.
Qed.

Lemma scan_data_row (headers : list string) (row_index : Z) (cols : list Z)
    (acc : list string * pydict string * bool) :
  acc.1.1 = headers ->
  Forall (fun key => key ∈ headers) (keys acc.1.2) ->
  (foldl (scan_cell ws false row_index) acc cols).1.1 = headers
  /\ Forall (fun key => key ∈ headers)
       (keys (foldl (scan_cell ws false row_index) acc cols).1.2).
Proof.
  revert acc. induction cols as [|col cols IH]; intros acc Hh Hkeys; [done|].
  cbn [foldl].
  destruct (scan_data_cell headers row_index col acc Hh Hkeys) as [Hh' Hkeys'].
  by apply IH.
Qed.

Lemma scan_rows_keys_in_headers {S} (rows : list Z)
    (data : list (pydict string)) (headers : list string) (s : S)
    (result : list (pydict string)) :
  Forall (fun row => Forall (fun key => key ∈ headers) (keys row)) data ->
  (scan_rows ws rows data headers false s).1 = Return result ->
  Forall (fun row => Forall (fun key => key ∈ headers) (keys row)) result.
Proof.
  revert data. induction rows as [|row_index rows IH]; intros data Hdata.
  - cbn. by intros [= <-].
  - cbn [scan_rows].
    destruct (scan_data_row headers row_index (range (ColumnCount ws))
                (headers, [], false) eq_refl ltac:(constructor))
      as [Hh Hkeys].
    destruct (foldl _ _ _) as [[headers' row_data] has_data].
    cbn [fst snd] in Hh, Hkeys. subst headers'.
    repeat case_match; try done; try (by apply IH).
    + apply IH. apply Forall_app. split; [done|by constructor].
    + cbn. by intros [= <-].
Qed.

End Headers.

(** X15.  Every key of every parsed row is the stripped text of a cell of
    the first row of the sheet. *)
Theorem parsed_keys_from_first_row (host : Host) (excel_data : list Byte.byte)
    (st : store) (ws : worksheet) (data : list (pydict string)) :
  WorkBook_Load host excel_data = Return ws ->
  (ExcelUploadService._read_excel_file_ironxl host excel_data st).1 = Return data ->
  forall row key, row ∈ data -> key ∈ keys row -> header_cell ws 0 key.
Proof.
  intros Hload. unfold ExcelUploadService._read_excel_file_ironxl, try_except.
  rewrite bind_run. unfold lift. rewrite Hload. rewrite bind_run.
  destruct (Z_lt_dec 0 (RowCount ws)) as [Hrows|Hnone].
  2: { assert (Hnil : range (RowCount ws) = []).
       { unfold range. by replace (Z.to_nat (RowCount ws)) with 0%nat by lia. }
       rewrite Hnil. cbn. done. }
  destruct (range_pos _ Hrows) as [rest ->].
  cbn [ExcelUploadService.scan_rows].
  pose proof (scan_header_row ws 0 (range (ColumnCount ws)) ([], [], false))
    as Hheaders.
  destruct (foldl _ _ _) as [[headers row_data] has_data].
  cbn [fst snd] in Hheaders.
  assert (Hsource : Forall (header_cell ws 0) (filter (fun h => h ≠ "") headers)).
  { apply Forall_forall. intros h Hh.
    apply list_elem_of_filter in Hh as [Hne Hh].
    assert (Hall : Forall (fun h => h = "" \/ header_cell ws 0 h) headers).
    { apply Hheaders; [|constructor].
      apply Forall_forall. intros col. apply elem_of_range. }
    rewrite Forall_forall in Hall. by destruct (Hall h Hh). }
  case_bool_decide; [done|].
  pose proof (scan_rows_keys_in_headers (S:=store) ws rest []
                (filter (fun h => h ≠ "") headers) st) as Hscan.
  destruct (ExcelUploadService.scan_rows _ _ _ _ _ _) as [[rows|e] st1]; [|done].
  cbn [fst] in Hscan. specialize (Hscan rows ltac:(constructor) eq_refl).
  case_bool_decide; [done|]. cbn. intros [= <-] row key Hrow Hkey.
  rewrite Forall_forall in Hscan. specialize (Hscan row Hrow).
  rewrite Forall_forall in Hscan, Hsource. by apply Hsource, Hscan.
Qed.

Lemma parsed_keys_from_first_row_witness :
  header_cell Examples.nbsp_sheet 0 "id".
Proof.
  apply (parsed_keys_from_first_row Examples.nbsp_host [] Examples.empty_store
           Examples.nbsp_sheet [[("id", "1"); ("name", "Ana")]] eq_refl
           ltac:(vm_compute; reflexivity) [("id", "1"); ("name", "Ana")] "id").
  - left.
  - left.
Defined.

(** The header with a no-break space is read as [id], and the value after
    an ideographic space as [Ana]. *)
Example nbsp_sheet_parsed :
  (ExcelUploadService._read_excel_file_ironxl Examples.nbsp_host []
     Examples.empty_store).1
  = Return [[("id", "1"); ("name", "Ana")]].
Proof. vm_compute. reflexivity. Qed.

Section BlankHeaders.
Import ExcelUploadService.
Variable ws : worksheet.

Lemma scan_blank_header_row (row_index : Z) (cols : list Z)
    (acc : list string * pydict string * bool) :
  Forall (fun col =>
            cell_blank ws (_get_column_letter col ++ pretty (row_index + 1)))
    cols ->
  Forall (fun h => h = "") acc.1.1 ->
  Forall (fun h => h = "") (foldl (scan_cell ws true row_index) acc cols).1.1.
Proof.
  revert acc. induction cols as [|col cols IH]; intros acc Hcols Hacc; [done|].
  apply Forall_cons in Hcols as [Hcol Hcols].
  cbn [foldl]. apply IH; [done|].
  destruct acc as [[headers row_data] has_data]. cbn [fst snd] in *.
  unfold scan_cell.
  destruct Hcol as [Hbroken|[Hnone|Hempty]].
  - by rewrite bool_decide_eq_true_2.
  - case_bool_decide; [done|]. rewrite Hnone. cbn [negb andb fst].
    apply Forall_app. split; [done|by constructor].
  - case_bool_decide; [done|]. rewrite Hempty.
    rewrite (bool_decide_eq_true_2 ("" = "")) by done.
    rewrite andb_false_r. cbn [fst].
    apply Forall_app. split; [done|by constructor].
Qed.

End BlankHeaders.

(** X16.  A sheet with at least one row whose first row has only blank
    cells is rejected: the parser raises the [ValidationError] for missing
    headers, under its reading prefix. *)
Theorem parser_rejects_blank_header_row (host : Host)
    (excel_data : list Byte.byte) (st : store) (ws : worksheet) :
  WorkBook_Load host excel_data = Return ws ->
  0 < RowCount ws ->
  (forall col, 0 <= col < ColumnCount ws ->
     cell_blank ws (ExcelUploadService._get_column_letter col ++ "1")) ->
  ExcelUploadService._read_excel_file_ironxl host excel_data st
  = (Raise (Exn ValidationError
       "Error leyendo archivo Excel: No se encontraron headers válidos en el archivo Excel"),
     st).
Proof.
  intros Hload Hrows Hblank.
  unfold ExcelUploadService._read_excel_file_ironxl, try_except.
  rewrite bind_run. unfold lift. rewrite Hload. rewrite bind_run.
  destruct (range_pos _ Hrows) as [rest ->].
  cbn [ExcelUploadService.scan_rows].
  pose proof (scan_blank_header_row ws 0 (range (ColumnCount ws))
                ([], [], false)) as Hheaders.
  destruct (foldl _ _ _) as [[headers row_data] has_data].
  cbn [fst snd] in Hheaders.
  assert (Hnone : filter (fun h => h ≠ "") headers = []).
  { assert (Hall : Forall (fun h => h = "") headers).
    { apply Hheaders; [|constructor].
      apply Forall_forall. intros col Hcol. apply Hblank.
      by apply elem_of_range. }
    clear Hheaders. induction Hall as [|h headers Hh Hall IH]; [done|].
    subst h. by rewrite filter_cons_False by (intros Hne; by apply Hne). }
  rewrite Hnone. reflexivity.
Qed.

Lemma parser_rejects_blank_header_row_witness :
  ExcelUploadService._read_excel_file_ironxl Examples.wide_blank_host []
    Examples.empty_store
  = (Raise (Exn ValidationError
       "Error leyendo archivo Excel: No se encontraron headers válidos en el archivo Excel"),
     Examples.empty_store).
Proof.
  apply (parser_rejects_blank_header_row Examples.wide_blank_host []
           Examples.empty_store Examples.wide_blank_sheet eq_refl);
    [reflexivity|].
  intros col Hcol. change (ColumnCount Examples.wide_blank_sheet) with 2 in Hcol.
  assert (col = 0 \/ col = 1) as [-> | ->] by lia.
  - right. right. vm_compute. reflexivity.
  - right. left. vm_compute. reflexivity.
Defined.

(** ** Failures of the upload before the store is touched *)

(** X17.  When the parser raises, the upload sends nothing to the store and
    returns the failure result that carries the parser's message. *)
Theorem upload_parse_failure (host : Host) (server : Server)
    (excel_data : list Byte.byte) (table_name : string)
    (conflict_columns : list string) (st : store) (e : exn) :
  (ExcelUploadService._read_excel_file_ironxl host excel_data st).1 = Raise e ->
  ExcelUploadService.upload_excel_to_table host server excel_data table_name
    conflict_columns st
  = (Return (UploadResult false ("Error en carga COPY+upsert: " ++ exn_msg e)
               0 (Some [exn_msg e])),
     st).
Proof.
  intros Hparse.
  unfold ExcelUploadService.upload_excel_to_table, try_except,
    ExcelUploadService.upload_steps.
  rewrite bind_run.
  pose proof (read_excel_state host excel_data st) as Hst.
  destruct (ExcelUploadService._read_excel_file_ironxl host excel_data st)
    as [out st']. cbn [fst snd] in *. by subst.
Qed.

Lemma upload_parse_failure_witness :
  ExcelUploadService.upload_excel_to_table Examples.headless_host
    Examples.orders_server [] "orders" ["id"] Examples.empty_store
  = (Return (UploadResult false
       "Error en carga COPY+upsert: Error leyendo archivo Excel: No se encontraron headers válidos en el archivo Excel"
       0
       (Some ["Error leyendo archivo Excel: No se encontraron headers válidos en el archivo Excel"])),
     Examples.empty_store).
Proof.
  apply (upload_parse_failure Examples.headless_host Examples.orders_server []
           "orders" ["id"] Examples.empty_store
           (Exn ValidationError
              "Error leyendo archivo Excel: No se encontraron headers válidos en el archivo Excel")).
  vm_compute. reflexivity.
Defined.

Lemma for_each_raises {S A} (l : list A) (body : A -> M S unit) (s : S) (x : A) :
  (forall y s', (body y s').2 = s') ->
  x ∈ l ->
  (forall s', exists e, (body x s').1 = Raise e) ->
  exists e, (for_each l body s).1 = Raise e.
Proof.
  intros Hpure Hin Hx. induction l as [|y l IH]; [by inversion Hin|].
  cbn [for_each]. rewrite bind_run.
  pose proof (Hpure y s) as Hs.
  destruct (body y s) as [[[]|e] s1] eqn:Hy; cbn [fst snd] in *; subst s1.
  - apply elem_of_cons in Hin as [->|Hin].
    + destruct (Hx s) as [e He]. rewrite Hy in He. done.
    + by apply IH.
  - by eexists.
Qed.

(** X18.  When a parsed row has a key that the first row lacks, the CSV
    step raises and the upload returns a failure without having sent any
    statement: no staging table is created. *)
Theorem upload_rejects_extra_keys (host : Host) (server : Server)
    (excel_data : list Byte.byte) (table_name : string)
    (conflict_columns : list string) (st : store)
    (first : pydict string) (rest : list (pydict string)) :
  (ExcelUploadService._read_excel_file_ironxl host excel_data st).1
  = Return (first :: rest) ->
  (exists row key, row ∈ rest /\ key ∈ keys row /\ key ∉ keys first) ->
  exists r,
    ExcelUploadService.upload_excel_to_table host server excel_data table_name
      conflict_columns st = (Return r, st)
    /\ success r = false /\ rows_processed r = 0.
Proof.
  intros Hparse (row & key & Hrow & Hkey & Hnew).
  unfold ExcelUploadService.upload_excel_to_table, try_except,
    ExcelUploadService.upload_steps.
  rewrite bind_run.
  pose proof (read_excel_state host excel_data st) as Hst.
  destruct (ExcelUploadService._read_excel_file_ironxl host excel_data st)
    as [out st']. cbn [fst snd] in *. subst out st'.
  rewrite bind_run.
  pose proof (write_csv_state host (keys first) (first :: rest) st) as Hcsv.
  assert (Hraise : exists e,
            (ExcelUploadService.write_csv host (keys first) (first :: rest) st).1
            = Raise e).
  { unfold ExcelUploadService.write_csv.
    destruct (csv_failure host) as [e|]; [by eexists|].
    apply (for_each_raises _ _ _ row).
    - intros y s'. by case_bool_decide.
    - by right.
    - intros s'. rewrite bool_decide_eq_false_2; [by eexists|].
      intros Hnil.
      assert (Hin : key ∈ filter (fun k => k ∉ keys first) (keys row))
        by (by apply list_elem_of_filter).
      rewrite Hnil in Hin. by inversion Hin. }
  destruct Hraise as [e He].
  destruct (ExcelUploadService.write_csv host (keys first) (first :: rest) st)
    as [out st']. cbn [fst snd] in *. subst out st'.
  by eexists.
Qed.

Lemma upload_rejects_extra_keys_witness :
  exists r,
    ExcelUploadService.upload_excel_to_table Examples.ragged_host
      Examples.orders_server [] "orders" ["id"] Examples.empty_store
    = (Return r, Examples.empty_store)
    /\ success r = false /\ rows_processed r = 0.
Proof.
  apply (upload_rejects_extra_keys Examples.ragged_host Examples.orders_server
           [] "orders" ["id"] Examples.empty_store
           [("id", "1")] [[("id", "2"); ("name", "x")]]).
  - vm_compute. reflexivity.
  - exists [("id", "2"); ("name", "x")], "name". split_and!.
    + left.
    + right. left.
    + apply (bool_decide_unpack _). vm_compute. exact I.
Defined.

(** ** What the upload changes in the store *)

Section UploadEffects.
Import ExcelUploadService.
Variable host : Host.
Variable server : Server.

(** The three sets of tables an upload can leave behind. *)
Lemma upload_steps_tables (excel_data : list Byte.byte) (table_name : string)
    (conflict_columns : list string) (st : store) :
  let staging := staging_of table_name in
  let after := tables (upload_steps host server excel_data table_name
                         conflict_columns st).2 in
  after = tables st
  \/ after = tables st ∖ {[staging]} ∪ {[staging]}
  \/ after = (tables st ∖ {[staging]} ∪ {[staging]}) ∖ {[staging]}.
Proof.
  cbv zeta. unfold upload_steps. rewrite bind_run.
  pose proof (read_excel_state host excel_data st) as Hparse.
  destruct (_read_excel_file_ironxl host excel_data st) as [[rows|e] st0];
    cbn in Hparse; subst st0; cbv beta iota; cbn [fst snd]; [|by left].
  destruct rows as [|first rows]; [by left|].
  fold (staging_of table_name).
  set (fieldnames := keys first). set (staging := staging_of table_name).
  rewrite bind_run.
  pose proof (write_csv_state host fieldnames (first :: rows) st) as Hcsv.
  destruct (write_csv host fieldnames (first :: rows) st) as [[[]|e] st0];
    cbn in Hcsv; subst st0; cbv beta iota; cbn [fst snd]; [|by left].
  rewrite bind_run.
  destruct (create_staging_spec server fieldnames staging st)
    as (sent1 & _ & _ & Htables1).
  destruct (create_staging server fieldnames staging st) as [[[]|e] st1];
    cbn [fst snd] in Htables1; cbv beta iota; cbn [fst snd]; [|by left].
  rewrite bind_run.
  destruct (copy_to_staging_spec server fieldnames staging st1) as (Htables2 & _).
  destruct (copy_to_staging server fieldnames staging st1) as [[[]|e] st2];
    cbn [fst snd] in Htables2; cbv beta iota; cbn [fst snd];
    [|right; left; congruence].
  rewrite bind_run.
  destruct (upsert_spec server table_name fieldnames conflict_columns staging st2)
    as (Htables3 & _).
  destruct (upsert server table_name fieldnames conflict_columns staging st2)
    as [[[]|e] st3]; cbn [fst snd] in Htables3; cbv beta iota; cbn [fst snd];
    [|right; left; congruence].
  rewrite bind_run.
  destruct (drop_staging_spec server staging st3) as (_ & Htables4).
  destruct (drop_staging server staging st3) as [[[]|e] st4];
    cbn [fst snd] in Htables4; cbv beta iota;
    unfold mret, M_ret; cbn [fst snd].
  - right. right. congruence.
  - right. left. congruence.
Qed.

End UploadEffects.

(** X19.  An upload changes the existence of no table other than the
    staging table of its destination: every other table is in the store
    afterwards exactly when it was there before, however the upload ends. *)
Theorem upload_touches_only_staging (host : Host) (server : Server)
    (excel_data : list Byte.byte) (table_name : string)
    (conflict_columns : list string) (st : store) (other : string) :
  other <> staging_of table_name ->
  other ∈ tables (ExcelUploadService.upload_excel_to_table host server
                    excel_data table_name conflict_columns st).2
  <-> other ∈ tables st.
Proof.
  intros Hother.
  assert (Hsame :
    tables (ExcelUploadService.upload_excel_to_table host server excel_data
              table_name conflict_columns st).2
    = tables (ExcelUploadService.upload_steps host server excel_data
                table_name conflict_columns st).2).
  { unfold ExcelUploadService.upload_excel_to_table, try_except.
    by destruct (ExcelUploadService.upload_steps _ _ _ _ _ _) as [[r|e] st']. }
  rewrite Hsame.
  destruct (upload_steps_tables host server excel_data table_name
              conflict_columns st) as [-> | [-> | ->]].
  - done.
  - rewrite elem_of_union, elem_of_difference, elem_of_singleton. tauto.
  - rewrite elem_of_difference, elem_of_union, elem_of_difference,
      elem_of_singleton. tauto.
Qed.

Lemma upload_touches_only_staging_witness :
  "orders" ∈ tables (ExcelUploadService.upload_excel_to_table
                       Examples.one_row_host Examples.copy_fails_server []
                       "orders" ["id"] (Store {["orders"]} [])).2
  <-> "orders" ∈ tables (Store {["orders"]} []).
Proof.
  apply (upload_touches_only_staging Examples.one_row_host
           Examples.copy_fails_server [] "orders" ["id"]
           (Store {["orders"]} []) "orders").
  vm_compute. discriminate.
Defined.

(** ** Cast resolution, continued *)

Lemma dict_get_elem_of {V} (d : pydict V) (key : string) (value : V) :
  dict_get d key = Some value -> (key, value) ∈ d.
Proof.
  induction d as [|[k v] d IH]; [done|]. cbn.
  case_decide; [intros [= ->]; subst; left|]. intros Hget. right. by apply IH.
Qed.

(** X20.  Whatever the store declares, the cast resolution answers with one
    of the type names of its table: a cast to a name outside that list is
    never produced. *)
Theorem column_db_type_in_table (server : Server) (table_name column : string)
    (st : store) (db_type : string) :
  (ExcelUploadService._get_column_db_type server table_name column st).1
  = Return db_type ->
  db_type ∈ (ExcelUploadService.pg_types).*2.
Proof.
  unfold ExcelUploadService._get_column_db_type. rewrite bind_run.
  unfold execute. destruct (failure server (log st) _); [done|].
  assert (Htext : "text" ∈ (ExcelUploadService.pg_types).*2).
  { apply (bool_decide_unpack _). vm_compute. exact I. }
  destruct (answer_data_type server table_name column) as [|data_type more];
    cbn [fst]; [by intros [= <-]|].
  destruct (dict_get ExcelUploadService.pg_types data_type) as [t|] eqn:Hget;
    cbn [default]; intros [= <-]; [|done].
  apply dict_get_elem_of in Hget.
  apply list_elem_of_fmap. by exists (data_type, t).
Qed.

Lemma column_db_type_in_table_witness :
  "varchar" ∈ (ExcelUploadService.pg_types).*2.
Proof.
  apply (column_db_type_in_table Examples.orders_server "orders" "name"
           Examples.empty_store "varchar").
  reflexivity.
Defined.

(** ** The upload when every stage succeeds *)

Section UploadSuccess.
Import ExcelUploadService.
Variable host : Host.
Variable server : Server.

Lemma for_each_returns {S A} (l : list A) (body : A -> M S unit) (s : S) :
  (forall x, x ∈ l -> body x s = (Return tt, s)) ->
  for_each l body s = (Return tt, s).
Proof.
  induction l as [|x l IH]; intros Hbody; [done|].
  cbn [for_each]. rewrite bind_run, Hbody by left.
  apply IH. intros y Hy. apply Hbody. by right.
Qed.

Lemma runs_in_order_app (sent first_part second_part : list statement) :
  runs_in_order server sent (first_part ++ second_part) ->
  runs_in_order server sent first_part
  /\ runs_in_order server (sent ++ first_part) second_part.
Proof.
  revert sent. induction first_part as [|stmt rest IH]; intros sent Hruns.
  - cbn in *. by rewrite app_nil_r.
  - cbn [app runs_in_order] in *. destruct Hruns as [Hstmt Hrest].
    destruct (IH _ Hrest) as [Hfirst Hsecond].
    split; [done|]. by rewrite <- app_assoc in Hsecond.
Qed.

Lemma execute_runs (stmt : statement) (st : store) :
  runs_in_order server (log st) [stmt] ->
  execute server stmt st = (Return tt, Store (tables st) (log st ++ [stmt])).
Proof. intros [Hstmt _]. unfold execute. by rewrite Hstmt. Qed.

Lemma get_column_db_type_runs (table_name column : string) (st : store) :
  runs_in_order server (log st) [type_lookup table_name column] ->
  _get_column_db_type server table_name column st
  = (Return (resolved_type server table_name column),
     Store (tables st) (log st ++ [type_lookup table_name column])).
Proof.
  intros Hruns. unfold _get_column_db_type, resolved_type.
  rewrite bind_run, execute_runs by done.
  by destruct (answer_data_type server table_name column).
Qed.

Lemma cast_columns_runs (table_name : string) (fieldnames : list string)
    (st : store) :
  runs_in_order server (log st) (type_lookup table_name <$> fieldnames) ->
  cast_columns server table_name fieldnames st
  = (Return ((fun col => quoted col ++ "::"
                           ++ resolved_type server table_name col)
               <$> fieldnames),
     Store (tables st) (log st ++ (type_lookup table_name <$> fieldnames))).
Proof.
  revert st. induction fieldnames as [|col rest IH]; intros st Hruns.
  - cbn. rewrite app_nil_r. by destruct st.
  - cbn [cast_columns]. cbn [fmap list_fmap] in Hruns.
    destruct (runs_in_order_app (log st) [type_lookup table_name col]
                (type_lookup table_name <$> rest) Hruns) as [Hcol Hrest].
    rewrite bind_run, get_column_db_type_runs by done.
    rewrite bind_run, IH by done. cbn [tables log fmap list_fmap].
    by rewrite <- app_assoc.
Qed.

Lemma create_staging_runs (fieldnames : list string) (staging : string)
    (st : store) :
  let drop := Sql ("DROP TABLE IF EXISTS " ++ quoted staging) [] in
  let create :=
    Sql ("CREATE TABLE " ++ quoted staging ++ " ("
           ++ join ", " ((fun col => quoted col ++ " text") <$> fieldnames)
           ++ ")") [] in
  runs_in_order server (log st) [drop; create] ->
  create_staging server fieldnames staging st
  = (Return tt,
     Store (tables st ∖ {[staging]} ∪ {[staging]}) (log st ++ [drop; create])).
Proof.
  intros drop create Hruns.
  destruct (runs_in_order_app (log st) [drop] [create] Hruns)
    as [Hdrop Hcreate].
  unfold create_staging, transaction. fold drop. fold create.
  rewrite bind_run, execute_runs by done. unfold dropped at 1.
  rewrite bind_run. cbn [tables log].
  rewrite bind_run, execute_runs by done. unfold created.
  cbn [tables log]. by rewrite <- app_assoc.
Qed.

Lemma copy_to_staging_runs (fieldnames : list string) (staging : string)
    (st : store) :
  let copy :=
    CopyExpert
      ("COPY " ++ quoted staging ++ " (" ++ join ", " fieldnames
         ++ ") FROM STDIN WITH (FORMAT CSV, HEADER TRUE, DELIMITER "
         ++ quoted "," ++ ")") in
  runs_in_order server (log st) [copy] ->
  copy_to_staging server fieldnames staging st
  = (Return tt, Store (tables st) (log st ++ [copy])).
Proof.
  intros copy Hruns. unfold copy_to_staging, transaction. fold copy.
  by rewrite execute_runs.
Qed.

Lemma upsert_runs (table_name : string) (fieldnames conflict_columns : list string)
    (staging : string) (st : store) :
  let insert :=
    Sql ("INSERT INTO " ++ quoted table_name
           ++ " (" ++ join ", " (quoted <$> fieldnames) ++ ")"
           ++ " SELECT "
           ++ join ", "
                ((fun col => quoted col ++ "::"
                               ++ resolved_type server table_name col)
                   <$> fieldnames)
           ++ " FROM " ++ quoted staging
           ++ " ON CONFLICT ("
           ++ join ", " (quoted <$> conflict_columns)
           ++ ") DO UPDATE SET "
           ++ join ", "
                ((fun col => quoted col ++ " = EXCLUDED." ++ quoted col)
                   <$> filter (fun col => col ∉ conflict_columns) fieldnames))
        [] in
  runs_in_order server (log st)
    ((type_lookup table_name <$> fieldnames) ++ [insert]) ->
  upsert server table_name fieldnames conflict_columns staging st
  = (Return tt,
     Store (tables st)
       (log st ++ (type_lookup table_name <$> fieldnames) ++ [insert])).
Proof.
  intros insert Hruns.
  destruct (runs_in_order_app _ _ _ Hruns) as [Hlookups Hinsert].
  unfold upsert, transaction.
  rewrite bind_run, cast_columns_runs by done. fold insert.
  rewrite execute_runs by done. cbn [tables log].
  by rewrite <- app_assoc.
Qed.

Lemma drop_staging_runs (staging : string) (st : store) :
  let drop := Sql ("DROP TABLE IF EXISTS " ++ quoted staging) [] in
  runs_in_order server (log st) [drop] ->
  drop_staging server staging st
  = (Return tt, Store (tables st ∖ {[staging]}) (log st ++ [drop])).
Proof.
  intros drop Hruns. unfold drop_staging, transaction. fold drop.
  by rewrite bind_run, execute_runs.
Qed.

End UploadSuccess.

(** X21.  With a store that runs the statements of the upload when they
    are sent in order, a CSV file that can be written, and parsed rows
    whose keys all occur in the first row, the upload succeeds: it reports
    every parsed row as processed, leaves no staging table, and has sent,
    in this order, the drop and the creation of the staging table with one
    text column per key of the first row, the COPY, one type lookup per
    key, the INSERT that casts each column to its resolved type and updates
    the columns that are not conflict columns, and the final drop. *)
Theorem upload_runs_to_completion (host : Host) (server : Server)
    (excel_data : list Byte.byte) (table_name : string)
    (conflict_columns : list string) (st : store)
    (first : pydict string) (rest : list (pydict string)) :
  let fieldnames := keys first in
  let staging := staging_of table_name in
  let processed := Z.of_nat (List.length (first :: rest)) in
  let drop := Sql ("DROP TABLE IF EXISTS " ++ quoted staging) [] in
  let create :=
    Sql ("CREATE TABLE " ++ quoted staging ++ " ("
           ++ join ", " ((fun col => quoted col ++ " text") <$> fieldnames)
           ++ ")") [] in
  let copy :=
    CopyExpert ("COPY " ++ quoted staging ++ " (" ++ join ", " fieldnames
                  ++ ") FROM STDIN WITH (FORMAT CSV, HEADER TRUE, DELIMITER "
                  ++ quoted "," ++ ")") in
  let insert :=
    Sql ("INSERT INTO " ++ quoted table_name
           ++ " (" ++ join ", " (quoted <$> fieldnames) ++ ")"
           ++ " SELECT "
           ++ join ", " ((fun col => quoted col ++ "::"
                                       ++ resolved_type server table_name col)
                           <$> fieldnames)
           ++ " FROM " ++ quoted staging
           ++ " ON CONFLICT (" ++ join ", " (quoted <$> conflict_columns)
           ++ ") DO UPDATE SET "
           ++ join ", " ((fun col => quoted col ++ " = EXCLUDED." ++ quoted col)
                           <$> filter (fun col => col ∉ conflict_columns)
                                 fieldnames))
        [] in
  let sequence :=
    ([drop; create; copy]
       ++ (type_lookup table_name <$> fieldnames) ++ [insert; drop])%list in
  runs_in_order server (log st) sequence ->
  csv_failure host = None ->
  (ExcelUploadService._read_excel_file_ironxl host excel_data st).1
  = Return (first :: rest) ->
  (forall row key, row ∈ rest -> key ∈ keys row -> key ∈ fieldnames) ->
  ExcelUploadService.upload_excel_to_table host server excel_data table_name
    conflict_columns st
  = (Return (UploadResult true
               ("Archivo cargado y upsert masivo realizado con COPY ("
                  ++ pretty processed ++ " filas)")
               processed None),
     Store (tables st ∖ {[staging]}) (log st ++ sequence)).
Proof.
  intros fieldnames staging processed drop create copy insert sequence.
  intros Hruns Hcsv Hparse Hkeys.
  unfold sequence in Hruns.
  change ([drop; create; copy]
            ++ (type_lookup table_name <$> fieldnames) ++ [insert; drop])%list
    with ([drop; create]
            ++ [copy]
            ++ (type_lookup table_name <$> fieldnames) ++ [insert; drop])%list
    in Hruns.
  destruct (runs_in_order_app server _ _ _ Hruns) as [Hstage Hruns1].
  destruct (runs_in_order_app server _ _ _ Hruns1) as [Hcopy Hruns2].
  replace ((type_lookup table_name <$> fieldnames) ++ [insert; drop])%list
    with (((type_lookup table_name <$> fieldnames) ++ [insert]) ++ [drop])%list
    in Hruns2 by (by rewrite <- app_assoc).
  destruct (runs_in_order_app server _ _ _ Hruns2) as [Hupsert Hdrop].
  unfold ExcelUploadService.upload_excel_to_table, try_except,
    ExcelUploadService.upload_steps.
  rewrite bind_run.
  pose proof (read_excel_state host excel_data st) as Hst.
  destruct (ExcelUploadService._read_excel_file_ironxl host excel_data st)
    as [out st']. cbn [fst snd] in *. subst out st'.
  fold (staging_of table_name). fold staging. fold fieldnames.
  rewrite bind_run.
  assert (Hwrite :
    ExcelUploadService.write_csv host fieldnames (first :: rest) st
    = (Return tt, st)).
  { unfold ExcelUploadService.write_csv. rewrite Hcsv.
    apply for_each_returns. intros row Hrow.
    rewrite bool_decide_eq_true_2; [done|].
    destruct (filter _ (keys row)) as [|bad more] eqn:Hfilter; [done|].
    assert (Hbad : bad ∈ filter (fun k => k ∉ fieldnames) (keys row))
      by (rewrite Hfilter; left).
    apply list_elem_of_filter in Hbad as [Hnot Hin].
    apply elem_of_cons in Hrow as [-> | Hrow]; [done|].
    by destruct (Hnot (Hkeys row bad Hrow Hin)). }
  rewrite Hwrite.
  rewrite bind_run, (create_staging_runs server fieldnames staging st Hstage).
  rewrite bind_run, (copy_to_staging_runs server) by exact Hcopy.
  rewrite bind_run, (upsert_runs server) by exact Hupsert.
  rewrite bind_run, (drop_staging_runs server) by exact Hdrop.
  cbn [tables log]. unfold mret, M_ret. f_equal. f_equal.
  - apply set_eq. intros x.
    rewrite !elem_of_difference, elem_of_union, elem_of_difference,
      elem_of_singleton. tauto.
  - unfold sequence. fold drop. fold create. fold copy. fold insert.
    by rewrite <- !app_assoc.
Qed.

Lemma upload_runs_to_completion_witness :
  exists sent,
    ExcelUploadService.upload_excel_to_table Examples.two_rows_host
      Examples.picky_server [] "orders" ["id"] Examples.empty_store
    = (Return (UploadResult true
                 "Archivo cargado y upsert masivo realizado con COPY (2 filas)"
                 2 None),
       Store (∅ ∖ {[staging_of "orders"]}) sent)
    /\ List.length sent = 7%nat.
Proof.
  eexists. split.
  - apply (upload_runs_to_completion Examples.two_rows_host
             Examples.picky_server [] "orders" ["id"] Examples.empty_store
             [("id", "1"); ("name", "Ana")] [[("id", "2")]]).
    + vm_compute. tauto.
    + reflexivity.
    + vm_compute. reflexivity.
    + intros row key Hrow Hkey.
      apply list_elem_of_singleton in Hrow as ->.
      apply list_elem_of_singleton in Hkey as ->. apply list_elem_of_here.
  - reflexivity.
Defined.

(** The statements of the sample upload, and what the same store answers
    when the only column is the conflict column: the INSERT then has no
    assignment to make and is refused. *)
Example two_rows_upload :
  (ExcelUploadService.upload_excel_to_table Examples.two_rows_host
     Examples.picky_server [] "orders" ["id"] Examples.empty_store).2
  = Store ∅
      [ Sql ("DROP TABLE IF EXISTS " ++ quoted "staging_orders_upsert") [];
        Sql ("CREATE TABLE " ++ quoted "staging_orders_upsert" ++ " ("
               ++ quoted "id" ++ " text, " ++ quoted "name" ++ " text)") [];
        CopyExpert ("COPY " ++ quoted "staging_orders_upsert"
                      ++ " (id, name) FROM STDIN WITH "
                      ++ "(FORMAT CSV, HEADER TRUE, DELIMITER "
                      ++ quoted "," ++ ")");
        type_lookup "orders" "id";
        type_lookup "orders" "name";
        Sql ("INSERT INTO " ++ quoted "orders"
               ++ " (" ++ quoted "id" ++ ", " ++ quoted "name" ++ ")"
               ++ " SELECT " ++ quoted "id" ++ "::integer, "
               ++ quoted "name" ++ "::varchar"
               ++ " FROM " ++ quoted "staging_orders_upsert"
               ++ " ON CONFLICT (" ++ quoted "id" ++ ") DO UPDATE SET "
               ++ quoted "name" ++ " = EXCLUDED." ++ quoted "name") [];
        Sql ("DROP TABLE IF EXISTS " ++ quoted "staging_orders_upsert") [] ].
Proof. vm_compute. reflexivity. Qed.

Example empty_assignment_refused :
  (ExcelUploadService.upload_excel_to_table Examples.one_row_host
     Examples.picky_server [] "orders" ["id"] Examples.empty_store).1
  = Return (UploadResult false
              "Error en carga COPY+upsert: syntax error at end of input" 0
              (Some ["syntax error at end of input"])).
Proof. vm_compute. reflexivity. Qed.

(** ** Clearing a template *)

Section Clearing.
Import TemplateClearing.

(** One step keeps every cell or empties a cell that held data. *)
Lemma clear_cell_step (row_index col_index : Z) (acc : worksheet * bool) :
  let ws := acc.1 in
  let ws' := (clear_cell row_index acc col_index).1 in
  broken ws' = broken ws
  /\ RowCount ws' = RowCount ws /\ ColumnCount ws' = ColumnCount ws
  /\ forall addr,
       Value ws' !! addr = Value ws !! addr
       \/ (addr = ExcelGeneratorService._get_column_letter col_index
                    ++ pretty (row_index + 1)
           /\ (addr ∉ broken ws)
           /\ ~ cell_empty ws addr
           /\ Value ws' !! addr = Some (PyStr "")).
Proof.
  destruct acc as [ws all_empty]. cbn [fst]. unfold clear_cell.
  case_bool_decide as Hbroken; [by auto|].
  destruct (truthy _) eqn:Htruthy; [|by auto].
  cbn [fst blank_out broken RowCount ColumnCount Value].
  split_and!; try done. intros addr.
  destruct (decide (addr = ExcelGeneratorService._get_column_letter col_index
                            ++ pretty (row_index + 1))) as [->|Hne].
  - right. split_and!; [done|done| |by rewrite lookup_insert_eq].
    unfold cell_empty. by rewrite Htruthy.
  - left. by rewrite lookup_insert_ne.
Qed.

(** After the step, the cell it visited is empty unless its access
    raises. *)
Lemma clear_cell_visited (row_index col_index : Z) (acc : worksheet * bool) :
  let addr := ExcelGeneratorService._get_column_letter col_index
                ++ pretty (row_index + 1) in
  addr ∉ broken acc.1 ->
  cell_empty (clear_cell row_index acc col_index).1 addr.
Proof.
  destruct acc as [ws all_empty]. cbn [fst]. intros Hbroken.
  unfold clear_cell. rewrite bool_decide_eq_false_2 by done.
  destruct (truthy _) eqn:Htruthy; cbn [fst]; [|done].
  unfold cell_empty, blank_out. cbn [Value]. by rewrite lookup_insert_eq.
Qed.

Lemma cleared_from_refl (ws : worksheet) : cleared_from ws ws.
Proof. unfold cleared_from. auto. Qed.

Lemma cleared_from_trans (ws1 ws2 ws3 : worksheet) :
  cleared_from ws1 ws2 -> cleared_from ws2 ws3 -> cleared_from ws1 ws3.
Proof.
  intros (Hb1 & Hr1 & Hc1 & Hv1) (Hb2 & Hr2 & Hc2 & Hv2).
  split_and!; try congruence. intros addr.
  destruct (Hv2 addr) as [Heq2|(Hnb & Hdata & Hblank)],
           (Hv1 addr) as [Heq1|(Hnb1 & Hdata1 & Hblank1)].
  - left. congruence.
  - right. split_and!; [done|done|congruence].
  - right. split_and!; [congruence| |done].
    unfold cell_empty in *. by rewrite <- Heq1.
  - right. done.
Qed.

Lemma cleared_from_empty (ws ws' : worksheet) (addr : string) :
  cleared_from ws ws' -> cell_empty ws addr -> cell_empty ws' addr.
Proof.
  intros (_ & _ & _ & Hv) Hempty.
  destruct (Hv addr) as [Heq|(_ & Hdata & _)]; [|done].
  unfold cell_empty in *. by rewrite Heq.
Qed.

Lemma clear_cell_cleared (row_index col_index : Z) (acc : worksheet * bool) :
  cleared_from acc.1 (clear_cell row_index acc col_index).1.
Proof.
  destruct (clear_cell_step row_index col_index acc) as (Hb & Hr & Hc & Hv).
  split_and!; try done. intros addr.
  destruct (Hv addr) as [Heq|(_ & Hnb & Hdata & Hblank)]; auto.
Qed.

Lemma clear_columns_cleared (row_index : Z) (cols : list Z)
    (acc : worksheet * bool) :
  cleared_from acc.1 (foldl (clear_cell row_index) acc cols).1.
Proof.
  revert acc. induction cols as [|col cols IH]; intros acc.
  - apply cleared_from_refl.
  - cbn [foldl]. eapply cleared_from_trans; [apply clear_cell_cleared|apply IH].
Qed.

Lemma clear_rows_cleared (rows : list Z) (num_columns : Z) (ws : worksheet) :
  cleared_from ws (clear_rows rows num_columns ws).
Proof.
  revert ws. induction rows as [|row_index rows IH]; intros ws.
  - apply cleared_from_refl.
  - cbn [clear_rows].
    pose proof (clear_columns_cleared row_index (range num_columns) (ws, true))
      as Hrow.
    destruct (foldl _ _ _) as [ws1 all_empty]. cbn [fst] in Hrow.
    destruct (all_empty && _); [done|].
    eapply cleared_from_trans; [exact Hrow|apply IH].
Qed.

(** Addresses a scan of [rows] over [cols] can write to. *)
Lemma clear_columns_scope (row_index : Z) (cols : list Z)
    (acc : worksheet * bool) (addr : string) :
  (forall col, col ∈ cols ->
     addr <> ExcelGeneratorService._get_column_letter col
               ++ pretty (row_index + 1)) ->
  Value (foldl (clear_cell row_index) acc cols).1 !! addr = Value acc.1 !! addr.
Proof.
  revert acc. induction cols as [|col cols IH]; intros acc Haddr; [done|].
  cbn [foldl]. rewrite IH by (intros c Hc; apply Haddr; by right).
  destruct (clear_cell_step row_index col acc) as (_ & _ & _ & Hv).
  destruct (Hv addr) as [Heq|(Heq & _)]; [done|].
  destruct (Haddr col ltac:(left) Heq).
Qed.

Lemma clear_rows_scope (rows : list Z) (num_columns : Z) (ws : worksheet)
    (addr : string) :
  (forall row_index col, row_index ∈ rows -> col ∈ range num_columns ->
     addr <> ExcelGeneratorService._get_column_letter col
               ++ pretty (row_index + 1)) ->
  Value (clear_rows rows num_columns ws) !! addr = Value ws !! addr.
Proof.
  revert ws. induction rows as [|row_index rows IH]; intros ws Haddr; [done|].
  cbn [clear_rows].
  pose proof (clear_columns_scope row_index (range num_columns) (ws, true) addr
                (fun col Hcol => Haddr row_index col ltac:(left) Hcol)) as Hrow.
  destruct (foldl _ _ _) as [ws1 all_empty]. cbn [fst] in Hrow.
  destruct (all_empty && _); [done|].
  rewrite IH; [done|]. intros r c Hr Hc. apply Haddr; [by right|done].
Qed.

Lemma elem_of_range_from (a b r : Z) : r ∈ range_from a b <-> a <= r < b.
Proof.
  unfold range_from. rewrite list_elem_of_fmap. split.
  - intros (k & -> & Hk). apply elem_of_seq in Hk. lia.
  - intros Hr. exists (Z.to_nat (r - a)). split; [lia|].
    apply elem_of_seq. lia.
Qed.

End Clearing.

(** X22.  Clearing a template changes nothing but cell values, and a cell
    it changes is one whose access does not raise, that held data, and that
    now holds the empty text; the extent of the sheet stays as it was. *)
Theorem clear_data_only_blanks_data (ws : worksheet) (num_columns : Z) :
  cleared_from ws (TemplateClearing._clear_data_preserve_format ws num_columns).
Proof. apply clear_rows_cleared. Qed.

(** X23.  Clearing leaves the header row alone, and every column from
    [num_columns] on, and every row below row 2000: a cell is untouched
    unless it lies in rows 2 to 2000 of the first [num_columns] columns. *)
Theorem clear_data_scope (ws : worksheet) (num_columns col row : Z) :
  0 <= col ->
  ~ (col < num_columns /\ 2 <= row <= 2000) ->
  Value (TemplateClearing._clear_data_preserve_format ws num_columns)
    !! (ExcelGeneratorService._get_column_letter col ++ pretty row)
  = Value ws !! (ExcelGeneratorService._get_column_letter col ++ pretty row).
Proof.
  intros Hcol Hout. apply clear_rows_scope.
  intros row_index col' Hrow Hcol' Heq.
  apply elem_of_range_from in Hrow. apply elem_of_range in Hcol'.
  apply address_determines_cell in Heq as [-> ->]; lia.
Qed.

Lemma clear_data_scope_witness :
  Value (TemplateClearing._clear_data_preserve_format Examples.template_sheet 2)
    !! (ExcelGeneratorService._get_column_letter 0 ++ pretty 1)
  = Value Examples.template_sheet
      !! (ExcelGeneratorService._get_column_letter 0 ++ pretty 1).
Proof. apply (clear_data_scope Examples.template_sheet 2 0 1); lia. Defined.

Section ClearingReach.
Import TemplateClearing.

Lemma clear_columns_visited (row_index : Z) (cols : list Z)
    (acc : worksheet * bool) (col : Z) :
  let addr := ExcelGeneratorService._get_column_letter col
                ++ pretty (row_index + 1) in
  col ∈ cols -> addr ∉ broken acc.1 ->
  cell_empty (foldl (clear_cell row_index) acc cols).1 addr.
Proof.
  cbv zeta. revert acc. induction cols as [|c cols IH]; intros acc Hin Hbroken;
    [by inversion Hin|].
  cbn [foldl]. apply elem_of_cons in Hin as [->|Hin].
  - eapply cleared_from_empty; [apply clear_columns_cleared|].
    by apply clear_cell_visited.
  - apply IH; [done|].
    destruct (clear_cell_cleared row_index c acc) as (-> & _). done.
Qed.

Lemma range_from_cons (a b : Z) :
  a < b -> range_from a b = a :: range_from (a + 1) b.
Proof.
  intros Hab. unfold range_from.
  replace (Z.to_nat (b - a)) with (S (Z.to_nat (b - (a + 1)))) by lia.
  cbn [seq fmap list_fmap]. f_equal; [lia|].
  rewrite <- fmap_S_seq, <- list_fmap_compose.
  apply list_fmap_ext. intros _ k _. cbn. lia.
Qed.

(** The scan does not stop before it has visited row index 16. *)
Lemma clear_rows_visited (n : nat) (a b : Z) (num_columns : Z) (ws : worksheet)
    (row_index col : Z) :
  let addr := ExcelGeneratorService._get_column_letter col
                ++ pretty (row_index + 1) in
  n = Z.to_nat (b - a) ->
  a <= row_index < b -> row_index <= 16 ->
  col ∈ range num_columns -> addr ∉ broken ws ->
  cell_empty (clear_rows (range_from a b) num_columns ws) addr.
Proof.
  cbv zeta. revert a ws. induction n as [|n IH]; intros a ws Hn Hrow Hmax Hcol Hbroken;
    [lia|].
  rewrite range_from_cons by lia. cbn [clear_rows].
  pose proof (clear_columns_cleared a (range num_columns) (ws, true)) as Hstep.
  pose proof (clear_columns_visited a (range num_columns) (ws, true) col) as Hvisit.
  destruct (foldl _ _ _) as [ws1 all_empty]. cbn [fst] in Hstep, Hvisit.
  destruct (decide (row_index = a)) as [->|Hne].
  - specialize (Hvisit Hcol Hbroken).
    destruct (all_empty && _); [done|].
    eapply cleared_from_empty; [apply clear_rows_cleared|done].
  - assert (Hcontinue : (15 <? a) = false) by lia.
    rewrite Hcontinue, andb_false_r.
    apply IH; [lia|lia|done|done|].
    destruct Hstep as (-> & _). done.
Qed.

End ClearingReach.

(** X24.  Clearing always reaches rows 2 to 17: afterwards each cell of
    those rows in the first [num_columns] columns is empty, unless its
    access raises, whatever the sheet held and wherever the scan stopped. *)
Theorem clear_data_first_rows (ws : worksheet) (num_columns col row : Z) :
  let addr := ExcelGeneratorService._get_column_letter col ++ pretty row in
  0 <= col < num_columns -> 2 <= row <= 17 -> addr ∉ broken ws ->
  cell_empty (TemplateClearing._clear_data_preserve_format ws num_columns) addr.
Proof.
  cbv zeta. intros Hcol Hrow Hbroken.
  unfold TemplateClearing._clear_data_preserve_format.
  replace row with (row - 1 + 1) in * by lia.
  apply (clear_rows_visited (Z.to_nat (2000 - 1)) 1 2000); try done; try lia.
  unfold range. apply list_elem_of_fmap. exists (Z.to_nat col).
  split; [lia|]. apply elem_of_seq. lia.
Qed.

Lemma clear_data_first_rows_witness :
  cell_empty (TemplateClearing._clear_data_preserve_format
                Examples.template_sheet 2)
    (ExcelGeneratorService._get_column_letter 1 ++ pretty 2).
Proof.
  apply (clear_data_first_rows Examples.template_sheet 2 1 2); [lia|lia|].
  apply (bool_decide_unpack _). vm_compute. exact I.
Defined.

(** What clearing makes of the sample template: the data of rows 2 and 3 in
    the two columns is emptied; the title row, the third column and the
    footer, which lies below the first empty row after row 16, stay. *)
Example clear_template_sheet :
  let cleared :=
    TemplateClearing._clear_data_preserve_format Examples.template_sheet 2 in
  Value cleared !! "A1" = Some (PyStr "Id")
  /\ Value cleared !! "A2" = Some (PyStr "")
  /\ Value cleared !! "B2" = Some (PyStr "")
  /\ Value cleared !! "A3" = Some (PyStr "")
  /\ Value cleared !! "C3" = Some (PyStr "note")
  /\ Value cleared !! "A40" = Some (PyStr "footer").
Proof. cbv zeta. split_and!; vm_compute; reflexivity. Qed.

(** ** The HTTP endpoints *)

Lemma upload_returns (host : Host) (server : Server)
    (excel_data : list Byte.byte) (table_name : string)
    (conflict_columns : list string) (st : store) :
  exists result st',
    ExcelUploadService.upload_excel_to_table host server excel_data table_name
      conflict_columns st = (Return result, st').
Proof.
  unfold ExcelUploadService.upload_excel_to_table, try_except.
  destruct (ExcelUploadService.upload_steps _ _ _ _ _ _) as [[r|e] st'];
    by eexists _, _.
Qed.

(** X25.  For a file whose name ends in [.xlsx] or [.xls], that can be read,
    with the upload service built, the upload endpoint always responds: its
    body is the result of the pipeline, also when that result reports a
    failure, and no [HTTPException] is raised. *)
Theorem upload_excel_always_responds (runtime : Runtime) (host : Host)
    (server : Server) (file : UploadFile) (table name : string)
    (file_content : list Byte.byte) (st : store) :
  filename file = Some name ->
  endswith name ".xlsx" || endswith name ".xls" = true ->
  read file = Return file_content ->
  upload_service_failure runtime = None ->
  exists result st',
    ExcelUploadService.upload_excel_to_table host server file_content table
      ["id"] st = (Return result, st')
    /\ excel_controller.upload_excel runtime host server file table st
       = (Responded result, st').
Proof.
  intros Hname Hext Hread Hservice.
  destruct (upload_returns host server file_content table ["id"] st)
    as (result & st' & Hrun).
  exists result, st'. split; [done|].
  unfold excel_controller.upload_excel, excel_controller.upload_excel_steps.
  rewrite Hname, Hext. cbn [negb]. rewrite bind_run, Hread. unfold lift.
  rewrite Hservice, bind_run, Hrun. unfold mret, M_ret. by destruct result.
Qed.

Lemma upload_excel_always_responds_witness :
  exists result st',
    ExcelUploadService.upload_excel_to_table Examples.headless_host
      Examples.orders_server [] "orders" ["id"] Examples.empty_store
    = (Return result, st')
    /\ excel_controller.upload_excel Examples.services_up
         Examples.headless_host Examples.orders_server Examples.report_xlsx
         "orders" Examples.empty_store
       = (Responded result, st').
Proof.
  apply (upload_excel_always_responds Examples.services_up
           Examples.headless_host Examples.orders_server Examples.report_xlsx
           "orders" "report.xlsx" [] Examples.empty_store); reflexivity.
Defined.

(** X26.  A file whose name ends neither in [.xlsx] nor in [.xls] is
    refused with status 400 before it is read: nothing reaches the
    pipeline or the store. *)
Theorem upload_excel_rejects_extension (runtime : Runtime) (host : Host)
    (server : Server) (file : UploadFile) (table name : string) (st : store) :
  filename file = Some name ->
  endswith name ".xlsx" || endswith name ".xls" = false ->
  excel_controller.upload_excel runtime host server file table st
  = (HTTPException 400 "El archivo debe ser .xlsx o .xls", st).
Proof.
  intros Hname Hext.
  unfold excel_controller.upload_excel, excel_controller.upload_excel_steps.
  by rewrite Hname, Hext.
Qed.

Lemma upload_excel_rejects_extension_witness :
  excel_controller.upload_excel Examples.services_up Examples.one_row_host
    Examples.orders_server Examples.report_csv "orders" Examples.empty_store
  = (HTTPException 400 "El archivo debe ser .xlsx o .xls",
     Examples.empty_store).
Proof.
  apply (upload_excel_rejects_extension Examples.services_up
           Examples.one_row_host Examples.orders_server Examples.report_csv
           "orders" "report.csv" Examples.empty_store); reflexivity.
Defined.

(** X27.  Asking the whole-table endpoint for a table without columns
    gives status 500, with the message of the export under the prefix of
    the endpoint, after the column lookup alone. *)
Theorem download_whole_table_unknown_table (runtime : Runtime) (server : Server)
    (_create_excel_file :
       list (pydict pyvalue) -> list string -> string -> outcome (list Byte.byte))
    (table_name template : string) (st : store) :
  let lookup :=
    Sql DatabaseManager.columns_sql [("table_name", PyStr table_name)] in
  generator_service_failure runtime = None ->
  failure server (log st) lookup = None ->
  answer_columns server table_name = [] ->
  excel_controller.download_whole_table runtime server _create_excel_file
    table_name template st
  = (HTTPException 500
       ("Error: Error generando Excel de tabla completa: Error accediendo a tabla: Tabla '"
          ++ table_name ++ "' no encontrada"),
     Store (tables st) (log st ++ [lookup])).
Proof.
  cbv zeta. intros Hservice Hlookup Hnone.
  unfold excel_controller.download_whole_table,
    excel_controller.download_whole_table_steps.
  rewrite Hservice, bind_run.
  by rewrite full_table_export_missing.
Qed.

Lemma download_whole_table_unknown_table_witness :
  excel_controller.download_whole_table Examples.services_up
    Examples.orders_server Examples.no_workbook "invoices"
    "default_template.xlsx" Examples.empty_store
  = (HTTPException 500
       "Error: Error generando Excel de tabla completa: Error accediendo a tabla: Tabla 'invoices' no encontrada",
     Store ∅ [Sql DatabaseManager.columns_sql [("table_name", PyStr "invoices")]]).
Proof.
  apply (download_whole_table_unknown_table Examples.services_up
           Examples.orders_server Examples.no_workbook "invoices"
           "default_template.xlsx" Examples.empty_store); reflexivity.
Defined.

(** ** White space *)

(** [strip] on texts with white space of one, two and three bytes. *)
Example strip_samples :
  strip "  a b  " = "a b"
  /\ strip Examples.id_nbsp = "id"
  /\ strip (Examples.wide_blank ++ " x " ++ Examples.wide_blank) = "x"
  /\ strip Examples.wide_blank = ""
  /\ strip "" = "".
Proof. split_and!; vm_compute; reflexivity. Qed.
